(** * teams-ai-agent: tool selection, execution and result formatting

    A shallow embedding of the TypeScript sources

      - src/githubOAuth.ts, src/tokenStore.ts   (credential store)
      - src/mcpClient.ts                         (remote tool client)
      - src/githubToolParser.ts                  (pattern intent resolver)
      - src/githubMcpService.ts                  (catalog, executor, formatter)
      - src/app/app.ts                           (message handler)

    Tool results are JSON documents handled through JavaScript's dynamic
    coercions, so the development starts with the fragment of the
    language the sources rely on: values, truthiness, property access,
    ToPrimitive / ToString, Array.prototype.join and JSON.stringify. *)

From Stdlib Require Import ZArith String Ascii List Bool Lia.
From stdpp Require Import base option list gmap strings pretty.
Import ListNotations.

Set Warnings "-register-all,-abstract-large-number".
Local Open Scope Z_scope.
Local Open Scope string_scope.

(* ================================================================== *)
(** ** The JavaScript fragment                                         *)
(* ================================================================== *)

Module JS.

(** Values as [JSON.parse] produces them, plus [undefined], which is
    what reading an absent property yields.  An object is the list of
    its own enumerable properties in enumeration order (the order of
    [Object.entries]); numbers are the integers GitHub payloads carry
    (ids, counts, epoch milliseconds). *)
Inductive value : Type :=
| JUndefined
| JNull
| JBool (b : bool)
| JNum (z : Z)
| JStr (s : string)
| JArr (items : list value)
| JObj (props : list (string * value)).

(** What a [throw] carries: an [Error] instance with its [message], or
    some other thrown value.  The engine's own TypeErrors are [Error]
    instances; their message text is engine specific and is never
    observed by the code below. *)
Inductive exn : Type :=
| Error (message : string)
| NonError.

Definition TypeError : exn := Error "TypeError".

(** The [RangeError] of an exhausted call stack, an [Error] instance
    too; the message is V8's. *)
Definition RangeError : exn := Error "Maximum call stack size exceeded".

(** Completion of an expression that may throw. *)
Inductive result (A : Type) : Type :=
| Ok (a : A)
| Throw (e : exn).
Arguments Ok {A} a.
Arguments Throw {A} e.

Definition bind {A B} (m : result A) (k : A -> result B) : result B :=
  match m with
  | Ok a => k a
  | Throw e => Throw e
  end.

(** [try { body } catch (error) { handler }] *)
Definition try_catch {A} (body : result A) (handler : exn -> result A)
  : result A :=
  match body with
  | Ok a => Ok a
  | Throw e => handler e
  end.

(** [items.map(f)] for a callback that may throw: elements are
    visited from the left and the first throw ends the loop. *)
Fixpoint mapR {A B} (f : A -> result B) (l : list A) : result (list B) :=
  match l with
  | [] => Ok []
  | x :: rest =>
      bind (f x) (fun y => bind (mapR f rest) (fun ys => Ok (y :: ys)))
  end.

Definition is_ok {A} (m : result A) : bool :=
  match m with Ok _ => true | Throw _ => false end.

(** [error instanceof Error ? error.message : 'Unknown error'] *)
Definition message_or_unknown (e : exn) : string :=
  match e with
  | Error m => m
  | NonError => "Unknown error"
  end.

(** *** Truthiness, [typeof], [Array.isArray] *)

Definition truthy (v : value) : bool :=
  match v with
  | JUndefined | JNull => false
  | JBool b => b
  | JNum z => negb (z =? 0)%Z
  | JStr s => negb (String.eqb s "")
  | JArr _ | JObj _ => true
  end.

Definition typeof (v : value) : string :=
  match v with
  | JUndefined => "undefined"
  | JNull | JArr _ | JObj _ => "object"
  | JBool _ => "boolean"
  | JNum _ => "number"
  | JStr _ => "string"
  end.

Definition isArray (v : value) : bool :=
  match v with JArr _ => true | _ => false end.

(** [a || b] and [a && b] on values. *)
Definition or_else (a b : value) : value := if truthy a then a else b.
Definition and_then (a b : value) : value := if truthy a then b else a.

(** *** Property access *)

Fixpoint own (k : string) (props : list (string * value)) : option value :=
  match props with
  | [] => None
  | (k', v) :: rest => if String.eqb k k' then Some v else own k rest
  end.

Definition has_own (k : string) (props : list (string * value)) : bool :=
  match own k props with Some _ => true | None => false end.

Definition str_length (s : string) : Z := Z.of_nat (String.length s).
Definition arr_length (l : list value) : Z := Z.of_nat (List.length l).

(** [v?.k] for the property names the sources read.  None of them is
    defined on [Object.prototype], [Number.prototype] or
    [Boolean.prototype]; strings and arrays contribute [length]. *)
Definition get_opt (v : value) (k : string) : value :=
  match v with
  | JObj props => match own k props with Some x => x | None => JUndefined end
  | JArr items => if String.eqb k "length" then JNum (arr_length items)
                  else JUndefined
  | JStr s => if String.eqb k "length" then JNum (str_length s)
              else JUndefined
  | _ => JUndefined
  end.

(** [v.k]: reading a property of [null] or [undefined] throws. *)
Definition get (v : value) (k : string) : result value :=
  match v with
  | JUndefined | JNull => Throw TypeError
  | _ => Ok (get_opt v k)
  end.

(** *** ToString *)

Definition bool_to_string (b : bool) : string :=
  if b then "true" else "false".

Definition num_to_string (z : Z) : string := pretty z.

(** [Array.prototype.join]: [undefined] and [null] elements render as
    the empty string, the others through the element renderer; the
    first element that throws aborts the join. *)
Definition join_elem (f : value -> result string) (x : value)
  : result string :=
  match x with
  | JUndefined | JNull => Ok ""
  | _ => f x
  end.

Fixpoint joinR (sep : string) (parts : list (result string))
  : result string :=
  match parts with
  | [] => Ok ""
  | p :: rest =>
      match rest with
      | [] => p
      | _ => bind p (fun s => bind (joinR sep rest) (fun r =>
               Ok (s ++ sep ++ r)))
      end
  end.

(** ToString (template literals, [String(x)], join).  A plain object
    prints as [[object Object]] through [Object.prototype.toString];
    an own property named [toString] (never callable in parsed JSON)
    shadows it and OrdinaryToPrimitive then fails with a TypeError.
    An array prints as its elements joined with a comma, each nested
    array through a further call of [join]: [depth] is how many such
    calls the stack still allows, and the one that would go deeper
    throws a RangeError. *)
Fixpoint ToString_within (depth : nat) (v : value) {struct v}
  : result string :=
  match v with
  | JUndefined => Ok "undefined"
  | JNull => Ok "null"
  | JBool b => Ok (bool_to_string b)
  | JNum z => Ok (num_to_string z)
  | JStr s => Ok s
  | JArr items =>
      match depth with
      | O => Throw RangeError
      | S below =>
          joinR "," (map (join_elem (ToString_within below)) items)
      end
  | JObj props =>
      if has_own "toString" props then Throw TypeError
      else Ok "[object Object]"
  end.

(** *** JSON.stringify *)

(** The line feed the sources write as [\n]. *)
Definition newline : string := String (ascii_of_N 10) "".

Definition hex_digit (n : N) : ascii :=
  match n with
  | 0%N => "0" | 1%N => "1" | 2%N => "2" | 3%N => "3" | 4%N => "4"
  | 5%N => "5" | 6%N => "6" | 7%N => "7" | 8%N => "8" | 9%N => "9"
  | 10%N => "a" | 11%N => "b" | 12%N => "c" | 13%N => "d" | 14%N => "e"
  | _ => "f"
  end%char.

(** One character of QuoteJSONString. *)
Definition quote_char (c : ascii) : string :=
  let n := N_of_ascii c in
  if (n =? 8)%N then "\b"
  else if (n =? 9)%N then "\t"
  else if (n =? 10)%N then "\n"
  else if (n =? 12)%N then "\f"
  else if (n =? 13)%N then "\r"
  else if (n =? 34)%N then String "\" (String (ascii_of_N 34) "")
  else if (n =? 92)%N then "\\"
  else if (n <? 32)%N then
    "\u00" ++ String (hex_digit (n / 16)) (String (hex_digit (n mod 16)) "")
  else String c "".

Fixpoint quote_body (s : string) : string :=
  match s with
  | EmptyString => ""
  | String c rest => quote_char c ++ quote_body rest
  end.

Definition dquote : string := String (ascii_of_N 34) "".

Definition quote (s : string) : string := dquote ++ quote_body s ++ dquote.

(** The bracketing step shared by SerializeJSONObject and
    SerializeJSONArray: [indent] is the indentation on entry
    (stepback), [inner] the indentation of the members. *)
Definition wrap (open close gap indent inner : string)
    (parts : list string) : string :=
  match parts with
  | [] => open ++ close
  | _ =>
      if String.eqb gap "" then open ++ String.concat "," parts ++ close
      else open ++ newline ++ inner
           ++ String.concat ("," ++ newline ++ inner) parts
           ++ newline ++ indent ++ close
  end.

(** SerializeJSONProperty; [None] is the [undefined] it returns for an
    [undefined] value (omitted from objects, [null] inside arrays).
    Every array and every object costs a nested call: [depth] is how
    many the stack still allows, and the one that would go deeper
    throws a RangeError. *)
Fixpoint serialize (gap indent : string) (depth : nat) (v : value)
    {struct v} : result (option string) :=
  match v with
  | JUndefined => Ok None
  | JNull => Ok (Some "null")
  | JBool b => Ok (Some (bool_to_string b))
  | JNum z => Ok (Some (num_to_string z))
  | JStr s => Ok (Some (quote s))
  | JArr items =>
      match depth with
      | O => Throw RangeError
      | S below =>
          let inner := indent ++ gap in
          bind (mapR (fun x =>
                        bind (serialize gap inner below x) (fun s =>
                          Ok match s with
                             | Some s => s
                             | None => "null"
                             end)) items)
            (fun parts => Ok (Some (wrap "[" "]" gap indent inner parts)))
      end
  | JObj props =>
      match depth with
      | O => Throw RangeError
      | S below =>
          let inner := indent ++ gap in
          bind (mapR (fun kv : string * value =>
                        bind (serialize gap inner below (snd kv)) (fun s =>
                          Ok match s with
                             | Some s =>
                                 [quote (fst kv) ++ ":"
                                  ++ (if String.eqb gap "" then "" else " ")
                                  ++ s]
                             | None => []
                             end)) props)
            (fun parts =>
               Ok (Some (wrap "{" "}" gap indent inner (List.concat parts))))
      end
  end.

(** *** The host *)

(** What the program takes from its surroundings: the locale and time
    zone behind [toLocaleDateString], the numeric reading of a string
    (StringToNumber, needed only when a non-numeric value meets [>]),
    [process.env], and the room the call stack leaves: how many levels
    below the value it is given [JSON.stringify] can descend, and how
    many nested arrays below its own [join] can. *)
Class Host : Type := {
  toLocaleDateString : value -> string;
  string_gt : string -> Z -> bool;
  env : string -> option string;
  json_depth : nat;
  join_depth : nat
}.

Section WithHost.
Context {host : Host}.

Definition ToString (v : value) : result string :=
  ToString_within (S join_depth) v.

(** [items.join(sep)] *)
Definition join (sep : string) (items : list value) : result string :=
  joinR sep (map (join_elem (ToString_within join_depth)) items).

(** ToPrimitive: primitives are left alone, objects and arrays become
    the string ToString gives them (for parsed JSON the number hint and
    the string hint agree: [valueOf] never yields a primitive). *)
Definition ToPrimitive (v : value) : result value :=
  match v with
  | JArr _ | JObj _ => bind (ToString v) (fun s => Ok (JStr s))
  | _ => Ok v
  end.

(** [`${v}`] of a property read [o.k]. *)
Definition show (v : value) : result string := ToString v.

(** [`${JSON.stringify(v)}`] and [`${JSON.stringify(v, null, 2)}`]:
    the template literal prints an [undefined] outcome as such. *)
Definition stringify (v : value) : result string :=
  bind (serialize "" "" (S json_depth) v) (fun s =>
    Ok match s with Some s => s | None => "undefined" end).

Definition stringify2 (v : value) : result string :=
  bind (serialize "  " "" (S json_depth) v) (fun s =>
    Ok match s with Some s => s | None => "undefined" end).

(** [new Date(v).toLocaleDateString()]: the constructor applies
    ToPrimitive to its argument, the rest is the host's. *)
Definition dateString (v : value) : result string :=
  bind (ToPrimitive v) (fun p => Ok (toLocaleDateString p)).

(** [v > n] for a numeric literal [n]; [undefined] reads as NaN. *)
Definition gt (v : value) (n : Z) : result bool :=
  bind (ToPrimitive v) (fun p =>
    Ok match p with
       | JNull => (0 >? n)%Z
       | JBool b => ((if b then 1 else 0) >? n)%Z
       | JNum z => (z >? n)%Z
       | JStr s => string_gt s n
       | _ => false
       end).
End WithHost.

Module Import Notations.
Notation "x <- m ;; k" := (bind m (fun x => k))
  (at level 100, m at next level, right associativity).
End Notations.

End JS.

(* ================================================================== *)
(** ** Strings and regular expressions                                 *)
(* ================================================================== *)

(** Strings are sequences of characters; the model is exact on ASCII
    text, which is what the trigger phrases and patterns are made of. *)
Module Str.

Definition is_upper (c : ascii) : bool :=
  let n := N_of_ascii c in ((65 <=? n) && (n <=? 90))%N.
Definition is_lower (c : ascii) : bool :=
  let n := N_of_ascii c in ((97 <=? n) && (n <=? 122))%N.
Definition is_digit (c : ascii) : bool :=
  let n := N_of_ascii c in ((48 <=? n) && (n <=? 57))%N.

(** [\s]: tab, line feed, vertical tab, form feed, carriage return,
    space. *)
Definition is_space (c : ascii) : bool :=
  let n := N_of_ascii c in (((9 <=? n) && (n <=? 13)) || (n =? 32))%N.

Definition lower_char (c : ascii) : ascii :=
  if is_upper c then ascii_of_N (N_of_ascii c + 32) else c.

Fixpoint toLowerCase (s : string) : string :=
  match s with
  | EmptyString => EmptyString
  | String c rest => String (lower_char c) (toLowerCase rest)
  end.

Fixpoint trimStart (s : string) : string :=
  match s with
  | String c rest => if is_space c then trimStart rest else s
  | EmptyString => EmptyString
  end.

(** Drops the white space at the end: a character is kept when it is
    not a space or something is kept after it. *)
Fixpoint trimEnd (s : string) : string :=
  match s with
  | EmptyString => EmptyString
  | String c rest =>
      match trimEnd rest with
      | EmptyString => if is_space c then EmptyString else String c EmptyString
      | kept => String c kept
      end
  end.

Definition trim (s : string) : string := trimEnd (trimStart s).

Fixpoint startsWith (p s : string) : bool :=
  match p, s with
  | EmptyString, _ => true
  | String a p', String b s' => Ascii.eqb a b && startsWith p' s'
  | String _ _, EmptyString => false
  end.

(** [s.includes(p)] *)
Fixpoint includes (s p : string) : bool :=
  startsWith p s ||
  match s with
  | EmptyString => false
  | String _ rest => includes rest p
  end.

(** [s.substring(0, n)] *)
Fixpoint take (n : nat) (s : string) : string :=
  match n, s with
  | S n', String c rest => String c (take n' rest)
  | _, _ => EmptyString
  end.

(** [s.split(sep)] for a one-character separator. *)
Fixpoint split_on (sep : ascii -> bool) (s : string) : list string :=
  match s with
  | EmptyString => [EmptyString]
  | String c rest =>
      if sep c then EmptyString :: split_on sep rest
      else match split_on sep rest with
           | w :: ws => String c w :: ws
           | [] => [String c EmptyString]
           end
  end.

(** [s.split(/\s+/)]: a maximal run of white space separates;
    [in_run] tells that the previous character was white space. *)
Fixpoint split_spaces_from (in_run : bool) (s : string) : list string :=
  match s with
  | EmptyString => [EmptyString]
  | String c rest =>
      if is_space c then
        if in_run then split_spaces_from true rest
        else EmptyString :: split_spaces_from true rest
      else match split_spaces_from false rest with
           | w :: ws => String c w :: ws
           | [] => [String c EmptyString]
           end
  end.

Definition split_spaces (s : string) : list string :=
  split_spaces_from false s.

(** [parseInt(digits, 10)] on a run of decimal digits. *)
Fixpoint parseInt_from (acc : Z) (s : string) : Z :=
  match s with
  | String c rest =>
      if is_digit c
      then parseInt_from (10 * acc + Z.of_N (N_of_ascii c - 48)) rest
      else acc
  | EmptyString => acc
  end.

Definition parseInt (s : string) : Z := parseInt_from 0 s.

End Str.

(** A backtracking matcher for the regular expressions of the sources:
    literals, character classes, sequence, ordered alternation, greedy
    [+] over a class, greedy [?], numbered capture groups, and the [i]
    flag.  [String.prototype.match] without the [g] flag returns the
    leftmost match with its captures. *)
Module Regex.

Inductive re : Type :=
| Lit (s : string)
| Class (p : ascii -> bool)
| Plus (p : ascii -> bool)
| Seq (a b : re)
| Alt (a b : re)
| Opt (a : re)
| Group (i : nat) (a : re).

(** Captures: group number and captured text, most recent first. *)
Definition captures : Type := list (nat * string).

Fixpoint capture (i : nat) (caps : captures) : option string :=
  match caps with
  | [] => None
  | (j, s) :: rest => if Nat.eqb i j then Some s else capture i rest
  end.

Definition same_char (ignoreCase : bool) (a b : ascii) : bool :=
  if ignoreCase then Ascii.eqb (Str.lower_char a) (Str.lower_char b)
  else Ascii.eqb a b.

(** Consumes the literal [p] from the front of [s]. *)
Fixpoint eat (ignoreCase : bool) (p s : string) : option string :=
  match p, s with
  | EmptyString, _ => Some s
  | String a p', String b s' =>
      if same_char ignoreCase a b then eat ignoreCase p' s' else None
  | String _ _, EmptyString => None
  end.

Definition consumed (s s' : string) : string :=
  Str.take (String.length s - String.length s') s.

(** [run ic r s caps k]: match [r] at the front of [s], then hand the
    rest of the input to the continuation [k]; a [None] from [k] makes
    the matcher back up to the last choice. *)
Fixpoint run {R : Type} (ignoreCase : bool) (r : re) (s : string)
    (caps : captures) (k : string -> captures -> option R) : option R :=
  match r with
  | Lit p =>
      match eat ignoreCase p s with
      | Some s' => k s' caps
      | None => None
      end
  | Class p =>
      match s with
      | String c s' => if p c then k s' caps else None
      | EmptyString => None
      end
  | Plus p =>
      (fix more (s : string) : option R :=
         match s with
         | String c s' =>
             if p c then
               match more s' with
               | Some out => Some out
               | None => k s' caps
               end
             else None
         | EmptyString => None
         end) s
  | Seq a b => run ignoreCase a s caps (fun s' caps' => run ignoreCase b s' caps' k)
  | Alt a b =>
      match run ignoreCase a s caps k with
      | Some out => Some out
      | None => run ignoreCase b s caps k
      end
  | Opt a =>
      match run ignoreCase a s caps k with
      | Some out => Some out
      | None => k s caps
      end
  | Group i a =>
      run ignoreCase a s caps (fun s' caps' => k s' ((i, consumed s s') :: caps'))
  end.

Definition match_here (ignoreCase : bool) (r : re) (s : string)
  : option captures :=
  run ignoreCase r s [] (fun _ caps => Some caps).

(** [s.match(r)]: the first position, from the left, where [r]
    matches. *)
Fixpoint exec (ignoreCase : bool) (r : re) (s : string) : option captures :=
  match match_here ignoreCase r s with
  | Some caps => Some caps
  | None =>
      match s with
      | String _ rest => exec ignoreCase r rest
      | EmptyString => None
      end
  end.

(** Sequence of several pieces. *)
Fixpoint seq (rs : list re) : re :=
  match rs with
  | [] => Lit EmptyString
  | [r] => r
  | r :: rest => Seq r (seq rest)
  end.

(** The character classes of the sources. *)
Definition alnum (c : ascii) : bool :=
  Str.is_lower c || Str.is_upper c || Str.is_digit c.
Definition chr (a : ascii) (c : ascii) : bool := Ascii.eqb a c.

(** [[a-zA-Z0-9-_]] *)
Definition name_char (c : ascii) : bool :=
  alnum c || chr "-" c || chr "_" c.
(** [[a-zA-Z0-9-_/.]] *)
Definition path_char (c : ascii) : bool :=
  name_char c || chr "/" c || chr "." c.
Definition dquote : ascii := ascii_of_N 34.
(** The quote class of the sources: apostrophe or double quote. *)
Definition quote_char (c : ascii) : bool := chr "'" c || chr dquote c.
Definition not_quote_char (c : ascii) : bool := negb (quote_char c).

End Regex.

(* ================================================================== *)
(** ** githubOAuth.ts and tokenStore.ts: the credential store          *)
(* ================================================================== *)

Module GitHubOAuth.

(** Times are [Date.now()] readings: integer milliseconds. *)
Record GitHubTokenInfo : Type := {
  access_token : string;
  token_type : string;
  scope : string;
  obtained_at : Z
}.

Definition isTokenValid (now : Z) (tokenInfo : GitHubTokenInfo) : bool :=
  let thirtyDaysAgo := (now - 30 * 24 * 60 * 60 * 1000)%Z in
  (obtained_at tokenInfo >? thirtyDaysAgo)%Z.

End GitHubOAuth.

Module TokenStore.
Import GitHubOAuth.

(** [tokenStore]: a [Map<string, GitHubTokenInfo>], threaded as state. *)
Abbreviation tokenStore := (gmap string GitHubTokenInfo).

(** [tokenStore.get(userId) || null]: a stored record is an object and
    so truthy; [None] is the [null]. *)
Definition getStoredToken (store : tokenStore) (userId : string)
  : option GitHubTokenInfo :=
  store !! userId.

Definition storeToken (store : tokenStore) (userId : string)
    (tokenInfo : GitHubTokenInfo) : tokenStore :=
  <[userId := tokenInfo]> store.

Definition removeToken (store : tokenStore) (userId : string) : tokenStore :=
  delete userId store.

Definition hasValidToken (now : Z) (store : tokenStore) (userId : string)
  : bool :=
  match getStoredToken store userId with
  | None => false
  | Some tokenInfo =>
      let thirtyDaysAgo := (now - 30 * 24 * 60 * 60 * 1000)%Z in
      (obtained_at tokenInfo >? thirtyDaysAgo)%Z
  end.

End TokenStore.

(* ================================================================== *)
(** ** githubToolParser.ts: the pattern resolver                       *)
(* ================================================================== *)

Module GitHubToolParser.
Import JS JS.Notations Regex.

Record ToolInvocation : Type := {
  toolName : string;
  arguments : list (string * value);
  description : string
}.

Record RepoReference : Type := { owner : string; name : string }.

(** Truthiness of a [string | null] (or [string | undefined]). *)
Definition present (o : option string) : bool :=
  match o with
  | Some s => negb (String.eqb s "")
  | None => false
  end.

(** [a || b] on such values. *)
Definition first_present (a b : option string) : option string :=
  if present a then a else b.

Definition push {A} (l : list A) (x : A) : list A := (l ++ [x])%list.

Definition matchesPattern (text : string) (patterns : list string) : bool :=
  existsb (fun pattern => Str.includes text pattern) patterns.

(** [/(?:repo|repository)\s+(?:named?\s+)?['""]?([a-zA-Z0-9-_]+)['""]?/] *)
Definition repo_name_re : re :=
  seq [Alt (Lit "repo") (Lit "repository");
       Plus Str.is_space;
       Opt (seq [Lit "name"; Opt (Lit "d"); Plus Str.is_space]);
       Opt (Class quote_char);
       Group 1 (Plus name_char);
       Opt (Class quote_char)].

(** [/([a-zA-Z0-9-_]+)\/([a-zA-Z0-9-_]+)/] *)
Definition owner_repo_re : re :=
  seq [Group 1 (Plus name_char); Lit "/"; Group 2 (Plus name_char)].

(** [/(?:file|path)\s+['""]?([a-zA-Z0-9-_/.]+)['""]?/] *)
Definition file_path_re : re :=
  seq [Alt (Lit "file") (Lit "path");
       Plus Str.is_space;
       Opt (Class quote_char);
       Group 1 (Plus path_char);
       Opt (Class quote_char)].

(** [/(?:issue|bug)\s+['""]([^'"]+)['"]/] *)
Definition issue_title_re : re :=
  seq [Alt (Lit "issue") (Lit "bug");
       Plus Str.is_space;
       Class quote_char;
       Group 1 (Plus not_quote_char);
       Class quote_char].

(** [/#(\d+)|issue\s+(\d+)|number\s+(\d+)/i] *)
Definition issue_number_re : re :=
  Alt (seq [Lit "#"; Group 1 (Plus Str.is_digit)])
    (Alt (seq [Lit "issue"; Plus Str.is_space; Group 2 (Plus Str.is_digit)])
       (seq [Lit "number"; Plus Str.is_space; Group 3 (Plus Str.is_digit)])).

Definition extractRepoName (text : string) : option string :=
  match exec false repo_name_re text with
  | Some m => capture 1 m
  | None => None
  end.

Definition extractFilePath (text : string) : option string :=
  match exec false file_path_re text with
  | Some m => capture 1 m
  | None => None
  end.

Definition extractIssueTitle (text : string) : option string :=
  match exec false issue_title_re text with
  | Some m => capture 1 m
  | None => None
  end.

(** [null] is [None]; the number is [parseInt] of the group that took
    part in the match. *)
Definition extractIssueNumber (text : string) : option Z :=
  match exec true issue_number_re text with
  | Some m =>
      match first_present (first_present (capture 1 m) (capture 2 m))
              (capture 3 m) with
      | Some number => Some (Str.parseInt number)
      | None => None
      end
  | None => None
  end.

(** Truthiness of a [number | null]. *)
Definition nonzero (n : option Z) : bool :=
  match n with
  | Some z => negb (z =? 0)%Z
  | None => false
  end.

Section WithHost.
Context {host : Host}.

Definition extractRepoReference (text : string) : option RepoReference :=
  match exec false owner_repo_re text with
  | Some fullMatch =>
      match capture 1 fullMatch, capture 2 fullMatch with
      | Some o, Some n => Some {| owner := o; name := n |}
      | _, _ => None
      end
  | None =>
      match exec false repo_name_re text with
      | Some repoMatch =>
          match capture 1 repoMatch with
          | Some n => Some {| owner := "CURRENT_USER"; name := n |}
          | None => None
          end
      | None =>
          let defaultOwner := env "GITHUB_DEFAULT_OWNER" in
          let defaultRepo := env "GITHUB_DEFAULT_REPO" in
          if present defaultOwner && present defaultRepo then
            match defaultOwner, defaultRepo with
            | Some o, Some n => Some {| owner := o; name := n |}
            | _, _ => None
            end
          else None
      end
  end.

(** [parseUserIntent]: every category is tried in turn and appends
    to [invocations]; only the last one looks at what came before. *)
Definition parseUserIntent (message : string) : list ToolInvocation :=
  let text := Str.trim (Str.toLowerCase message) in
  let invocations : list ToolInvocation := [] in

  (* Repository operations *)
  let invocations :=
    if matchesPattern text
         ["list repos"; "show repositories"; "my repos"; "repositories"]
    then push invocations
           {| toolName := "github_repo_list";
              arguments := [("type", JStr "owner")];
              description := "Listing your repositories" |}
    else invocations in

  let invocations :=
    if matchesPattern text ["create repo"; "new repository"] then
      let repoName := extractRepoName text in
      match repoName with
      | Some n =>
          if present repoName then
            push invocations
              {| toolName := "github_repo_create";
                 arguments := [("name", JStr n); ("private", JBool false)];
                 description := "Creating repository '" ++ n ++ "'" |}
          else invocations
      | None => invocations
      end
    else invocations in

  (* Pull request operations *)
  let invocations :=
    if matchesPattern text
         ["list prs"; "pull requests"; "show prs"; "open prs"] then
      match extractRepoReference text with
      | Some repo =>
          push invocations
            {| toolName := "github_pr_list";
               arguments := [("owner", JStr (owner repo));
                             ("repo", JStr (name repo));
                             ("state", JStr "open")];
               description := "Listing pull requests for "
                              ++ owner repo ++ "/" ++ name repo |}
      | None => invocations
      end
    else invocations in

  let invocations :=
    if matchesPattern text ["create pr"; "new pull request"; "open pr"] then
      match extractRepoReference text with
      | Some repo =>
          push invocations
            {| toolName := "github_pr_create";
               arguments := [("owner", JStr (owner repo));
                             ("repo", JStr (name repo));
                             ("title", JStr "New Pull Request");
                             ("head", JStr "feature-branch");
                             ("base", JStr "main")];
               description := "Creating pull request for "
                              ++ owner repo ++ "/" ++ name repo |}
      | None => invocations
      end
    else invocations in

  (* Issue operations *)
  let invocations :=
    if matchesPattern text ["list issues"; "show issues"; "open issues"] then
      match extractRepoReference text with
      | Some repo =>
          push invocations
            {| toolName := "github_issues_list";
               arguments := [("owner", JStr (owner repo));
                             ("repo", JStr (name repo));
                             ("state", JStr "open")];
               description := "Listing issues for "
                              ++ owner repo ++ "/" ++ name repo |}
      | None => invocations
      end
    else invocations in

  (* Get specific issue by number *)
  let invocations :=
    if matchesPattern text
         ["issue #"; "issue number"; "show issue"; "get issue"] then
      let issueNumber := extractIssueNumber text in
      let repo := extractRepoReference text in
      match issueNumber, repo with
      | Some n, Some repo =>
          if nonzero issueNumber then
            push invocations
              {| toolName := "github_issue_get";
                 arguments := [("owner", JStr (owner repo));
                               ("repo", JStr (name repo));
                               ("issue_number", JNum n)];
                 description := "Getting issue #" ++ num_to_string n
                                ++ " from " ++ owner repo ++ "/"
                                ++ name repo |}
          else invocations
      | _, _ => invocations
      end
    else invocations in

  let invocations :=
    if matchesPattern text ["create issue"; "new issue"; "report bug"] then
      let repo := extractRepoReference text in
      let title := extractIssueTitle text in
      match repo with
      | Some repo =>
          push invocations
            {| toolName := "github_issue_create";
               arguments :=
                 [("owner", JStr (owner repo));
                  ("repo", JStr (name repo));
                  ("title", JStr (match first_present title
                                          (Some "New Issue") with
                                  | Some t => t
                                  | None => "New Issue"
                                  end));
                  ("body", JStr "Created via Teams AI agent")];
               description := "Creating issue in "
                              ++ owner repo ++ "/" ++ name repo |}
      | None => invocations
      end
    else invocations in

  (* File operations *)
  let invocations :=
    if matchesPattern text ["show file"; "get file"; "read file"] then
      let repo := extractRepoReference text in
      let filePath := extractFilePath text in
      match repo, filePath with
      | Some repo, Some path =>
          if present filePath then
            push invocations
              {| toolName := "github_file_get";
                 arguments := [("owner", JStr (owner repo));
                               ("repo", JStr (name repo));
                               ("path", JStr path)];
                 description := "Getting file " ++ path ++ " from "
                                ++ owner repo ++ "/" ++ name repo |}
          else invocations
      | _, _ => invocations
      end
    else invocations in

  (* User/profile operations *)
  let invocations :=
    if matchesPattern text ["my profile"; "user info"; "who am i"]
    then push invocations
           {| toolName := "github_user_get";
              arguments := [];
              description := "Getting your GitHub profile information" |}
    else invocations in

  (* Default: list available tools if no specific intent detected *)
  let invocations :=
    if (List.length invocations =? 0)%nat
       && matchesPattern text ["github"; "tools"; "help"; "what can you do"]
    then push invocations
           {| toolName := "_list_tools";
              arguments := [];
              description := "Listing available GitHub tools" |}
    else invocations in

  invocations.

(** *** Result formatting by tool name *)

(** The receiver of [.map]: only arrays have that method, on
    anything else the call is a TypeError. *)
Definition elements (v : value) : result (list value) :=
  match v with
  | JArr items => Ok items
  | _ => Throw TypeError
  end.

Definition nl : string := newline.

(** [' of ' + n] when the list was cut, else nothing. *)
Definition of_total (limit : Z) (items : list value) : string :=
  if (arr_length items >? limit)%Z
  then " of " ++ num_to_string (arr_length items)
  else "".

Definition formatRepoList (result : value) : JS.result string :=
  if negb (truthy result) || negb (isArray result)
  then Ok "No repositories found."
  else
    items <- elements result ;;
    let repos := firstn 10 items in
    lines <- mapR (fun repo =>
               n <- get repo "name" ;;
               n <- show n ;;
               private <- get repo "private" ;;
               d <- get repo "description" ;;
               d <- show (or_else d (JStr "No description")) ;;
               u <- get repo "html_url" ;;
               u <- show u ;;
               Ok ("• **" ++ n ++ "** "
                   ++ (if truthy private then "🔒" else "🌍") ++ nl
                   ++ "  " ++ d ++ nl
                   ++ "  " ++ u)) repos ;;
    let repoList := String.concat (nl ++ nl) lines in
    Ok ("📚 **Your Repositories** (showing "
        ++ num_to_string (arr_length repos) ++ of_total 10 items
        ++ "):" ++ nl ++ nl ++ repoList).

(** The line both list formatters print for one entry. *)
Definition entryLine (x : value) : JS.result string :=
  n <- get x "number" ;;
  n <- show n ;;
  t <- get x "title" ;;
  t <- show t ;;
  u <- get x "user" ;;
  login <- show (get_opt u "login") ;;
  st <- get x "state" ;;
  st <- show st ;;
  c <- get x "created_at" ;;
  c <- dateString c ;;
  h <- get x "html_url" ;;
  h <- show h ;;
  Ok ("• **#" ++ n ++ "** " ++ t ++ nl
      ++ "  👤 " ++ login ++ " • " ++ st ++ " • " ++ c ++ nl
      ++ "  " ++ h).

Definition formatPullRequestList (result : value) : JS.result string :=
  if negb (truthy result) || negb (isArray result)
  then Ok "No pull requests found."
  else
    items <- elements result ;;
    let prs := firstn 5 items in
    lines <- mapR entryLine prs ;;
    let prList := String.concat (nl ++ nl) lines in
    Ok ("🔄 **Pull Requests** (showing "
        ++ num_to_string (arr_length prs) ++ of_total 5 items
        ++ "):" ++ nl ++ nl ++ prList).

Definition formatIssuesList (result : value) : JS.result string :=
  if negb (truthy result) || negb (isArray result)
  then Ok "No issues found."
  else
    items <- elements result ;;
    let issues := firstn 5 items in
    lines <- mapR entryLine issues ;;
    let issueList := String.concat (nl ++ nl) lines in
    Ok ("🐛 **Issues** (showing "
        ++ num_to_string (arr_length issues) ++ of_total 5 items
        ++ "):" ++ nl ++ nl ++ issueList).

(** [xs && xs.length > 0] *)
Definition nonempty (xs : value) : JS.result bool :=
  if truthy xs then gt (get_opt xs "length") 0 else Ok false.

Definition formatSingleIssue (result : value) : JS.result string :=
  if negb (truthy result) then Ok "Could not retrieve issue."
  else
    let issue := result in
    c <- get issue "created_at" ;;
    createdDate <- dateString c ;;
    u <- get issue "updated_at" ;;
    updatedDate <- dateString u ;;
    n <- get issue "number" ;;
    n <- show n ;;
    let formattedIssue := "🐛 **Issue #" ++ n ++ "**" ++ nl ++ nl in
    t <- get issue "title" ;;
    t <- show t ;;
    let formattedIssue := formattedIssue ++ "**" ++ t ++ "**" ++ nl ++ nl in
    b <- get issue "body" ;;
    b <- show (or_else b (JStr "No description provided")) ;;
    let formattedIssue :=
      formattedIssue ++ "📝 **Description:**" ++ nl ++ b ++ nl ++ nl in
    user <- get issue "user" ;;
    login <- show (get_opt user "login") ;;
    let formattedIssue :=
      formattedIssue ++ "👤 **Author:** " ++ login ++ nl in
    st <- get issue "state" ;;
    st <- show st ;;
    let formattedIssue := formattedIssue ++ "📊 **State:** " ++ st ++ nl in
    let formattedIssue :=
      formattedIssue ++ "📅 **Created:** " ++ createdDate ++ nl in
    let formattedIssue :=
      formattedIssue ++ "🔄 **Updated:** " ++ updatedDate ++ nl in
    labels <- get issue "labels" ;;
    some <- nonempty labels ;;
    formattedIssue <-
      (if some : bool then
         ls <- elements labels ;;
         names <- mapR (fun label =>
                    n <- get label "name" ;;
                    n <- show n ;;
                    Ok ("`" ++ n ++ "`")) ls ;;
         let labels := String.concat " " names in
         Ok (formattedIssue ++ "🏷️ **Labels:** " ++ labels ++ nl)
       else Ok formattedIssue) ;;
    assignees <- get issue "assignees" ;;
    some <- nonempty assignees ;;
    formattedIssue <-
      (if some : bool then
         xs <- elements assignees ;;
         logins <- mapR (fun assignee =>
                     l <- get assignee "login" ;;
                     l <- show l ;;
                     Ok ("@" ++ l)) xs ;;
         let assignees := String.concat ", " logins in
         Ok (formattedIssue ++ "👥 **Assignees:** " ++ assignees ++ nl)
       else Ok formattedIssue) ;;
    h <- get issue "html_url" ;;
    h <- show h ;;
    Ok (formattedIssue ++ nl ++ "🔗 [View on GitHub](" ++ h ++ ")").

Definition formatUserProfile (result : value) : JS.result string :=
  if negb (truthy result) then Ok "Could not retrieve user profile."
  else
    n <- get result "name" ;;
    login <- get result "login" ;;
    n <- show (or_else n login) ;;
    l <- show login ;;
    bio <- get result "bio" ;;
    bio <- show (or_else bio (JStr "No bio")) ;;
    loc <- get result "location" ;;
    loc <- show (or_else loc (JStr "Location not specified")) ;;
    repos <- get result "public_repos" ;;
    repos <- show (or_else repos (JNum 0)) ;;
    followers <- get result "followers" ;;
    followers <- show (or_else followers (JNum 0)) ;;
    following <- get result "following" ;;
    following <- show (or_else following (JNum 0)) ;;
    h <- get result "html_url" ;;
    h <- show h ;;
    Ok ("👤 **GitHub Profile**" ++ nl ++ nl
        ++ "**" ++ n ++ "**" ++ nl
        ++ "@" ++ l ++ nl
        ++ bio ++ nl ++ nl
        ++ "📍 " ++ loc ++ nl
        ++ "📊 " ++ repos ++ " public repos • " ++ followers
        ++ " followers • " ++ following ++ " following" ++ nl
        ++ "🔗 " ++ h).

Definition formatToolsList (result : value) : JS.result string :=
  if negb (truthy result)
     || negb (truthy (get_opt result "tools"))
     || negb (isArray (get_opt result "tools"))
  then Ok "🛠️ **Available GitHub Tools**: Could not retrieve tool list."
  else
    all <- elements (get_opt result "tools") ;;
    let tools := firstn 10 all in
    lines <- mapR (fun tool =>
               n <- get tool "name" ;;
               n <- show n ;;
               d <- get tool "description" ;;
               d <- show (or_else d (JStr "No description")) ;;
               Ok ("• **" ++ n ++ "**: " ++ d)) tools ;;
    let toolList := String.concat nl lines in
    Ok ("🛠️ **Available GitHub Tools** ("
        ++ num_to_string (arr_length tools) ++ of_total 10 all
        ++ "):" ++ nl ++ nl ++ toolList).

(** The [try] block of [formatToolResult]: the [switch] on the tool
    name. *)
Definition formatByName (toolName : string) (result : value)
  : JS.result string :=
  if String.eqb toolName "github_repo_list" then formatRepoList result
  else if String.eqb toolName "github_pr_list"
       then formatPullRequestList result
  else if String.eqb toolName "github_issues_list"
       then formatIssuesList result
  else if String.eqb toolName "github_issue_get"
       then formatSingleIssue result
  else if String.eqb toolName "github_user_get"
       then formatUserProfile result
  else if String.eqb toolName "_list_tools" then formatToolsList result
  else
    json <- stringify2 result ;;
    Ok ("✅ Tool '" ++ toolName ++ "' executed successfully:" ++ nl
        ++ "```json" ++ nl ++ json ++ nl ++ "```").

(** The [catch] block: it serialises the result once more, and what
    that throws leaves the function. *)
Definition formattingFailed (toolName : string) (result : value)
  : JS.result string :=
  json <- stringify result ;;
  Ok ("⚠️ Tool '" ++ toolName
      ++ "' completed but result formatting failed: " ++ json).

Definition formatToolResult (toolName : string) (result : value)
  : JS.result string :=
  try_catch (formatByName toolName result)
    (fun error => formattingFailed toolName result).

End WithHost.

End GitHubToolParser.

(* ================================================================== *)
(** ** mcpClient.ts and githubMcpService.ts                            *)
(* ================================================================== *)

(** The protocol SDK behind [MCPClient] is the outside world.  The
    trace records every [MCPClient] method that is entered and every
    call made to the SDK, in order; what the SDK answers is an arbitrary
    function of the trace so far. *)
Module Sdk.
Import JS.

Inductive request : Type :=
| Connect
| ListTools
| CallTool (name : string) (args : value)
| Close.

Inductive event : Type :=
| Method (r : request)   (* a method of [MCPClient] was entered *)
| Wire (r : request).    (* [MCPClient] called the SDK *)

(** A tool as the SDK's [listTools] result types it. *)
Record Tool : Type := {
  name : string;
  description : option string;
  inputSchema : option value
}.

(** [None] stands for a response without a [tools] array. *)
Definition ListToolsResult : Type := option (list Tool).

Class Client : Type := {
  client_connect : list event -> result unit;
  client_listTools : list event -> result ListToolsResult;
  client_callTool : list event -> string -> value -> result value;
  client_close : list event -> result unit
}.

(** [this.mcpClient.listTools()] was entered. *)
Definition is_listTools (e : event) : bool :=
  match e with Method ListTools => true | _ => false end.

(** [this.mcpClient.callTool(...)] was entered. *)
Definition is_callTool (e : event) : bool :=
  match e with Method (CallTool _ _) => true | _ => false end.

Definition listTools_calls (t : list event) : nat :=
  List.length (List.filter is_listTools t).

End Sdk.

Module GitHubMcpService.
Import JS JS.Notations.

Record GitHubTool : Type := {
  name : string;
  description : string;
  inputSchema : value
}.

Record GitHubToolResult : Type := {
  success : bool;
  data : option value;
  error : option string;
  toolName : string;
  formattedResult : option string
}.

(** One service instance with its [MCPClient], and the trace of the
    calls made so far. *)
Record state : Type := {
  connected : bool;
  availableTools : list GitHubTool;
  toolsLoaded : bool;
  trace : list Sdk.event
}.

(** [new GitHubMcpService(token)] *)
Definition fresh : state :=
  {| connected := false; availableTools := []; toolsLoaded := false;
     trace := [] |}.

Definition set_connected (b : bool) (s : state) : state :=
  {| connected := b; availableTools := availableTools s;
     toolsLoaded := toolsLoaded s; trace := trace s |}.
Definition set_availableTools (l : list GitHubTool) (s : state) : state :=
  {| connected := connected s; availableTools := l;
     toolsLoaded := toolsLoaded s; trace := trace s |}.
Definition set_toolsLoaded (b : bool) (s : state) : state :=
  {| connected := connected s; availableTools := availableTools s;
     toolsLoaded := b; trace := trace s |}.
Definition record (e : Sdk.event) (s : state) : state :=
  {| connected := connected s; availableTools := availableTools s;
     toolsLoaded := toolsLoaded s; trace := (trace s ++ [e])%list |}.

(** Methods run in sequence on the instance and may throw. *)
Definition M (A : Type) : Type := state -> result A * state.

Definition ret {A} (a : A) : M A := fun s => (Ok a, s).
Definition throw {A} (e : exn) : M A := fun s => (Throw e, s).
Definition bindM {A B} (m : M A) (k : A -> M B) : M B :=
  fun s => match m s with
           | (Ok a, s') => k a s'
           | (Throw e, s') => (Throw e, s')
           end.
Definition tryM {A} (body : M A) (handler : exn -> M A) : M A :=
  fun s => match body s with
           | (Ok a, s') => (Ok a, s')
           | (Throw e, s') => handler e s'
           end.
Definition modify (f : state -> state) : M unit := fun s => (Ok tt, f s).
Definition read {A} (f : state -> A) : M A := fun s => (Ok (f s), s).

Notation "x <~ m ;; k" := (bindM m (fun x => k))
  (at level 100, m at next level, right associativity).
Notation "m ;;; k" := (bindM m (fun _ => k))
  (at level 100, right associativity).

Section WithClient.
Context {client : Sdk.Client} {host : Host}.

(** An SDK call: its answer depends on the trace before the call,
    and the call is appended to the trace. *)
Definition wire {A} (r : Sdk.request)
    (answer : list Sdk.event -> result A) : M A :=
  fun s => (answer (trace s), record (Sdk.Wire r) s).

(** Entering a method of [MCPClient]. *)
Definition enter (r : Sdk.request) : M unit :=
  modify (record (Sdk.Method r)).

(** *** MCPClient *)

Definition connect : M unit :=
  enter Sdk.Connect ;;;
  tryM
    (c <~ read connected ;;
     if c : bool then ret tt
     else (wire Sdk.Connect Sdk.client_connect ;;;
           modify (set_connected true)))
    (fun error =>
       throw (Error ("Failed to connect to GitHub MCP server: "
                     ++ message_or_unknown error))).

Definition ensureConnected : M unit :=
  c <~ read connected ;;
  if c : bool then ret tt else connect.

Definition listTools : M Sdk.ListToolsResult :=
  enter Sdk.ListTools ;;;
  tryM
    (ensureConnected ;;;
     wire Sdk.ListTools Sdk.client_listTools)
    (fun error =>
       throw (Error ("Failed to list tools: "
                     ++ message_or_unknown error))).

Definition callTool (toolName : string) (args : value) : M value :=
  enter (Sdk.CallTool toolName args) ;;;
  tryM
    (ensureConnected ;;;
     wire (Sdk.CallTool toolName args)
       (fun t => Sdk.client_callTool t toolName args))
    (fun error =>
       throw (Error ("Failed to call tool '" ++ toolName ++ "': "
                     ++ message_or_unknown error))).

Definition disconnect : M unit :=
  enter Sdk.Close ;;;
  tryM
    (c <~ read connected ;;
     if c : bool then (wire Sdk.Close Sdk.client_close ;;;
                       modify (set_connected false))
     else ret tt)
    (fun error => ret tt).

(** *** Result formatting by shape *)

Definition nl : string := newline.

(** [if (cond) formatted += piece] *)
Definition append_if (cond : bool) (formatted : string)
    (piece : result string) : result string :=
  if cond then (p <- piece ;; Ok (formatted ++ p)) else Ok formatted.

Definition is_undefined (v : value) : bool :=
  match v with JUndefined => true | _ => false end.
Definition is_null (v : value) : bool :=
  match v with JNull => true | _ => false end.
Definition is_text (s : string) (v : value) : bool :=
  match v with JStr t => String.eqb t s | _ => false end.

(** [Object.entries]: own properties; for an array its indices. *)
Fixpoint indexed (i : nat) (items : list value) : list (string * value) :=
  match items with
  | [] => []
  | x :: rest => (num_to_string (Z.of_nat i), x) :: indexed (S i) rest
  end.

Definition entries (item : value) : list (string * value) :=
  match item with
  | JObj props => props
  | JArr items => indexed 0 items
  | _ => []
  end.

(** [body.length > 200 ? body.substring(0, 200) + '...' : body]:
    only a string has [substring]. *)
Definition preview_of (body : value) : result value :=
  long <- gt (get_opt body "length") 200 ;;
  if long : bool then
    match body with
    | JStr s => Ok (JStr (Str.take 200 s ++ "..."))
    | _ => Throw TypeError
    end
  else Ok body.

(** [formatSingleItem].  Past the first test [item] is an object or
    an array, so reading its properties cannot throw. *)
Definition formatSingleItem (item : value) : result string :=
  if negb (truthy item) || negb (String.eqb (typeof item) "object")
  then ToString item
  else
    let prop := get_opt item in
    (* GitHub issue format *)
    if truthy (prop "number") && truthy (prop "title") then
      n <- show (prop "number") ;;
      t <- show (prop "title") ;;
      let formatted := "**#" ++ n ++ ": " ++ t ++ "**" ++ nl in
      formatted <- append_if (truthy (prop "state")) formatted
        (st <- show (prop "state") ;; Ok ("Status: " ++ st ++ nl)) ;;
      formatted <- append_if (truthy (get_opt (prop "user") "login"))
        formatted
        (l <- show (get_opt (prop "user") "login") ;;
         Ok ("Author: " ++ l ++ nl)) ;;
      formatted <- append_if (truthy (prop "created_at")) formatted
        (d <- dateString (prop "created_at") ;;
         Ok ("Created: " ++ d ++ nl)) ;;
      formatted <- append_if (truthy (prop "body")) formatted
        (preview <- preview_of (prop "body") ;;
         p <- show preview ;;
         Ok (nl ++ "Description:" ++ nl ++ p)) ;;
      formatted <- append_if (truthy (prop "html_url")) formatted
        (u <- show (prop "html_url") ;;
         Ok (nl ++ nl ++ "🔗 [View on GitHub](" ++ u ++ ")")) ;;
      Ok formatted
    (* GitHub repository format *)
    else if truthy (prop "name") && truthy (prop "full_name") then
      f <- show (prop "full_name") ;;
      let formatted := "**" ++ f ++ "**" ++ nl in
      formatted <- append_if (truthy (prop "description")) formatted
        (d <- show (prop "description") ;; Ok (d ++ nl)) ;;
      formatted <- append_if (truthy (prop "language")) formatted
        (l <- show (prop "language") ;; Ok ("Language: " ++ l ++ nl)) ;;
      formatted <- append_if (negb (is_undefined (prop "stargazers_count")))
        formatted
        (c <- show (prop "stargazers_count") ;;
         Ok ("⭐ " ++ c ++ " stars" ++ nl)) ;;
      formatted <- append_if (truthy (prop "html_url")) formatted
        (u <- show (prop "html_url") ;;
         Ok ("🔗 [View on GitHub](" ++ u ++ ")")) ;;
      Ok formatted
    (* GitHub pull request format *)
    else if truthy (prop "number") && truthy (prop "title")
            && truthy (prop "head") then
      n <- show (prop "number") ;;
      t <- show (prop "title") ;;
      let formatted := "**PR #" ++ n ++ ": " ++ t ++ "**" ++ nl in
      formatted <- append_if (truthy (prop "state")) formatted
        (st <- show (prop "state") ;; Ok ("Status: " ++ st ++ nl)) ;;
      formatted <- append_if (truthy (get_opt (prop "user") "login"))
        formatted
        (l <- show (get_opt (prop "user") "login") ;;
         Ok ("Author: " ++ l ++ nl)) ;;
      formatted <- append_if
        (truthy (get_opt (prop "head") "ref")
         && truthy (get_opt (prop "base") "ref")) formatted
        (h <- show (get_opt (prop "head") "ref") ;;
         b <- show (get_opt (prop "base") "ref") ;;
         Ok (h ++ " → " ++ b ++ nl)) ;;
      formatted <- append_if (truthy (prop "created_at")) formatted
        (d <- dateString (prop "created_at") ;;
         Ok ("Created: " ++ d ++ nl)) ;;
      formatted <- append_if (truthy (prop "html_url")) formatted
        (u <- show (prop "html_url") ;;
         Ok ("🔗 [View on GitHub](" ++ u ++ ")")) ;;
      Ok formatted
    else
      (* Fallback: show key-value pairs *)
      lines <- mapR (fun kv : string * value =>
                 v <- show (snd kv) ;; Ok (fst kv ++ ": " ++ v))
               (firstn 10
                  (List.filter (fun kv : string * value =>
                             negb (is_null (snd kv))
                             && negb (is_undefined (snd kv))
                             && negb (is_text "" (snd kv)))
                     (entries item))) ;;
      let keyValue := String.concat nl lines in
      if negb (String.eqb keyValue "") then Ok keyValue
      else stringify2 item.

(** [`**Item ${index + 1}:**\n${this.formatSingleItem(item)}`] for
    the items from position [index] on. *)
Fixpoint formatItems (index : nat) (items : list value)
  : result (list string) :=
  match items with
  | [] => Ok []
  | item :: rest =>
      f <- formatSingleItem item ;;
      fs <- formatItems (S index) rest ;;
      Ok (("**Item " ++ num_to_string (Z.of_nat index + 1) ++ ":**"
           ++ nl ++ f) :: fs)
  end.

(** The [try] block of [formatToolResult]. *)
Definition formatByShape (result : value) : JS.result string :=
  let content := get_opt result "content" in
  if truthy content && isArray content then
    (* MCP standard format *)
    match content with
    | JArr items =>
        parts <- mapR (fun item =>
                   ty <- get item "type" ;;
                   if is_text "text" ty then get item "text"
                   else (json <- stringify2 item ;; Ok (JStr json))) items ;;
        join (nl ++ nl) parts
    | _ => Throw TypeError
    end
  else if String.eqb (typeof result) "string" then show result
  else if String.eqb (typeof result) "object" then
    match result with
    | JArr items =>
        match items with
        | [] => Ok "No results found."
        | [item] => formatSingleItem item
        | _ => fs <- formatItems 0 items ;;
               Ok (String.concat (nl ++ nl) fs)
        end
    | _ => formatSingleItem result
    end
  else ToString result.

(** The [catch] block: it serialises the result, and what that throws
    leaves the function. *)
Definition rawResult (result : value) : JS.result string :=
  json <- stringify2 result ;;
  Ok ("Raw result: " ++ json).

Definition formatToolResult (toolName : string) (result : value)
  : JS.result string :=
  try_catch (formatByShape result) (fun error => rawResult result).

(** *** Tool execution *)

Definition lift {A} (r : result A) : M A := fun s => (r, s).

Definition executeTool (toolName : string) (args : value)
  : M GitHubToolResult :=
  tryM
    (result <~ callTool toolName args ;;
     formatted <~ lift (formatToolResult toolName result) ;;
     ret {| success := true;
            data := Some result;
            error := None;
            toolName := toolName;
            formattedResult := Some formatted |})
    (fun error =>
       ret {| success := false;
              data := None;
              error := Some (message_or_unknown error);
              toolName := toolName;
              formattedResult := None |}).

(** *** The tool catalog *)

Definition toGitHubTool (tool : Sdk.Tool) : GitHubTool :=
  {| name := Sdk.name tool;
     description :=
       match Sdk.description tool with
       | Some d => if String.eqb d "" then "No description available" else d
       | None => "No description available"
       end;
     inputSchema :=
       match Sdk.inputSchema tool with
       | Some schema => or_else schema (JObj [])
       | None => JObj []
       end |}.

(** [loadAvailableTools]: what the [try] block does with the answer
    of [listTools], and what the [catch] block does. *)
Definition toolsReceived (toolsResponse : Sdk.ListToolsResult) : M unit :=
  match toolsResponse with
  | Some tools => modify (set_availableTools (map toGitHubTool tools))
  | None => modify (set_availableTools [])
  end ;;;
  modify (set_toolsLoaded true).

Definition loadFailed (error : exn) : M unit :=
  modify (set_availableTools []) ;;;
  modify (set_toolsLoaded true).

Definition loadAvailableTools : M unit :=
  tryM
    (toolsResponse <~ listTools ;;
     toolsReceived toolsResponse)
    loadFailed.

Definition getAvailableTools : M (list GitHubTool) :=
  loaded <~ read toolsLoaded ;;
  (if loaded : bool then ret tt else loadAvailableTools) ;;;
  read availableTools.

Definition initialize : M unit :=
  tryM
    (connect ;;; loadAvailableTools)
    (fun error =>
       throw (Error ("Failed to initialize GitHub MCP service: "
                     ++ message_or_unknown error))).

(** [{ owner: process.env.GITHUB_DEFAULT_OWNER,
       repo: process.env.GITHUB_DEFAULT_REPO }] *)
Definition getDefaultRepository : option string * option string :=
  (env "GITHUB_DEFAULT_OWNER", env "GITHUB_DEFAULT_REPO").

End WithClient.

End GitHubMcpService.

(* ================================================================== *)
(** ** app/app.ts: resolving a request and running the tools           *)
(* ================================================================== *)

Module App.
Import JS JS.Notations Regex.

Record ToolCall : Type := {
  toolName : string;
  parameters : value;
  reasoning : string
}.

Record AiDecision : Type := {
  toolCalls : list ToolCall;
  needsMoreInfo : bool;
  missingInfo : option string
}.

Definition push {A} (l : list A) (x : A) : list A := (l ++ [x])%list.

Definition push_call (d : AiDecision) (c : ToolCall) : AiDecision :=
  {| toolCalls := push (toolCalls d) c;
     needsMoreInfo := needsMoreInfo d;
     missingInfo := missingInfo d |}.

(** [/#(\d+)/] *)
Definition hash_number_re : re :=
  seq [Lit "#"; Group 1 (Plus Str.is_digit)].

(** A [string | undefined] as a property value. *)
Definition opt_value (o : option string) : value :=
  match o with Some s => JStr s | None => JUndefined end.

(** [availableTools.find(pred)?.name || fallback] *)
Definition name_or (pred : GitHubMcpService.GitHubTool -> bool)
    (availableTools : list GitHubMcpService.GitHubTool)
    (fallback : string) : string :=
  match List.find pred availableTools with
  | Some t =>
      if String.eqb (GitHubMcpService.name t) "" then fallback
      else GitHubMcpService.name t
  | None => fallback
  end.

(** The test behind [relevantTool]: some [_]-separated word of the
    tool name occurs inside some white-space separated word of the
    request. *)
Definition relevant (normalizedRequest : string)
    (tool : GitHubMcpService.GitHubTool) : bool :=
  let toolWords :=
    Str.split_on (Ascii.eqb "_")
      (Str.toLowerCase (GitHubMcpService.name tool)) in
  let requestWords := Str.split_spaces normalizedRequest in
  existsb (fun word =>
             existsb (fun rword => Str.includes rword word) requestWords)
    toolWords.

Definition missingInfoText : string :=
  "I need more specific information about what GitHub operation you want to perform.".

Section WithHost.
Context {host : Host}.

(** The keyword-based tool selection of the message handler. *)
Definition resolve (availableTools : list GitHubMcpService.GitHubTool)
    (userRequest : string) : AiDecision :=
  let normalizedRequest := Str.toLowerCase userRequest in
  let aiDecision :=
    {| toolCalls := []; needsMoreInfo := false; missingInfo := None |} in
  let aiDecision :=
    if Str.includes normalizedRequest "issue"
       && Str.includes normalizedRequest "#" then
      match exec false hash_number_re normalizedRequest with
      | Some issueMatch =>
          match capture 1 issueMatch with
          | Some digits =>
              let defaultRepo := GitHubMcpService.getDefaultRepository in
              push_call aiDecision
                {| toolName :=
                     name_or (fun t =>
                                Str.includes (GitHubMcpService.name t) "issue"
                                && Str.includes (GitHubMcpService.name t) "get")
                       availableTools "get_issue";
                   parameters :=
                     JObj [("owner", opt_value (fst defaultRepo));
                           ("repo", opt_value (snd defaultRepo));
                           ("issue_number", JNum (Str.parseInt digits))];
                   reasoning := "Getting issue #" ++ digits |}
          | None => aiDecision
          end
      | None => aiDecision
      end
    else if Str.includes normalizedRequest "available"
            && Str.includes normalizedRequest "tool" then
      {| toolCalls := [];
         needsMoreInfo := needsMoreInfo aiDecision;
         missingInfo := missingInfo aiDecision |}
    else if Str.includes normalizedRequest "list"
            && Str.includes normalizedRequest "repo" then
      push_call aiDecision
        {| toolName :=
             name_or (fun t =>
                        Str.includes (GitHubMcpService.name t) "repo"
                        && Str.includes (GitHubMcpService.name t) "list")
               availableTools "list_repos";
           parameters := JObj [];
           reasoning := "Listing repositories" |}
    else
      match List.find (relevant normalizedRequest) availableTools with
      | Some relevantTool =>
          let defaultRepo := GitHubMcpService.getDefaultRepository in
          let params :=
            if GitHubToolParser.present (fst defaultRepo)
               && GitHubToolParser.present (snd defaultRepo)
            then [("owner", opt_value (fst defaultRepo));
                  ("repo", opt_value (snd defaultRepo))]
            else [] in
          push_call aiDecision
            {| toolName := GitHubMcpService.name relevantTool;
               parameters := JObj params;
               reasoning := "Using " ++ GitHubMcpService.name relevantTool
                            ++ " based on your request" |}
      | None => aiDecision
      end in
  if (List.length (toolCalls aiDecision) =? 0)%nat then
    {| toolCalls := toolCalls aiDecision;
       needsMoreInfo := true;
       missingInfo := Some missingInfoText |}
  else aiDecision.

(** What the handler answers when [aiDecision.needsMoreInfo]. *)
Definition needsMoreInfoReply (aiDecision : AiDecision) : string :=
  "🤔 I need more information to help you." ++ newline ++ newline
  ++ match missingInfo aiDecision with
     | Some m => m
     | None => "undefined"
     end
  ++ newline ++ newline
  ++ "Please provide the missing details and try again.".

Context {client : Sdk.Client}.

(** [for (const toolCall of aiDecision.toolCalls) { ... results.push(result) }] *)
Fixpoint executeEach (calls : list ToolCall)
    (results : list GitHubMcpService.GitHubToolResult)
  : GitHubMcpService.M (list GitHubMcpService.GitHubToolResult) :=
  match calls with
  | [] => GitHubMcpService.ret results
  | toolCall :: rest =>
      GitHubMcpService.bindM
        (GitHubMcpService.executeTool (toolName toolCall)
           (parameters toolCall))
        (fun result => executeEach rest (push results result))
  end.

Definition executeToolCalls (calls : list ToolCall)
  : GitHubMcpService.M (list GitHubMcpService.GitHubToolResult) :=
  executeEach calls [].

(** The activity sent for one result. *)
Definition reportResult (result : GitHubMcpService.GitHubToolResult)
  : string :=
  if GitHubMcpService.success result then
    if GitHubToolParser.present (GitHubMcpService.formattedResult result)
    then "✅ **" ++ GitHubMcpService.toolName result ++ "**"
         ++ newline ++ newline
         ++ match GitHubMcpService.formattedResult result with
            | Some f => f
            | None => "undefined"
            end
    else "✅ **" ++ GitHubMcpService.toolName result
         ++ "** completed successfully."
  else
    "❌ **" ++ GitHubMcpService.toolName result ++ "** failed: "
    ++ match GitHubMcpService.error result with
       | Some e => e
       | None => "undefined"
       end
    ++ newline ++ newline
    ++ "This might be due to permissions, network issues, or the tool not being available.".

Definition reportResults
    (results : list GitHubMcpService.GitHubToolResult) : list string :=
  map reportResult results.

End WithHost.

End App.

(* ================================================================== *)
(** ** Overlapping calls of getAvailableTools                          *)
(* ================================================================== *)

(** An [async] method runs until its first [await], then hands control
    back; it goes on once what it awaits has settled.  A call
    of [getAvailableTools] is a task that moves through the awaits of
    [loadAvailableTools] -> [MCPClient.listTools] -> [ensureConnected];
    a schedule says which task moves next.  The answer of an SDK call is
    fixed when the call is made (from the trace at that moment) and is
    delivered when the task is scheduled again. *)
Module Async.
Import JS GitHubMcpService.

Inductive task : Type :=
| Idle                                   (* not called yet *)
| AwaitConnect (answer : result unit)    (* in [client.connect] *)
| Entered                                (* connected, about to list *)
| AwaitListTools (answer : result Sdk.ListToolsResult)
                                         (* in [client.listTools] *)
| Resuming                               (* load over, about to return *)
| Done (tools : list GitHubTool).        (* promise resolved *)

Record system : Type := {
  service : state;
  tasks : list task
}.

Section WithClient.
Context {client : Sdk.Client}.

(** The error [loadAvailableTools] catches when [client.connect]
    failed with [e]: wrapped by [connect], then by [listTools]. *)
Definition connectFailure (e : exn) : exn :=
  Error ("Failed to list tools: "
         ++ message_or_unknown
              (Error ("Failed to connect to GitHub MCP server: "
                      ++ message_or_unknown e))).

Definition listFailure (e : exn) : exn :=
  Error ("Failed to list tools: " ++ message_or_unknown e).

(** The call itself, up to its first [await]: with the catalog loaded
    it returns at once; otherwise it enters [MCPClient.listTools], and
    there either finds the connection up and yields at
    [await this.ensureConnected()], or goes on into [connect] and waits
    for [client.connect]. *)
Definition start (s : state) : task * state :=
  if toolsLoaded s then (Done (availableTools s), s)
  else
    let s := record (Sdk.Method Sdk.ListTools) s in
    if connected s then (Entered, s)
    else
      let s := record (Sdk.Method Sdk.Connect) s in
      (AwaitConnect (Sdk.client_connect (trace s)),
       record (Sdk.Wire Sdk.Connect) s).

(** [client.connect] has settled. *)
Definition afterConnect (answer : result unit) (s : state)
  : task * state :=
  match answer with
  | Ok _ => (Entered, set_connected true s)
  | Throw e => (Resuming, snd (loadFailed (connectFailure e) s))
  end.

(** [return await this.client.listTools()] *)
Definition callListTools (s : state) : task * state :=
  (AwaitListTools (Sdk.client_listTools (trace s)),
   record (Sdk.Wire Sdk.ListTools) s).

(** [client.listTools] has settled. *)
Definition afterListTools (answer : result Sdk.ListToolsResult)
    (s : state) : task * state :=
  match answer with
  | Ok toolsResponse => (Resuming, snd (toolsReceived toolsResponse s))
  | Throw e => (Resuming, snd (loadFailed (listFailure e) s))
  end.

(** One move of a task; a finished task has none. *)
Definition advance (t : task) (s : state) : option (task * state) :=
  match t with
  | Idle => Some (start s)
  | AwaitConnect answer => Some (afterConnect answer s)
  | Entered => Some (callListTools s)
  | AwaitListTools answer => Some (afterListTools answer s)
  | Resuming => Some (Done (availableTools s), s)
  | Done _ => None
  end.

Definition step (i : nat) (sys : system) : option system :=
  match tasks sys !! i with
  | Some t =>
      match advance t (service sys) with
      | Some (t', s') =>
          Some {| service := s'; tasks := <[i := t']> (tasks sys) |}
      | None => None
      end
  | None => None
  end.

Fixpoint run (schedule : list nat) (sys : system) : option system :=
  match schedule with
  | [] => Some sys
  | i :: rest =>
      match step i sys with
      | Some sys' => run rest sys'
      | None => None
      end
  end.

(** A single call run to its end without anything in between. *)
Fixpoint alone (fuel : nat) (t : task) (s : state)
  : option (list GitHubTool * state) :=
  match t with
  | Done tools => Some (tools, s)
  | _ =>
      match fuel with
      | O => None
      | S fuel' =>
          match advance t s with
          | Some (t', s') => alone fuel' t' s'
          | None => None
          end
      end
  end.

End WithClient.

Definition started (t : task) : bool :=
  match t with Idle => false | _ => true end.

(** Two calls on one instance, neither made yet. *)
Definition two_calls (s : state) : system :=
  {| service := s; tasks := [Idle; Idle] |}.

End Async.

(* ================================================================== *)
(** ** Sample surroundings                                             *)
(* ================================================================== *)

(** A host and an SDK to evaluate the definitions on concrete inputs:
    dates print as the text they were given, no string reads as a
    number above the bound, the environment is empty; the SDK accepts
    every connection, lists one tool and echoes tool arguments, except
    for the tool named [broken], which fails. *)
Module Sample.
Import JS.

Definition host : Host :=
  {| toLocaleDateString :=
       fun p => match p with JStr s => s | _ => "Invalid Date" end;
     string_gt := fun _ _ => false;
     env := fun _ => None;
     json_depth := 5000;
     join_depth := 5000 |}.

Definition client : Sdk.Client :=
  {| Sdk.client_connect := fun _ => Ok tt;
     Sdk.client_listTools :=
       fun _ => Ok (Some [ {| Sdk.name := "get_issue";
                              Sdk.description := Some "Get an issue";
                              Sdk.inputSchema := None |} ]);
     Sdk.client_callTool :=
       fun _ name args =>
         if String.eqb name "broken" then Throw (Error "boom") else Ok args;
     Sdk.client_close := fun _ => Ok tt |}.

(** An SDK whose every call fails. *)
Definition offline : Sdk.Client :=
  {| Sdk.client_connect := fun _ => Throw (Error "offline");
     Sdk.client_listTools := fun _ => Throw (Error "offline");
     Sdk.client_callTool := fun _ _ _ => Throw (Error "offline");
     Sdk.client_close := fun _ => Throw (Error "offline") |}.

End Sample.

(* ================================================================== *)
(** ** githubOAuth.ts: the OAuth routes                                *)
(* ================================================================== *)

(** The two routes of [registerGitHubOAuthRoutes], as functions of the
    request, the pending states, the token store and what the outside
    answers: the random state token, the clock readings, GitHub's token
    endpoint and its user endpoint. *)
Module OAuthFlow.
Import JS GitHubOAuth.

(** An entry of [pendingOAuthStates]. *)
Record PendingState : Type := {
  userId : string;
  timestamp : Z
}.

Abbreviation pendingOAuthStates := (gmap string PendingState).

(** [res.status(code).send(body)], [res.send(body)] (status 200) and
    [res.redirect(url)]. *)
Inductive response : Type :=
| Send (status : Z) (body : string)
| Redirect (url : string).

(** The body of the token endpoint's JSON answer:
    [{ access_token, token_type, scope }], each a string when present. *)
Record TokenData : Type := {
  data_access_token : option string;
  data_token_type : option string;
  data_scope : option string
}.

(** The fields of [https://api.github.com/user] the page reads. *)
Record UserInfo : Type := {
  user_name : option string;
  user_login : option string
}.

Definition dquote : string := String (ascii_of_N 34) "".

(** Truthiness of a [string | undefined], and [a || b] on strings. *)
Definition present (o : option string) : bool :=
  match o with
  | Some s => negb (String.eqb s "")
  | None => false
  end.

Definition or_default (o : option string) (d : string) : string :=
  match o with
  | Some s => if String.eqb s "" then d else s
  | None => d
  end.

(** [`${a || b}`] for two optional strings. *)
Definition show_first (a b : option string) : string :=
  if present a then or_default a "undefined"
  else match b with
       | Some s => s
       | None => "undefined"
       end.

Definition ten_minutes : Z := 10 * 60 * 1000.

(** The cleanup loop of [/auth/github]: entries whose timestamp is
    below [tenMinutesAgo] are deleted. *)
Definition cleanExpired (tenMinutesAgo : Z) (pending : pendingOAuthStates)
  : pendingOAuthStates :=
  filter (fun entry : string * PendingState =>
            ~ (timestamp (snd entry) < tenMinutesAgo)%Z) pending.

Section WithHost.
Context {host : Host}.
Variable encodeURIComponent : string -> string.

Definition GITHUB_CLIENT_ID : string :=
  or_default (env "GITHUB_CLIENT_ID") "<YOUR_CLIENT_ID>".
Definition GITHUB_CLIENT_SECRET : string :=
  or_default (env "GITHUB_CLIENT_SECRET") "<YOUR_CLIENT_SECRET>".
Definition GITHUB_OAUTH_REDIRECT_URI : string :=
  or_default (env "GITHUB_OAUTH_REDIRECT_URI")
    "http://localhost:3978/auth/github/callback".

(** [GET /auth/github].  [queryUserId] is [req.query.userId], [state]
    the token drawn from [Math.random], [now] and [later] the two
    readings of [Date.now()]. *)
Definition authorize (queryUserId : option string) (state : string)
    (now later : Z) (pending : pendingOAuthStates)
  : response * pendingOAuthStates :=
  let userId := or_default queryUserId "default-user" in
  let pending :=
    <[state := {| userId := userId; timestamp := now |}]> pending in
  let tenMinutesAgo := (later - 10 * 60 * 1000)%Z in
  let pending := cleanExpired tenMinutesAgo pending in
  let url :=
    "https://github.com/login/oauth/authorize?client_id=" ++ GITHUB_CLIENT_ID
    ++ "&redirect_uri=" ++ encodeURIComponent GITHUB_OAUTH_REDIRECT_URI
    ++ "&scope=repo%20read:user&state=" ++ state in
  (Redirect url, pending).

Definition welcomeMessage (userInfo : UserInfo) : string :=
  "✅ **GitHub Authentication Successful!**" ++ newline
  ++ newline
  ++ "Welcome, **"
  ++ show_first (user_name userInfo) (user_login userInfo)
  ++ "**!" ++ newline
  ++ newline
  ++ "You can now use GitHub tools in your Teams chat. Try asking:" ++ newline
  ++ "• " ++ dquote ++ "List my repositories" ++ dquote ++ newline
  ++ "• " ++ dquote ++ "Show pull requests for my-repo" ++ dquote ++ newline
  ++ "• " ++ dquote ++ "What GitHub tools are available?" ++ dquote ++ newline
  ++ newline
  ++ "You can close this window and return to Teams.".

Definition plainMessage : string :=
  "✅ **GitHub Authentication Successful!**" ++ newline
  ++ newline
  ++ "You can now use GitHub tools in Teams. You can close this window and return to Teams.".

Definition successPage (successMessage : string) : string :=
  newline
  ++ "        <!DOCTYPE html>" ++ newline
  ++ "        <html>" ++ newline
  ++ "        <head>" ++ newline
  ++ "          <title>GitHub OAuth Success</title>" ++ newline
  ++ "          <style>" ++ newline
  ++ "            body { font-family: -apple-system, BlinkMacSystemFont, 'Segoe UI', Roboto, sans-serif; margin: 40px; }" ++ newline
  ++ "            .success { background: #d4edda; border: 1px solid #c3e6cb; color: #155724; padding: 20px; border-radius: 8px; }" ++ newline
  ++ "            pre { background: #f8f9fa; padding: 10px; border-radius: 4px; white-space: pre-wrap; }" ++ newline
  ++ "          </style>" ++ newline
  ++ "        </head>" ++ newline
  ++ "        <body>" ++ newline
  ++ "          <div class=" ++ dquote ++ "success" ++ dquote ++ ">" ++ newline
  ++ "            <pre>"
  ++ successMessage
  ++ "</pre>" ++ newline
  ++ "          </div>" ++ newline
  ++ "          <script>" ++ newline
  ++ "            // Auto-close after 5 seconds" ++ newline
  ++ "            setTimeout(() => window.close(), 5000);" ++ newline
  ++ "          </script>" ++ newline
  ++ "        </body>" ++ newline
  ++ "        </html>" ++ newline
  ++ "      ".

(** [GET /auth/github/callback].  [code] and [state] are the query
    parameters; [exchange] is the answer of the token endpoint to the
    code, [now] the reading of [Date.now()] once it has answered, and
    [lookup] the answer of the user endpoint to the access token
    ([None] when the request failed or brought nothing). *)
Definition callback (code state : value)
    (exchange : value -> result TokenData) (now : Z)
    (lookup : string -> option UserInfo)
    (pending : pendingOAuthStates)
    (tokenStore : gmap string GitHubTokenInfo)
  : response * pendingOAuthStates * gmap string GitHubTokenInfo :=
  if negb (truthy code) then
    (Send 400 "❌ OAuth Error: Missing authorization code", pending, tokenStore)
  else
    match state with
    | JStr st =>
        if negb (truthy state) then
          (Send 400 "❌ OAuth Error: Invalid or missing state parameter",
           pending, tokenStore)
        else
          (* Validate state and get user ID *)
          match pending !! st with
          | None =>
              (Send 400 "❌ OAuth Error: Invalid or expired state. Please try again.",
               pending, tokenStore)
          | Some stateData =>
              (* Clean up used state *)
              let pending := delete st pending in
              match exchange code with
              | Throw err =>
                  (Send 500 ("❌ OAuth Error: "
                             ++ match err with
                                | Error m => m
                                | NonError => "Unknown error occurred"
                                end),
                   pending, tokenStore)
              | Ok data =>
                  match data_access_token data with
                  | Some access_token =>
                      if negb (present (data_access_token data)) then
                        (Send 400 "❌ OAuth Error: Failed to obtain access token from GitHub",
                         pending, tokenStore)
                      else
                        let tokenInfo :=
                          {| access_token := access_token;
                             token_type :=
                               or_default (data_token_type data) "bearer";
                             scope := or_default (data_scope data) "";
                             obtained_at := now |} in
                        let tokenStore :=
                          <[userId stateData := tokenInfo]> tokenStore in
                        let successMessage :=
                          match lookup access_token with
                          | Some userInfo => welcomeMessage userInfo
                          | None => plainMessage
                          end in
                        (Send 200 (successPage successMessage),
                         pending, tokenStore)
                  | None =>
                      (Send 400 "❌ OAuth Error: Failed to obtain access token from GitHub",
                       pending, tokenStore)
                  end
              end
          end
    | _ =>
        (Send 400 "❌ OAuth Error: Invalid or missing state parameter",
         pending, tokenStore)
    end.

End WithHost.

(** [getUserIdFromContext]:
    [context.activity?.from?.id || context.activity?.from?.aadObjectId
     || 'unknown-user'] *)
Definition getUserIdFromContext (context : value) : result value :=
  bind (get context "activity") (fun activity =>
    let from := get_opt activity "from" in
    Ok (or_else (get_opt from "id")
          (or_else (get_opt from "aadObjectId") (JStr "unknown-user")))).

End OAuthFlow.

(* ================================================================== *)
(** ** githubMcpService.ts: the tools context and the system prompt    *)
(* ================================================================== *)

Module ToolsContext.
Import JS JS.Notations GitHubMcpService.

(** [Object.entries(v)]: own properties of an object, the indices of an
    array, the characters of a string, nothing for a number or a
    boolean; [null] and [undefined] are a TypeError. *)
Fixpoint characters (i : nat) (s : string) : list (string * value) :=
  match s with
  | EmptyString => []
  | String c rest =>
      (num_to_string (Z.of_nat i), JStr (String c EmptyString))
      :: characters (S i) rest
  end.

Definition objectEntries (v : value) : result (list (string * value)) :=
  match v with
  | JUndefined | JNull => Throw TypeError
  | JObj props => Ok props
  | JArr items => Ok (indexed 0 items)
  | JStr s => Ok (characters 0 s)
  | _ => Ok []
  end.

(** [required?.includes(param)]: nothing for [null] and [undefined], the
    membership test of an array, the substring test of a string; on
    anything else [includes] is not a function. *)
Definition includesParam (required : value) (param : string)
  : result bool :=
  match required with
  | JUndefined | JNull => Ok false
  | JArr items => Ok (existsb (is_text param) items)
  | JStr s => Ok (Str.includes s param)
  | _ => Throw TypeError
  end.

Section WithClient.
Context {client : Sdk.Client} {host : Host}.

(** One line of the parameter list. *)
Definition parameterLine (inputSchema : value) (entry : string * value)
  : result string :=
  let param := fst entry in
  let paramSchema := snd entry in
  isRequired <- includesParam (get_opt inputSchema "required") param ;;
  let required := if isRequired : bool then " (required)" else " (optional)" in
  d <- get paramSchema "description" ;;
  text <- (if truthy d then show d
           else (t <- get paramSchema "type" ;;
                 show (or_else t (JStr "No description")))) ;;
  Ok ("  - " ++ param ++ required ++ ": " ++ text ++ newline).

(** The block of one tool. *)
Definition toolBlock (tool : GitHubTool) : result string :=
  let context := "**" ++ name tool ++ "**" ++ newline in
  let context := context ++ "Description: " ++ description tool ++ newline in
  context <-
    (if truthy (get_opt (inputSchema tool) "properties") then
       let context := context ++ "Parameters:" ++ newline in
       entries <- objectEntries (get_opt (inputSchema tool) "properties") ;;
       lines <- mapR (parameterLine (inputSchema tool)) entries ;;
       Ok (context ++ String.concat "" lines)
     else Ok context) ;;
  Ok (context ++ newline).

Definition renderTools (tools : list GitHubTool) : result string :=
  blocks <- mapR toolBlock tools ;;
  Ok ("Available GitHub MCP tools:" ++ newline ++ newline
      ++ String.concat "" blocks).

Definition dquote : string := String (ascii_of_N 34) "".

Definition getToolsContext : M string :=
  bindM getAvailableTools (fun tools =>
    if (List.length tools =? 0)%nat
    then ret "No GitHub MCP tools are currently available."
    else lift (renderTools tools)).

Definition createSystemPrompt : M string :=
  bindM getToolsContext (fun toolsContext =>
    let defaultRepo := getDefaultRepository in
    let prompt :=
      "You are a GitHub assistant that helps users interact with GitHub repositories using available MCP tools." ++ newline
      ++ newline
      ++ toolsContext
      ++ newline
      ++ newline
      ++ "Default Repository Settings:" in
    let prompt :=
      if GitHubToolParser.present (fst defaultRepo)
         && GitHubToolParser.present (snd defaultRepo)
      then prompt
           ++ newline
           ++ "- Owner: "
           ++ match fst defaultRepo with Some o => o | None => "undefined" end
           ++ newline
           ++ "- Repository: "
           ++ match snd defaultRepo with Some r => r | None => "undefined" end
           ++ newline
           ++ newline
           ++ "When users don't specify a repository, use these defaults."
      else prompt
           ++ newline
           ++ "- No default repository configured. Users must specify owner/repo explicitly." in
    let prompt :=
      prompt
      ++ newline
      ++ newline
      ++ "Guidelines for tool usage:" ++ newline
      ++ "1. Always choose the most appropriate tool based on user intent" ++ newline
      ++ "2. Use default repository when not specified by user" ++ newline
      ++ "3. Extract relevant parameters from user messages (issue numbers, PR numbers, etc.)" ++ newline
      ++ "4. If multiple tools could work, choose the most specific one" ++ newline
      ++ "5. Provide helpful error messages if required parameters are missing" ++ newline
      ++ "6. Format responses in a user-friendly way" ++ newline
      ++ newline
      ++ "When responding about tool execution:" ++ newline
      ++ "- Be conversational and helpful" ++ newline
      ++ "- Include relevant details from the results" ++ newline
      ++ "- Provide links when available" ++ newline
      ++ "- Suggest related actions when appropriate" in
    ret prompt).

End WithClient.

End ToolsContext.

(* ================================================================== *)
(** ** app/app.ts: the message handler                                 *)
(* ================================================================== *)

Module Handler.
Import JS GitHubMcpService.

(** What the handler reads of the turn context: the text of the
    activity and the two ids of its sender; [None] for an absent [from]
    or an absent field. *)
Record TurnContext : Type := {
  activity_text : option string;
  activity_from : option (option string * option string)
}.

(** The context as the object [getUserIdFromContext] receives. *)
Definition contextValue (ctx : TurnContext) : value :=
  JObj [("activity",
         JObj [("text", App.opt_value (activity_text ctx));
               ("from",
                match activity_from ctx with
                | Some (id, aadObjectId) =>
                    JObj [("id", App.opt_value id);
                          ("aadObjectId", App.opt_value aadObjectId)]
                | None => JUndefined
                end)])].

(** What [context.sendActivity] is given: a text, or the sign-in card,
    whose only variable part is the login URL of its button. *)
Inductive sent : Type :=
| Message (text : string)
| AuthCard (loginUrl : string).

(** The handler works on a service instance and sends activities as it
    goes; what was sent stays sent when it throws. *)
Definition H (A : Type) : Type :=
  state -> list sent -> result A * state * list sent.

Definition retH {A} (a : A) : H A := fun s out => (Ok a, s, out).
Definition bindH {A B} (m : H A) (k : A -> H B) : H B :=
  fun s out =>
    match m s out with
    | (Ok a, s', out') => k a s' out'
    | (Throw e, s', out') => (Throw e, s', out')
    end.
Definition tryH {A} (body : H A) (handler : exn -> H A) : H A :=
  fun s out =>
    match body s out with
    | (Ok a, s', out') => (Ok a, s', out')
    | (Throw e, s', out') => handler e s' out'
    end.
Definition liftM {A} (m : M A) : H A :=
  fun s out => match m s with (r, s') => (r, s', out) end.
Definition liftR {A} (r : result A) : H A := fun s out => (r, s, out).
Definition sendActivity (a : sent) : H unit :=
  fun s out => (Ok tt, s, (out ++ [a])%list).

Fixpoint sendEach (texts : list string) : H unit :=
  match texts with
  | [] => retH tt
  | t :: rest => bindH (sendActivity (Message t)) (fun _ => sendEach rest)
  end.

(** [context.activity.text?.toLowerCase() || ""] *)
Definition lowerText (ctx : TurnContext) : string :=
  match activity_text ctx with
  | Some t => Str.toLowerCase t
  | None => ""
  end.

(** The selector of the handler: is this a GitHub-related request? *)
Definition isGitHubRequest (ctx : TurnContext) : bool :=
  let text := lowerText ctx in
  Str.includes text "github" || Str.includes text "repo"
  || Str.includes text "pull request" || Str.includes text "mcp"
  || Str.includes text "tool" || Str.includes text "issue".

(** [aiDecision.toolCalls.map(call => call.reasoning || `calling ...`)
     .join(', ')] *)
Definition actionDescriptions (toolCalls : list App.ToolCall) : string :=
  String.concat ", "
    (map (fun call =>
            if String.eqb (App.reasoning call) ""
            then "calling " ++ App.toolName call
            else App.reasoning call) toolCalls).

Definition toolsListMessage (availableTools : list GitHubTool) : string :=
  "🛠️ **Available GitHub Tools:**" ++ newline ++ newline
  ++ String.concat newline
       (map (fun tool => "• **" ++ name tool ++ "**: " ++ description tool)
          availableTools)
  ++ newline ++ newline
  ++ "You can use natural language to request GitHub operations, and I'll choose the best tool automatically!".

Definition errorMessage (error : exn) : string :=
  "❌ **Error processing GitHub request**: "
  ++ match error with
     | Error m => m
     | NonError => "Unknown error occurred"
     end
  ++ newline ++ newline
  ++ "Please try again or contact support if the issue persists.".

Section WithClient.
Context {client : Sdk.Client} {host : Host}.
Variable encodeURIComponent : string -> string.

(** The part of the handler that runs with a stored token: from
    [new GitHubMcpService(...)] to the reports. *)
Definition serve (text : string) (ctx : TurnContext) : H unit :=
  bindH (liftM initialize) (fun _ =>
  bindH (liftM getAvailableTools) (fun availableTools =>
    if (List.length availableTools =? 0)%nat then
      sendActivity
        (Message ("⚠️ No GitHub tools are currently available from the MCP server."
                  ++ newline
                  ++ "This might be a temporary issue. Please try again later."))
    else if Str.includes text "available" && Str.includes text "tool" then
      sendActivity (Message (toolsListMessage availableTools))
    else
      bindH (liftM ToolsContext.createSystemPrompt) (fun systemPrompt =>
        let userRequest :=
          match activity_text ctx with Some t => t | None => "" end in
        let aiDecision := App.resolve availableTools userRequest in
        if App.needsMoreInfo aiDecision then
          sendActivity (Message (App.needsMoreInfoReply aiDecision))
        else if (List.length (App.toolCalls aiDecision) =? 0)%nat then
          sendActivity
            (Message ("🤔 I couldn't determine which GitHub tool to use for your request."
                      ++ newline ++ newline
                      ++ "Try being more specific about what you'd like to do."))
        else
          bindH (sendActivity
                   (Message ("🔄 "
                             ++ actionDescriptions (App.toolCalls aiDecision)
                             ++ "...")))
            (fun _ =>
          bindH (liftM (App.executeToolCalls (App.toolCalls aiDecision)))
            (fun results => sendEach (App.reportResults results)))))).

(** The handler body inside its [try], and the [catch] around it. *)
Definition onMessage (now : Z) (tokenStore : gmap string GitHubOAuth.GitHubTokenInfo)
    (ctx : TurnContext) : H unit :=
  let text := lowerText ctx in
  tryH
    (bindH (liftR (OAuthFlow.getUserIdFromContext (contextValue ctx)))
       (fun id =>
          match id with
          | JStr userId =>
              if negb (TokenStore.hasValidToken now tokenStore userId) then
                let baseUrl :=
                  OAuthFlow.or_default (env "BOT_ENDPOINT")
                    "http://localhost:3978" in
                let loginUrl :=
                  baseUrl ++ "/auth/github?userId="
                  ++ encodeURIComponent userId in
                sendActivity (AuthCard loginUrl)
              else
                match TokenStore.getStoredToken tokenStore userId with
                | None =>
                    sendActivity
                      (Message "❌ Authentication error. Please try logging in again.")
                | Some tokenInfo => serve text ctx
                end
          | _ => liftR (Throw TypeError)
          end))
    (fun error => sendActivity (Message (errorMessage error))).

(** One turn: a new service instance, nothing sent yet. *)
Definition turn (now : Z) (tokenStore : gmap string GitHubOAuth.GitHubTokenInfo)
    (ctx : TurnContext) : list sent * list Sdk.event :=
  match onMessage now tokenStore ctx fresh [] with
  | (_, s, out) => (out, trace s)
  end.

End WithClient.

End Handler.

(* ================================================================== *)
(** ** app/app_llm_driven.ts: finding the JSON in the model's answer   *)
(* ================================================================== *)

Module LlmDriven.
Import Regex.

Definition any_char (c : ascii) : bool := true.

(** [/\{[\s\S]*\}/], the whole match kept as group 0; the starred class
    is an optional greedy run. *)
Definition json_re : re :=
  Group 0 (seq [Lit "{"; Opt (Plus any_char); Lit "}"]).

(** [aiResponse.message?.content?.match(/\{[\s\S]*\}/)], then
    [jsonMatch[0]]. *)
Definition extractJson (content : option string) : option string :=
  match content with
  | Some text =>
      match exec false json_re text with
      | Some jsonMatch => capture 0 jsonMatch
      | None => None
      end
  | None => None
  end.

End LlmDriven.

(* ================================================================== *)
(** ** Sequences of operations on one service instance                 *)
(* ================================================================== *)

Module Session.
Import JS GitHubMcpService.

(** The public methods of [GitHubMcpService]. *)
Inductive operation : Type :=
| Initialize
| GetAvailableTools
| GetToolsContext
| CreateSystemPrompt
| ExecuteTool (toolName : string) (args : value).

Section WithClient.
Context {client : Sdk.Client} {host : Host}.

Definition perform (o : operation) (s : state) : state :=
  match o with
  | Initialize => snd (initialize s)
  | GetAvailableTools => snd (getAvailableTools s)
  | GetToolsContext => snd (ToolsContext.getToolsContext s)
  | CreateSystemPrompt => snd (ToolsContext.createSystemPrompt s)
  | ExecuteTool toolName args => snd (executeTool toolName args s)
  end.

Fixpoint performAll (ops : list operation) (s : state) : state :=
  match ops with
  | [] => s
  | o :: rest => performAll rest (perform o s)
  end.

End WithClient.

End Session.

(* ================================================================== *)
(** ** index.ts: the debug endpoints                                   *)
(* ================================================================== *)

Module Debug.
Import JS GitHubMcpService.

(** [res.json(body)] (status 200) and [res.status(code).json(body)]. *)
Record reply : Type := {
  status : Z;
  body : value
}.


Section WithClient.
Context {client : Sdk.Client} {host : Host}.

(** [GET /debug/config]; [timestamp] is [new Date().toISOString()]. *)
Definition config (timestamp : string) : reply :=
  {| status := 200;
     body :=
       JObj [("GITHUB_CLIENT_ID",
              JStr (if OAuthFlow.present (env "GITHUB_CLIENT_ID")
                    then Str.take 12
                           (OAuthFlow.or_default (env "GITHUB_CLIENT_ID") "")
                         ++ "..."
                    else "NOT SET"));
             ("GITHUB_CLIENT_SECRET",
              JStr (if OAuthFlow.present (env "GITHUB_CLIENT_SECRET")
                    then "SET (hidden)"
                    else "NOT SET"));
             ("GITHUB_OAUTH_REDIRECT_URI",
              JStr (OAuthFlow.or_default (env "GITHUB_OAUTH_REDIRECT_URI")
                      "NOT SET"));
             ("GITHUB_DEFAULT_OWNER",
              JStr (OAuthFlow.or_default (env "GITHUB_DEFAULT_OWNER")
                      "NOT SET"));
             ("GITHUB_DEFAULT_REPO",
              JStr (OAuthFlow.or_default (env "GITHUB_DEFAULT_REPO")
                      "NOT SET"));
             ("timestamp", JStr timestamp)] |}.



End WithClient.

End Debug.

(* ================================================================== *)
(** * Reference inputs and auxiliary notions                           *)
(* ================================================================== *)

Section Notions.
Import JS GitHubMcpService Async.

(** Thirty days in milliseconds. *)
Definition thirty_days : Z := 30 * 24 * 60 * 60 * 1000.

(** An object nested five levels deep. *)
Definition deeply_nested : value :=
  JObj [("a", JObj [("b", JObj [("c", JObj [("d", JArr [JObj [("e", JNull)]])])])])].

(** [null] inside [n] arrays, one in the other: [[[...[null]...]]]. *)
Definition nested_arrays (n : nat) : value :=
  Nat.iter n (fun inner => JArr [inner]) JNull.

(** An issue without [user]: the author line is left out. *)
Definition partial_issue : value :=
  JObj [("number", JNum 5); ("title", JStr "Crash on start");
        ("state", JStr "open")].

(** A payload whose formatting proper throws: a [null] entry inside the
    [content] array, read as [item.type]. *)
Definition envelope_with_null : value := JObj [("content", JArr [JNull])].

(** A pull request as the GitHub API returns it, reduced to the fields
    the formatter reads. *)
Definition sample_pull_request : value :=
  JObj [("number", JNum 42);
        ("title", JStr "Add retry logic");
        ("state", JStr "open");
        ("user", JObj [("login", JStr "octocat")]);
        ("head", JObj [("ref", JStr "feature")]);
        ("base", JObj [("ref", JStr "main")]);
        ("html_url", JStr "https://github.com/octocat/hello-world/pull/42")].

(** [**Item N:**] blocks for renderings numbered from [index + 1]. *)
Fixpoint numbered (index : nat) (rendered : list string) : list string :=
  match rendered with
  | [] => []
  | r :: rest =>
      ("**Item " ++ num_to_string (Z.of_nat index + 1) ++ ":**"
       ++ newline ++ r) :: numbered (S index) rest
  end.

(** A value that cannot be printed: its own [toString] is not callable. *)
Definition unprintable : JS.value := JS.JObj [("toString", JS.JNull)].

(** A repository list whose entry has unprintable [title] and [name]:
    both formatters throw inside and fall back to the raw JSON. *)
Definition hostile_list : JS.value :=
  JS.JArr [JS.JObj [("number", JS.JNum 1); ("title", unprintable);
                    ("name", unprintable)]].

(** The result [executeTool] builds for a successful call. *)
Definition succeeded (toolName : string) (data : value) (formatted : string)
  : GitHubToolResult :=
  {| success := true; data := Some data; error := None;
     toolName := toolName; formattedResult := Some formatted |}.

(** The result it builds for a call that threw. *)
Definition failed (toolName : string) (e : exn) : GitHubToolResult :=
  {| success := false; data := None; error := Some (message_or_unknown e);
     toolName := toolName; formattedResult := None |}.

(** The entries of [callTool] in a trace, in order. *)
Definition callTool_entries (t : list Sdk.event) : list Sdk.event :=
  List.filter Sdk.is_callTool t.

(** A batch whose first call brings back, on the sample SDK, a result
    six thousand arrays deep, and whose second call fails. *)
Definition deep_batch : list App.ToolCall :=
  [ {| App.toolName := "search_code";
       App.parameters := nested_arrays 6000;
       App.reasoning := "Searching code" |};
    {| App.toolName := "broken";
       App.parameters := JS.JObj [];
       App.reasoning := "" |};
    {| App.toolName := "list_repos";
       App.parameters := JS.JArr [];
       App.reasoning := "Listing repositories" |} ].

(** Entries of [MCPClient.listTools] so far in a system. *)
Definition calls (sys : system) : nat :=
  Sdk.listTools_calls (trace (service sys)).

(** Calls of [getAvailableTools] not made yet. *)
Definition idle (ts : list task) : nat :=
  List.length (List.filter (fun t => negb (started t)) ts).

(** Two pending login states: one issued long ago, one recent. *)
Definition sample_pending : gmap string OAuthFlow.PendingState :=
  <["old" := {| OAuthFlow.userId := "alice"; OAuthFlow.timestamp := 1 |}]>
    (<["recent" := {| OAuthFlow.userId := "bob";
                      OAuthFlow.timestamp := 500000 |}]> ∅).

(** A token endpoint that grants a token for every code. *)
Definition granting (code : JS.value) : JS.result OAuthFlow.TokenData :=
  JS.Ok {| OAuthFlow.data_access_token := Some "gho_token";
           OAuthFlow.data_token_type := None;
           OAuthFlow.data_scope := Some "repo" |}.

(** A user endpoint that does not answer. *)
Definition silent (token : string) : option OAuthFlow.UserInfo := None.

(** An event that involves no SDK request other than a connection
    attempt. *)
Definition quiet (e : Sdk.event) : bool :=
  match e with
  | Sdk.Method _ => true
  | Sdk.Wire Sdk.Connect => true
  | Sdk.Wire _ => false
  end.

(** The [callTool] entry a tool call leaves in the trace. *)
Definition entry_of (call : App.ToolCall) : Sdk.event :=
  Sdk.Method (Sdk.CallTool (App.toolName call) (App.parameters call)).

(** How a method may move a service instance: the trace grows by
    [added]; a loaded catalog stays loaded; a connection that is up
    stays up and is not asked for again; and if the instance ends up
    unconnected, nothing but connection attempts reached the SDK. *)
Definition steady (s s' : state) : Prop :=
  exists added : list Sdk.event,
    trace s' = (trace s ++ added)%list
    /\ (toolsLoaded s = true -> toolsLoaded s' = true)
    /\ (connected s = true ->
        connected s' = true /\ ~ In (Sdk.Wire Sdk.Connect) added)
    /\ (connected s' = false -> forallb quiet added = true).

(** A listing that brings no tool: a failure, no [tools] field, or an
    empty array. *)
Definition no_tools_listed (listing : result Sdk.ListToolsResult) : bool :=
  match listing with
  | Ok (Some (_ :: _)) => false
  | _ => true
  end.

(** An item of the MCP [content] array that carries the text [t]. *)
Definition carries_text (item : value) (t : string) : Prop :=
  is_text "text" (get_opt item "type") = true
  /\ get_opt item "text" = JStr t.

(** A value that is neither an object nor an array. *)
Definition primitive (v : value) : bool :=
  match v with
  | JArr _ | JObj _ => false
  | _ => true
  end.

(** A parameter as JSON Schema writes it: its schema is there, and its
    [description] and [type], if any, are not objects. *)
Definition plain_parameter (entry : string * value) : bool :=
  match snd entry with
  | JUndefined | JNull => false
  | schema =>
      primitive (get_opt schema "description")
      && primitive (get_opt schema "type")
  end.

(** An input schema without parameters, or with an object of plain
    parameters and [required] absent or an array. *)
Definition plain_schema (schema : value) : bool :=
  match get_opt schema "properties" with
  | JObj props =>
      match get_opt schema "required" with
      | JUndefined | JNull | JArr _ => true
      | _ => false
      end
      && forallb plain_parameter props
  | properties => negb (truthy properties)
  end.

(** The two lines that open the block of a tool. *)
Definition tool_heading (tool : GitHubTool) : string :=
  ("**" ++ name tool ++ "**" ++ newline)
  ++ "Description: " ++ description tool ++ newline.

(** The tools of the nine specific categories of [parseUserIntent], in
    the order in which the categories are tried. *)
Definition specific_tools : list string :=
  ["github_repo_list"; "github_repo_create"; "github_pr_list";
   "github_pr_create"; "github_issues_list"; "github_issue_get";
   "github_issue_create"; "github_file_get"; "github_user_get"].

(** The tools that take no repository. *)
Definition repo_free_tools : list string :=
  ["github_repo_list"; "github_user_get"; "_list_tools"].

(** The groups that take part in every match of an expression. *)
Fixpoint sure_groups (r : Regex.re) : list nat :=
  match r with
  | Regex.Seq a b => (sure_groups a ++ sure_groups b)%list
  | Regex.Group i a => i :: sure_groups a
  | _ => []
  end.

(** A tool name the keyword resolver may come up with: one of the
    catalog, or one of its two fallbacks. *)
Definition known_name (availableTools : list GitHubTool) (n : string) : Prop :=
  In n (map name availableTools) \/ n = "get_issue" \/ n = "list_repos".

(** A catalog of two tools: one without parameters, one with a
    required and an optional parameter. *)
Definition sample_catalog : list GitHubTool :=
  [ {| name := "get_me"; description := "Get the current user";
       inputSchema := JObj [] |};
    {| name := "get_issue"; description := "Get an issue";
       inputSchema :=
         JObj [("type", JStr "object");
               ("properties",
                JObj [("issue_number",
                       JObj [("type", JStr "number");
                             ("description", JStr "Issue number")]);
                      ("repo", JObj [("type", JStr "string")])]);
               ("required", JArr [JStr "issue_number"])] |} ].

(** A tool with a parameter whose schema is [null]. *)
Definition broken_tool : GitHubTool :=
  {| name := "search"; description := "Search";
     inputSchema := JObj [("properties", JObj [("query", JNull)])] |}.

(** An instance whose loaded catalog holds that tool. *)
Definition broken_instance : state :=
  set_toolsLoaded true (set_availableTools [broken_tool] fresh).

(** A store in which [alice] holds a token obtained at time 1000. *)
Definition sample_store : gmap string GitHubOAuth.GitHubTokenInfo :=
  <["alice" := {| GitHubOAuth.access_token := "gho_token";
                  GitHubOAuth.token_type := "bearer";
                  GitHubOAuth.scope := "repo";
                  GitHubOAuth.obtained_at := 1000 |}]> ∅.

(** A turn in which [alice] asks for an issue. *)
Definition sample_turn : Handler.TurnContext :=
  {| Handler.activity_text := Some "Show issue #68 on GitHub";
     Handler.activity_from := Some (Some "alice", None) |}.

(** A host whose environment holds the OAuth client id and secret and
    nothing else. *)
Definition configured (id secret : string) : Host :=
  {| toLocaleDateString := fun _ => "Invalid Date";
     string_gt := fun _ _ => false;
     env := fun key =>
              if String.eqb key "GITHUB_CLIENT_ID" then Some id
              else if String.eqb key "GITHUB_CLIENT_SECRET" then Some secret
              else None;
     json_depth := 5000;
     join_depth := 5000 |}.

(** The overlap as the specification words it: a token of the tool's
    name (its [_]-separated words, in lower case) is one of the words
    of the request. *)
Definition shares_name_token (normalizedRequest : string) (tool : GitHubTool)
  : bool :=
  existsb (fun word =>
             existsb (String.eqb word) (Str.split_spaces normalizedRequest))
    (Str.split_on (Ascii.eqb "_") (Str.toLowerCase (name tool))).

(** A catalog that offers [get_me] only. *)
Definition profile_only : list GitHubTool :=
  [ {| name := "get_me"; description := "Get the current user";
       inputSchema := JObj [] |} ].



End Notions.

(* ================================================================== *)
(** * Properties                                                       *)
(* ================================================================== *)

(** ** Credential store *)

(** C4.  A token record is valid exactly when it is less than thirty
    days old: [isTokenValid] holds iff [now - obtained_at < 30 days];
    [hasValidToken] is that same test on the record stored for the
    user, and false when no record is stored.  A record obtained 31
    days ago is invalid for both. *)
Theorem token_valid_iff_younger_than_30_days :
  forall (now : Z) (record : GitHubOAuth.GitHubTokenInfo)
         (store : gmap string GitHubOAuth.GitHubTokenInfo) (userId : string),
    let aged :=
      {| GitHubOAuth.access_token := GitHubOAuth.access_token record;
         GitHubOAuth.token_type := GitHubOAuth.token_type record;
         GitHubOAuth.scope := GitHubOAuth.scope record;
         GitHubOAuth.obtained_at := (now - 31 * 24 * 60 * 60 * 1000)%Z |} in
    (GitHubOAuth.isTokenValid now record = true
       <-> (now - GitHubOAuth.obtained_at record < thirty_days)%Z)
    /\ TokenStore.hasValidToken now store userId
       = match store !! userId with
         | Some stored => GitHubOAuth.isTokenValid now stored
         | None => false
         end
    /\ (TokenStore.hasValidToken now (<[userId := record]> store) userId = true
          <-> (now - GitHubOAuth.obtained_at record < thirty_days)%Z)
    /\ TokenStore.hasValidToken now (delete userId store) userId = false
    /\ GitHubOAuth.isTokenValid now aged = false
    /\ TokenStore.hasValidToken now (<[userId := aged]> store) userId = false.
Proof.
  intros now record store userId aged.
  unfold GitHubOAuth.isTokenValid, TokenStore.hasValidToken,
    TokenStore.getStoredToken, thirty_days.
  repeat split.
  - intros H. apply Z.gtb_lt in H. lia.
  - intros H. apply Z.gtb_lt. lia.
  - rewrite lookup_insert_eq. intros H. apply Z.gtb_lt in H. lia.
  - rewrite lookup_insert_eq. intros H. apply Z.gtb_lt. lia.
  - by rewrite lookup_delete_eq.
  - subst aged; simpl. rewrite Z.gtb_ltb. apply Z.ltb_ge. lia.
  - rewrite lookup_insert_eq. subst aged; simpl.
    rewrite Z.gtb_ltb. apply Z.ltb_ge. lia.
Qed.

(** ** Pattern resolver *)

(** C5.  [Show issue #68 in octocat/hello-world] resolves to exactly one
    invocation: the single-issue fetch [github_issue_get] with
    [owner=octocat], [repo=hello-world], [issue_number=68]; no other
    category adds an invocation. *)
Theorem show_issue_68_resolves_to_issue_get :
  forall host : JS.Host,
    GitHubToolParser.parseUserIntent "Show issue #68 in octocat/hello-world"
    = [ {| GitHubToolParser.toolName := "github_issue_get";
           GitHubToolParser.arguments :=
             [("owner", JS.JStr "octocat");
              ("repo", JS.JStr "hello-world");
              ("issue_number", JS.JNum 68)];
           GitHubToolParser.description :=
             "Getting issue #68 from octocat/hello-world" |} ].
Proof. intros host. vm_compute. reflexivity. Qed.

(** C10.  Issue number 0 is dropped: in
    [show issue #0 in octocat/hello-world] the pattern finds [#0] and
    the repository reference, but the number 0 is falsy, so the message
    yields no invocation at all, in particular no [github_issue_get]. *)
Theorem issue_number_zero_is_dropped :
  forall host : JS.Host,
    let text := "show issue #0 in octocat/hello-world" in
    GitHubToolParser.matchesPattern text
      ["issue #"; "issue number"; "show issue"; "get issue"] = true
    /\ GitHubToolParser.extractIssueNumber text = Some 0%Z
    /\ GitHubToolParser.extractRepoReference text
       = Some {| GitHubToolParser.owner := "octocat";
                 GitHubToolParser.name := "hello-world" |}
    /\ GitHubToolParser.nonzero (GitHubToolParser.extractIssueNumber text)
       = false
    /\ GitHubToolParser.parseUserIntent text = [].
Proof. intros host. vm_compute. repeat split; reflexivity. Qed.

(** ** Result formatter *)

Section Formatting.
Context {host : JS.Host}.
Import JS GitHubMcpService.

Lemma bind_Ok {A B} (m : result A) (k : A -> result B) (b : B) :
  bind m k = Ok b -> exists a, m = Ok a /\ k a = Ok b.
Proof. destruct m as [a|e]; simpl; [eauto | discriminate]. Qed.

Lemma append_cons (c : ascii) (a b : string) :
  String c a ++ b = String c (a ++ b).
Proof. reflexivity. Qed.

Lemma append_nil_l (b : string) : "" ++ b = b.
Proof. reflexivity. Qed.

Lemma append_nil_r (a : string) : a ++ "" = a.
Proof.
  induction a as [|x a IH]; [reflexivity|].
  rewrite append_cons. congruence.
Qed.

Lemma append_assoc (a b c : string) : (a ++ b) ++ c = a ++ (b ++ c).
Proof.
  induction a as [|x a IH]; [reflexivity|].
  rewrite !append_cons. congruence.
Qed.

Lemma append_if_Ok cond formatted piece s :
  append_if cond formatted piece = Ok s ->
  exists rest, s = formatted ++ rest.
Proof.
  unfold append_if. destruct cond.
  - intros H. apply bind_Ok in H as (p & _ & H).
    injection H as <-. eauto.
  - intros H. injection H as <-. exists "".
    symmetry. apply append_nil_r.
Qed.

(** The issue test comes first in [formatSingleItem] and asks for less
    than the pull-request test, so whatever carries a truthy [number] and
    [title] is printed by the issue template, which opens with [**#]:
    the pull-request template ([**PR #]) is never used. *)
Lemma number_and_title_take_issue_template (props : list (string * value))
    (s : string) :
  truthy (get_opt (JObj props) "number") = true ->
  truthy (get_opt (JObj props) "title") = true ->
  formatSingleItem (JObj props) = Ok s ->
  exists rest, s = "**#" ++ rest.
Proof.
  intros Hn Ht. unfold formatSingleItem.
  cbn [truthy typeof negb orb String.eqb Ascii.eqb Bool.eqb].
  rewrite Hn, Ht. cbn [andb].
  intros H.
  repeat (apply bind_Ok in H as (? & ? & H)).
  injection H as <-.
  repeat match goal with
         | E : append_if _ _ _ = Ok _ |- _ =>
             apply append_if_Ok in E as (? & ->)
         end.
  rewrite !append_assoc. eauto.
Qed.

(** What the two formatters return: the outcome of the formatting
    proper, or else whatever their [catch] block comes to. *)
Lemma service_formatter_outcome (toolName : string) (result : value) :
  formatToolResult toolName result
  = match formatByShape result with
    | Ok text => Ok text
    | Throw _ => rawResult result
    end.
Proof. reflexivity. Qed.

Lemma parser_formatter_outcome (toolName : string) (result : value) :
  GitHubToolParser.formatToolResult toolName result
  = match GitHubToolParser.formatByName toolName result with
    | Ok text => Ok text
    | Throw _ => GitHubToolParser.formattingFailed toolName result
    end.
Proof. reflexivity. Qed.

(** Where the result can be serialised, formatting is total: both
    formatters return a string, and when the formatting proper throws,
    what comes back is the raw JSON of the result behind a fixed
    prefix. *)
Lemma serialisable_result_is_formatted (toolName : string) (result : value)
    (json json2 : string) :
  stringify result = Ok json ->
  stringify2 result = Ok json2 ->
  (exists text, formatToolResult toolName result = Ok text)
  /\ (exists text,
        GitHubToolParser.formatToolResult toolName result = Ok text)
  /\ (forall e, formatByShape result = Throw e ->
        formatToolResult toolName result = Ok ("Raw result: " ++ json2))
  /\ (forall e, GitHubToolParser.formatByName toolName result = Throw e ->
        GitHubToolParser.formatToolResult toolName result
        = Ok ("⚠️ Tool '" ++ toolName
              ++ "' completed but result formatting failed: " ++ json)).
Proof.
  intros Hjson Hjson2.
  assert (Hs : forall e, formatByShape result = Throw e ->
                 formatToolResult toolName result = Ok ("Raw result: " ++ json2)).
  { intros e H. rewrite service_formatter_outcome, H. unfold rawResult.
    rewrite Hjson2. reflexivity. }
  assert (Hp : forall e, GitHubToolParser.formatByName toolName result = Throw e ->
                 GitHubToolParser.formatToolResult toolName result
                 = Ok ("⚠️ Tool '" ++ toolName
                       ++ "' completed but result formatting failed: " ++ json)).
  { intros e H. rewrite parser_formatter_outcome, H.
    unfold GitHubToolParser.formattingFailed. rewrite Hjson. reflexivity. }
  repeat split; try assumption.
  - destruct (formatByShape result) as [text|e] eqn:H.
    + exists text. rewrite service_formatter_outcome, H. reflexivity.
    + eauto.
  - destruct (GitHubToolParser.formatByName toolName result) as [text|e] eqn:H.
    + exists text. rewrite parser_formatter_outcome, H. reflexivity.
    + eauto.
Qed.

Lemma nested_arrays_S (n : nat) :
  nested_arrays (S n) = JArr [nested_arrays n].
Proof. reflexivity. Qed.

(** Arrays nested deeper than the stack allows cannot be serialised,
    nor printed. *)
Lemma serialize_overflows (gap : string) (depth : nat) :
  forall (indent : string) (n : nat),
    (depth < n)%nat ->
    serialize gap indent depth (nested_arrays n) = Throw RangeError.
Proof.
  induction depth as [|below IH]; intros indent n Hn;
    (destruct n as [|m]; [lia|]); rewrite nested_arrays_S;
    cbn [serialize].
  - reflexivity.
  - cbn [mapR]. rewrite IH by lia. reflexivity.
Qed.

Lemma ToString_overflows (depth : nat) :
  forall n : nat,
    (depth < n)%nat ->
    ToString_within depth (nested_arrays n) = Throw RangeError.
Proof.
  induction depth as [|below IH]; intros n Hn;
    (destruct n as [|m]; [lia|]); rewrite nested_arrays_S;
    cbn [ToString_within].
  - reflexivity.
  - cbn [map joinR]. destruct m as [|m']; [lia|].
    rewrite nested_arrays_S. cbn [join_elem].
    rewrite <- nested_arrays_S. apply IH. lia.
Qed.

Lemma stringify_overflows (n : nat) :
  (S json_depth < n)%nat ->
  stringify (nested_arrays n) = Throw RangeError
  /\ stringify2 (nested_arrays n) = Throw RangeError.
Proof.
  intros Hn. unfold stringify, stringify2.
  rewrite !serialize_overflows by exact Hn. split; reflexivity.
Qed.

(** C6.  What the code does on a result nested deeper than the stack
    allows: the formatting proper throws a RangeError, the [catch]
    block serialises the same result, which throws again, and that
    RangeError leaves the formatter.  For the formatter of the pattern
    resolver this is shown under [any_tool], a tool name it has no
    template for. *)
Theorem deep_result_escapes_the_formatters :
  forall (toolName : string) (n : nat),
    (json_depth <= n)%nat ->
    (join_depth <= n)%nat ->
    formatByShape (nested_arrays (4 + n)) = Throw RangeError
    /\ formatToolResult toolName (nested_arrays (4 + n)) = Throw RangeError
    /\ GitHubToolParser.formatToolResult "any_tool" (nested_arrays (4 + n))
       = Throw RangeError.
Proof.
  intros toolName n Hjson Hjoin.
  destruct (stringify_overflows (4 + n) ltac:(lia)) as [Hs Hs2].
  assert (Hshape : formatByShape (nested_arrays (4 + n)) = Throw RangeError).
  { change (4 + n)%nat with (S (S (2 + n))). rewrite !nested_arrays_S.
    unfold formatByShape, formatSingleItem.
    cbn [get_opt String.eqb Ascii.eqb Bool.eqb truthy isArray andb typeof
         negb orb entries indexed List.filter is_null is_undefined is_text
         firstn mapR snd fst].
    unfold show, ToString.
    assert (Hkept : negb (is_null (nested_arrays (2 + n)))
                    && negb (is_undefined (nested_arrays (2 + n)))
                    && negb (is_text "" (nested_arrays (2 + n))) = true)
      by reflexivity.
    rewrite Hkept. cbn [firstn mapR fst snd].
    rewrite ToString_overflows by lia. reflexivity. }
  split; [exact Hshape|]. split.
  - rewrite service_formatter_outcome, Hshape. unfold rawResult.
    rewrite Hs2. reflexivity.
  - rewrite parser_formatter_outcome.
    unfold GitHubToolParser.formatByName, GitHubToolParser.formattingFailed.
    cbn [String.eqb Ascii.eqb Bool.eqb]. rewrite Hs2, Hs. reflexivity.
Qed.

(** The inputs named by the claim, on the shape formatter ... *)
Example formats_null :
  formatToolResult "any_tool" JNull = Ok "null".
Proof. reflexivity. Qed.

Example formats_empty_array :
  formatToolResult "any_tool" (JArr []) = Ok "No results found.".
Proof. reflexivity. Qed.

Example formats_deeply_nested :
  formatToolResult "any_tool" deeply_nested = Ok "a: [object Object]".
Proof. reflexivity. Qed.

Example formats_partial_issue :
  formatToolResult "any_tool" partial_issue
  = Ok ("**#5: Crash on start**" ++ newline ++ "Status: open" ++ newline).
Proof. reflexivity. Qed.

(** ... and on the formatter of the pattern resolver, where a missing
    [user] prints as [undefined]. *)
Example parser_formats_null :
  GitHubToolParser.formatToolResult "github_issue_get" JNull
  = Ok "Could not retrieve issue.".
Proof. reflexivity. Qed.

Example parser_formats_empty_array :
  GitHubToolParser.formatToolResult "github_issues_list" (JArr [])
  = Ok ("🐛 **Issues** (showing 0):" ++ newline ++ newline).
Proof. reflexivity. Qed.

Example parser_formats_partial_issue_list :
  GitHubToolParser.formatToolResult "github_issues_list" (JArr [partial_issue])
  = Ok ("🐛 **Issues** (showing 1):" ++ newline ++ newline
        ++ "• **#5** Crash on start" ++ newline
        ++ "  👤 undefined • open • " ++ toLocaleDateString JUndefined
        ++ newline ++ "  undefined").
Proof. reflexivity. Qed.

Example shape_formatting_throws :
  formatByShape envelope_with_null = Throw TypeError.
Proof. reflexivity. Qed.

(** ** Shape sniffing of a single item *)

(** C1.  What the code does on a payload with truthy [number], [title]
    and [head]: it prints the issue template (heading [**#42: ...],
    state, author, link), not the pull-request template: there is no
    [PR] marker and no [feature → main] branch line. *)
Theorem pull_request_payload_gets_issue_template :
  truthy (get_opt sample_pull_request "number") = true
  /\ truthy (get_opt sample_pull_request "title") = true
  /\ truthy (get_opt sample_pull_request "head") = true
  /\ formatSingleItem sample_pull_request
     = Ok ("**#42: Add retry logic**" ++ newline
           ++ "Status: open" ++ newline
           ++ "Author: octocat" ++ newline
           ++ newline ++ newline
           ++ "🔗 [View on GitHub](https://github.com/octocat/hello-world/pull/42)")
  /\ formatToolResult "get_pull_request" sample_pull_request
     = formatSingleItem sample_pull_request.
Proof. repeat split; reflexivity. Qed.

(** ** Arrays of results *)

Lemma formatItems_numbered (items : list value) :
  forall (index : nat) (rendered : list string),
    mapR formatSingleItem items = Ok rendered ->
    formatItems index items = Ok (numbered index rendered).
Proof.
  induction items as [|item rest IH]; intros index rendered H.
  - injection H as <-. reflexivity.
  - cbn [mapR] in H.
    apply bind_Ok in H as (r & Hr & H).
    apply bind_Ok in H as (rs & Hrs & H).
    injection H as <-.
    cbn [formatItems]. rewrite Hr. cbn [bind].
    rewrite (IH (S index) rs Hrs). reflexivity.
Qed.

(** An element that is neither an array nor an MCP envelope is handed
    to [formatSingleItem] when formatted on its own. *)
Lemma plain_value_by_shape (x : value) :
  isArray x = false ->
  truthy (get_opt x "content") && isArray (get_opt x "content") = false ->
  formatByShape x = formatSingleItem x.
Proof.
  intros Harr Hcontent. unfold formatByShape. rewrite Hcontent.
  destruct x; try discriminate; try reflexivity;
    unfold formatSingleItem;
    cbn [typeof String.eqb Ascii.eqb Bool.eqb negb];
    rewrite orb_true_r; reflexivity.
Qed.

(** C2, as the code has it.  An array of length 1 is formatted as
    [formatSingleItem] of its element, with no [Item 1:] prefix; that is
    also what formatting the element on its own gives when the element
    is not an array and carries no [content] array.  An array of length
    2 or more is formatted as its elements' [formatSingleItem]
    renderings, each behind [**Item N:**] with its 1-based index N, and
    joined by blank lines. *)
Theorem array_results_by_length :
  forall (toolName : string),
    (forall (x : value) (rendered : string),
        formatSingleItem x = Ok rendered ->
        formatToolResult toolName (JArr [x]) = Ok rendered
        /\ (isArray x = false ->
            truthy (get_opt x "content") && isArray (get_opt x "content")
            = false ->
            formatToolResult toolName (JArr [x])
            = formatToolResult toolName x))
    /\ (forall (x y : value) (rest : list value) (rendered : list string),
          mapR formatSingleItem (x :: y :: rest) = Ok rendered ->
          formatToolResult toolName (JArr (x :: y :: rest))
          = Ok (String.concat (newline ++ newline) (numbered 0 rendered))).
Proof.
  intros toolName. split.
  - intros x rendered Hx.
    assert (H1 : formatToolResult toolName (JArr [x]) = Ok rendered).
    { unfold formatToolResult, formatByShape.
      cbn [get_opt String.eqb Ascii.eqb Bool.eqb truthy andb typeof].
      rewrite Hx. reflexivity. }
    split; [exact H1|].
    intros Harr Hcontent. rewrite H1.
    unfold formatToolResult.
    rewrite (plain_value_by_shape x Harr Hcontent), Hx. reflexivity.
  - intros x y rest rendered H.
    unfold formatToolResult, formatByShape.
    cbn [get_opt String.eqb Ascii.eqb Bool.eqb truthy andb typeof].
    rewrite (formatItems_numbered _ 0 rendered H). reflexivity.
Qed.

End Formatting.

(** A result whose formatting proper throws, and which can be
    serialised: both formatters give its raw JSON. *)
Example unprintable_result_degrades_to_raw_json :
  exists json json2 : string,
    JS.stringify (host := Sample.host) hostile_list = JS.Ok json
    /\ JS.stringify2 (host := Sample.host) hostile_list = JS.Ok json2
    /\ GitHubMcpService.formatByShape (host := Sample.host) hostile_list
       = JS.Throw JS.TypeError
    /\ GitHubMcpService.formatToolResult (host := Sample.host)
         "github_repo_list" hostile_list
       = JS.Ok ("Raw result: " ++ json2)
    /\ GitHubToolParser.formatToolResult (host := Sample.host)
         "github_repo_list" hostile_list
       = JS.Ok ("⚠️ Tool 'github_repo_list' completed but result formatting failed: "
                ++ json).
Proof.
  eexists. eexists. repeat split; vm_compute; reflexivity.
Qed.

Lemma deep_result_escapes_the_formatters_witness :
  GitHubMcpService.formatToolResult (host := Sample.host) "any_tool"
    (nested_arrays 6000)
  = JS.Throw JS.RangeError
  /\ GitHubToolParser.formatToolResult (host := Sample.host) "any_tool"
       (nested_arrays 6000)
     = JS.Throw JS.RangeError.
Proof.
  destruct (@deep_result_escapes_the_formatters Sample.host "any_tool" 5996)
    as (_ & Hservice & Hparser).
  - apply Nat.leb_le. vm_compute. reflexivity.
  - apply Nat.leb_le. vm_compute. reflexivity.
  - split; [exact Hservice | exact Hparser].
Defined.

(** C2 as stated fails when the single element is itself an array, or an
    MCP envelope: the array of one element goes through
    [formatSingleItem], the element alone does not. *)
Lemma single_element_array_differs_from_element :
  GitHubMcpService.formatToolResult (host := Sample.host) "any_tool"
    (JS.JArr [JS.JArr []]) = JS.Ok "[]"
  /\ GitHubMcpService.formatToolResult (host := Sample.host) "any_tool"
       (JS.JArr []) = JS.Ok "No results found."
  /\ GitHubMcpService.formatToolResult (host := Sample.host) "any_tool"
       (JS.JArr [JS.JArr []])
     <> GitHubMcpService.formatToolResult (host := Sample.host) "any_tool"
          (JS.JArr []).
Proof.
  split; [reflexivity|]. split; [reflexivity|]. discriminate.
Qed.

Lemma array_results_by_length_witness :
  GitHubMcpService.formatToolResult (host := Sample.host) "any_tool"
    (JS.JArr [partial_issue])
  = JS.Ok ("**#5: Crash on start**" ++ JS.newline ++ "Status: open"
           ++ JS.newline)
  /\ GitHubMcpService.formatToolResult (host := Sample.host) "any_tool"
       (JS.JArr [partial_issue])
     = GitHubMcpService.formatToolResult (host := Sample.host) "any_tool"
         partial_issue
  /\ GitHubMcpService.formatToolResult (host := Sample.host) "any_tool"
       (JS.JArr [JS.JStr "first"; partial_issue])
     = JS.Ok ("**Item 1:**" ++ JS.newline ++ "first"
              ++ JS.newline ++ JS.newline
              ++ "**Item 2:**" ++ JS.newline
              ++ "**#5: Crash on start**" ++ JS.newline ++ "Status: open"
              ++ JS.newline).
Proof.
  destruct (@array_results_by_length Sample.host "any_tool") as [One Many].
  destruct (One partial_issue
              ("**#5: Crash on start**" ++ JS.newline ++ "Status: open"
               ++ JS.newline) eq_refl) as [H1 H2].
  split; [exact H1|]. split.
  - apply H2; reflexivity.
  - apply (Many (JS.JStr "first") partial_issue []
             ["first"; "**#5: Crash on start**" ++ JS.newline
                       ++ "Status: open" ++ JS.newline]).
    reflexivity.
Defined.

(** ** Keyword resolver of the message handler *)

Section Resolution.
Context {host : JS.Host}.
Import App.

Lemma find_none_of {A} (p : A -> bool) (l : list A) :
  Forall (fun x => p x = false) l -> List.find p l = None.
Proof.
  induction 1 as [|x l Hx _ IH]; simpl; [reflexivity|].
  rewrite Hx. exact IH.
Qed.

(** The normalisation at the end of the resolver: the decision asks for
    more information exactly when it holds no tool call. *)
Lemma needs_more_info_iff_no_calls
    (availableTools : list GitHubMcpService.GitHubTool)
    (userRequest : string) :
  needsMoreInfo (resolve availableTools userRequest) = true
  <-> toolCalls (resolve availableTools userRequest) = [].
Proof.
  unfold resolve.
  match goal with
  | |- context [if (List.length (toolCalls ?d) =? 0)%nat then _ else _] =>
      remember d as decision eqn:Hd
  end.
  assert (Hflag : needsMoreInfo decision = false).
  { subst decision.
    repeat match goal with
           | |- context [if ?c then _ else _] => destruct c
           | |- context [match ?c with Some _ => _ | None => _ end] =>
               destruct c
           end; reflexivity. }
  clear Hd.
  destruct (toolCalls decision) as [|c cs] eqn:Hcalls; simpl.
  - split; reflexivity.
  - rewrite Hflag, Hcalls. split; intros H; discriminate H.
Qed.

Lemma startsWith_itself (w : string) : Str.startsWith w w = true.
Proof.
  induction w as [|c w IH]; simpl; [reflexivity|].
  rewrite Ascii.eqb_refl. exact IH.
Qed.

Lemma includes_itself (w : string) : Str.includes w w = true.
Proof.
  destruct w as [|c w]; [reflexivity|].
  cbn [Str.includes]. rewrite startsWith_itself. reflexivity.
Qed.

(** The code's test is the wider one: a tool that shares a word with
    the request is found by [relevant]; the converse fails, as [me] in
    [some] shows. *)
Lemma shared_token_is_relevant (normalizedRequest : string)
    (tool : GitHubMcpService.GitHubTool) :
  shares_name_token normalizedRequest tool = true ->
  relevant normalizedRequest tool = true.
Proof.
  unfold shares_name_token, relevant. cbv zeta.
  rewrite !existsb_exists. intros (word & Hword & Hshared).
  exists word. split; [exact Hword|].
  rewrite existsb_exists in Hshared |- *.
  destruct Hshared as (rword & Hrword & Heq).
  exists rword. split; [exact Hrword|].
  apply String.eqb_eq in Heq. subst rword. apply includes_itself.
Qed.

(** C7, as the code has it.  The last rule of the resolver looks for a
    word of a tool name inside a word of the request, not for a shared
    word.  A request that matches none of the three keyword categories
    and in whose words no word of any tool name occurs ends in the
    "needs more information" outcome: no tool call, [needsMoreInfo]
    set, and a readable description of what is missing, which the
    handler sends back.  When such a word does occur, the first tool
    that has one, in catalog order, is called instead. *)
Theorem unmatched_request_needs_more_info :
  forall (availableTools : list GitHubMcpService.GitHubTool)
         (userRequest : string),
    let normalizedRequest := Str.toLowerCase userRequest in
    Str.includes normalizedRequest "issue"
      && Str.includes normalizedRequest "#" = false ->
    Str.includes normalizedRequest "available"
      && Str.includes normalizedRequest "tool" = false ->
    Str.includes normalizedRequest "list"
      && Str.includes normalizedRequest "repo" = false ->
    (Forall (fun tool => relevant normalizedRequest tool = false)
       availableTools ->
     resolve availableTools userRequest
     = {| toolCalls := [];
          needsMoreInfo := true;
          missingInfo :=
            Some "I need more specific information about what GitHub operation you want to perform." |}
     /\ needsMoreInfoReply (resolve availableTools userRequest)
        = "🤔 I need more information to help you." ++ JS.newline ++ JS.newline
          ++ "I need more specific information about what GitHub operation you want to perform."
          ++ JS.newline ++ JS.newline
          ++ "Please provide the missing details and try again.")
    /\ (forall tool : GitHubMcpService.GitHubTool,
          List.find (relevant normalizedRequest) availableTools = Some tool ->
          needsMoreInfo (resolve availableTools userRequest) = false
          /\ map toolName (toolCalls (resolve availableTools userRequest))
             = [GitHubMcpService.name tool]).
Proof.
  intros availableTools userRequest normalizedRequest Hissue Htools Hlist.
  split.
  - intros Hnone.
    assert (H : resolve availableTools userRequest
                = {| toolCalls := []; needsMoreInfo := true;
                     missingInfo := Some missingInfoText |}).
    { unfold resolve. fold normalizedRequest.
      rewrite Hissue, Htools, Hlist, (find_none_of _ _ Hnone). reflexivity. }
    split; [exact H|]. rewrite H. reflexivity.
  - intros tool Hfind. unfold resolve. fold normalizedRequest.
    rewrite Hissue, Htools, Hlist, Hfind. split; reflexivity.
Qed.

End Resolution.

Lemma unmatched_request_needs_more_info_witness :
  App.resolve (host := Sample.host)
    [ {| GitHubMcpService.name := "get_issue";
         GitHubMcpService.description := "Get an issue";
         GitHubMcpService.inputSchema := JS.JObj [] |};
      {| GitHubMcpService.name := "list_repositories";
         GitHubMcpService.description := "List repositories";
         GitHubMcpService.inputSchema := JS.JObj [] |} ]
    "What can MCP do for me?"
  = {| App.toolCalls := [];
       App.needsMoreInfo := true;
       App.missingInfo :=
         Some "I need more specific information about what GitHub operation you want to perform." |}.
Proof.
  destruct (@unmatched_request_needs_more_info Sample.host
              [ {| GitHubMcpService.name := "get_issue";
                   GitHubMcpService.description := "Get an issue";
                   GitHubMcpService.inputSchema := JS.JObj [] |};
                {| GitHubMcpService.name := "list_repositories";
                   GitHubMcpService.description := "List repositories";
                   GitHubMcpService.inputSchema := JS.JObj [] |} ]
              "What can MCP do for me?" eq_refl eq_refl eq_refl)
    as [Hnone _].
  apply Hnone. repeat constructor.
Defined.

(** C7 as stated fails where a word of a tool name lies inside a word
    of the request: [Some MCP thing] matches no category and shares no
    word with [get_me], yet [me] is found in [some] and the tool is
    called. *)
Lemma word_inside_a_word_selects_the_tool :
  Str.includes "some mcp thing" "issue" && Str.includes "some mcp thing" "#"
  = false
  /\ Str.includes "some mcp thing" "available"
     && Str.includes "some mcp thing" "tool" = false
  /\ Str.includes "some mcp thing" "list"
     && Str.includes "some mcp thing" "repo" = false
  /\ Forall (fun tool => shares_name_token "some mcp thing" tool = false)
       profile_only
  /\ App.resolve (host := Sample.host) profile_only "Some MCP thing"
     = {| App.toolCalls :=
            [ {| App.toolName := "get_me";
                 App.parameters := JS.JObj [];
                 App.reasoning := "Using get_me based on your request" |} ];
          App.needsMoreInfo := false;
          App.missingInfo := None |}
  /\ App.needsMoreInfo
       (App.resolve (host := Sample.host) profile_only "Some MCP thing")
     <> true.
Proof.
  split; [reflexivity|]. split; [reflexivity|]. split; [reflexivity|].
  split; [repeat constructor|]. split; [reflexivity|]. discriminate.
Qed.

(** ** Tool catalog *)

(** Unfolds the methods of [MCPClient] down to the SDK calls. *)
Ltac open_client :=
  unfold GitHubMcpService.listTools, GitHubMcpService.callTool,
    GitHubMcpService.ensureConnected, GitHubMcpService.connect,
    GitHubMcpService.enter, GitHubMcpService.wire,
    GitHubMcpService.bindM, GitHubMcpService.tryM,
    GitHubMcpService.modify, GitHubMcpService.read,
    GitHubMcpService.ret, GitHubMcpService.throw,
    GitHubMcpService.record, GitHubMcpService.set_connected,
    GitHubMcpService.set_availableTools,
    GitHubMcpService.set_toolsLoaded in *;
  cbn [GitHubMcpService.connected GitHubMcpService.trace
       GitHubMcpService.availableTools GitHubMcpService.toolsLoaded
       fst snd] in *.

Section Catalog.
Context {client : Sdk.Client}.
Import JS GitHubMcpService.

(** Once the catalog is marked loaded, [getAvailableTools] answers from
    the instance and leaves it, trace included, as it was: no method of
    [MCPClient] is entered and the SDK is not called. *)
Lemma loaded_catalog_is_served_from_cache (s : state) :
  toolsLoaded s = true ->
  getAvailableTools s = (Ok (availableTools s), s).
Proof.
  intros H. unfold getAvailableTools, bindM, read, ret. rewrite H.
  reflexivity.
Qed.

(** Entering [listTools] always leaves a mark in the trace. *)
Lemma listTools_is_recorded (s : state) :
  exists rest,
    trace (snd (listTools s))
    = (trace s ++ Sdk.Method Sdk.ListTools :: rest)%list.
Proof.
  open_client.
  destruct (connected s); cbn [connected trace].
  - destruct (Sdk.client_listTools _); cbn [snd trace];
      rewrite <- app_assoc; eauto.
  - destruct (Sdk.client_connect _); cbn [connected trace].
    + destruct (Sdk.client_listTools _); cbn [snd trace];
        rewrite <- !app_assoc; cbn [app]; eauto.
    + cbn [snd trace]. rewrite <- !app_assoc; cbn [app]; eauto.
Qed.

End Catalog.

(** ** Tool execution *)

Section Execution.
Context {client : Sdk.Client} {host : JS.Host}.
Import JS GitHubMcpService.

Lemma executeTool_success toolName args (s s' : state) (d : value)
    (formatted : string) :
  callTool toolName args s = (Ok d, s') ->
  formatToolResult toolName d = Ok formatted ->
  executeTool toolName args s = (Ok (succeeded toolName d formatted), s').
Proof.
  intros H Hf. unfold executeTool, tryM, bindM at 1. rewrite H.
  unfold bindM, lift. rewrite Hf. reflexivity.
Qed.

(** The formatter runs inside the [try] of [executeTool]: what it
    throws turns a call that returned into a failed one. *)
Lemma executeTool_unformatted toolName args (s s' : state) (d : value)
    (e : exn) :
  callTool toolName args s = (Ok d, s') ->
  formatToolResult toolName d = Throw e ->
  executeTool toolName args s = (Ok (failed toolName e), s').
Proof.
  intros H Hf. unfold executeTool, tryM, bindM at 1. rewrite H.
  unfold bindM, lift. rewrite Hf. reflexivity.
Qed.

Lemma executeTool_failure toolName args (s s' : state) (e : exn) :
  callTool toolName args s = (Throw e, s') ->
  executeTool toolName args s = (Ok (failed toolName e), s').
Proof.
  intros H. unfold executeTool, tryM, bindM at 1. rewrite H. reflexivity.
Qed.

(** Whatever [callTool] throws names the tool. *)
Lemma callTool_throws_named toolName args (s s' : state) (e : exn) :
  callTool toolName args s = (Throw e, s') ->
  exists cause,
    e = Error ("Failed to call tool '" ++ toolName ++ "': " ++ cause).
Proof.
  open_client.
  destruct (connected s); cbn [connected trace].
  - destruct (Sdk.client_callTool _ _ _); intros H; inversion H; eauto.
  - destruct (Sdk.client_connect _); cbn [connected trace].
    + destruct (Sdk.client_callTool _ _ _); intros H; inversion H; eauto.
    + intros H; inversion H; eauto.
Qed.

Lemma callTool_is_entered_once toolName args (s : state) :
  callTool_entries (trace (snd (callTool toolName args s)))
  = (callTool_entries (trace s)
     ++ [Sdk.Method (Sdk.CallTool toolName args)])%list.
Proof.
  unfold callTool_entries. open_client.
  destruct (connected s); cbn [connected trace].
  - destruct (Sdk.client_callTool _ _ _); cbn [snd trace];
      rewrite !List.filter_app; cbn; rewrite ?app_nil_r; reflexivity.
  - destruct (Sdk.client_connect _); cbn [connected trace].
    + destruct (Sdk.client_callTool _ _ _); cbn [snd trace];
        rewrite !List.filter_app; cbn; rewrite ?app_nil_r; reflexivity.
    + cbn [snd trace].
      rewrite !List.filter_app; cbn; rewrite ?app_nil_r; reflexivity.
Qed.

(** C3.  What the loop does when the first call of a batch of three
    returns a result nested deeper than the stack allows, the second
    call fails and the third returns: all three calls are made, in
    order, and the three results come back in input order, but two of
    them have [success = false].  The first call returned, yet its
    result is reported as failed, with the RangeError of the formatter
    as its error. *)
Theorem deep_result_is_reported_as_failed_call :
  forall (c1 c2 c3 : App.ToolCall) (s0 s1 s2 s3 : state)
         (d3 : value) (f3 : string) (e2 : exn) (n : nat),
    (json_depth <= n)%nat ->
    (join_depth <= n)%nat ->
    callTool (App.toolName c1) (App.parameters c1) s0
    = (Ok (nested_arrays (4 + n)), s1) ->
    callTool (App.toolName c2) (App.parameters c2) s1 = (Throw e2, s2) ->
    callTool (App.toolName c3) (App.parameters c3) s2 = (Ok d3, s3) ->
    formatToolResult (App.toolName c3) d3 = Ok f3 ->
    let results :=
      [ failed (App.toolName c1) RangeError;
        failed (App.toolName c2) e2;
        succeeded (App.toolName c3) d3 f3 ] in
    App.executeToolCalls [c1; c2; c3] s0 = (Ok results, s3)
    /\ map toolName results = map App.toolName [c1; c2; c3]
    /\ map success results = [false; false; true]
    /\ List.filter (fun r => negb (success r)) results
       = [failed (App.toolName c1) RangeError; failed (App.toolName c2) e2]
    /\ error (failed (App.toolName c1) RangeError)
       = Some "Maximum call stack size exceeded"
    /\ callTool_entries (trace s3)
       = (callTool_entries (trace s0)
          ++ [Sdk.Method (Sdk.CallTool (App.toolName c1) (App.parameters c1));
              Sdk.Method (Sdk.CallTool (App.toolName c2) (App.parameters c2));
              Sdk.Method (Sdk.CallTool (App.toolName c3) (App.parameters c3))])%list.
Proof.
  intros c1 c2 c3 s0 s1 s2 s3 d3 f3 e2 n Hjson Hjoin H1 H2 H3 Hf3.
  destruct (deep_result_escapes_the_formatters (App.toolName c1) n Hjson Hjoin)
    as (_ & Hf1 & _).
  pose proof (executeTool_unformatted _ _ _ _ _ _ H1 Hf1) as E1.
  pose proof (executeTool_failure _ _ _ _ _ H2) as E2.
  pose proof (executeTool_success _ _ _ _ _ _ H3 Hf3) as E3.
  cbn zeta. repeat split; try reflexivity.
  - unfold App.executeToolCalls. cbn [App.executeEach].
    unfold bindM at 1. rewrite E1.
    unfold bindM at 1. rewrite E2.
    unfold bindM at 1. rewrite E3.
    reflexivity.
  - pose proof (callTool_is_entered_once (App.toolName c1) (App.parameters c1) s0) as T1.
    pose proof (callTool_is_entered_once (App.toolName c2) (App.parameters c2) s1) as T2.
    pose proof (callTool_is_entered_once (App.toolName c3) (App.parameters c3) s2) as T3.
    rewrite H1 in T1. rewrite H2 in T2. rewrite H3 in T3.
    cbn [snd] in T1, T2, T3.
    rewrite T3, T2, T1, <- !app_assoc. reflexivity.
Qed.

End Execution.

Lemma deep_result_is_reported_as_failed_call_witness :
  map GitHubMcpService.success
    (match fst (App.executeToolCalls (client := Sample.client)
                  (host := Sample.host) deep_batch GitHubMcpService.fresh)
     with
     | JS.Ok results => results
     | JS.Throw _ => []
     end)
  = [false; false; true].
Proof.
  pose (run1 := GitHubMcpService.callTool (client := Sample.client)
                  "search_code" (nested_arrays 6000) GitHubMcpService.fresh).
  pose (run2 := GitHubMcpService.callTool (client := Sample.client)
                  "broken" (JS.JObj []) (snd run1)).
  pose (run3 := GitHubMcpService.callTool (client := Sample.client)
                  "list_repos" (JS.JArr []) (snd run2)).
  destruct (@deep_result_is_reported_as_failed_call Sample.client Sample.host
              {| App.toolName := "search_code";
                 App.parameters := nested_arrays 6000;
                 App.reasoning := "Searching code" |}
              {| App.toolName := "broken";
                 App.parameters := JS.JObj [];
                 App.reasoning := "" |}
              {| App.toolName := "list_repos";
                 App.parameters := JS.JArr [];
                 App.reasoning := "Listing repositories" |}
              GitHubMcpService.fresh (snd run1) (snd run2) (snd run3)
              (JS.JArr []) "No results found."
              (JS.Error "Failed to call tool 'broken': boom") 5996)
    as (Hrun & _ & Hflags & _).
  - apply Nat.leb_le. vm_compute. reflexivity.
  - apply Nat.leb_le. vm_compute. reflexivity.
  - reflexivity.
  - reflexivity.
  - reflexivity.
  - reflexivity.
  - unfold deep_batch. rewrite Hrun. exact Hflags.
Defined.

(** ** Overlapping catalog loads *)

Section Overlap.
Context {client : Sdk.Client}.
Import JS GitHubMcpService Async.

Ltac open_async :=
  unfold start, afterConnect, callListTools, afterListTools,
    connectFailure, listFailure,
    loadAvailableTools, toolsReceived, loadFailed in *;
  open_client.

(** A call run alone does what the sequential reading of
    [getAvailableTools] says. *)
Lemma alone_is_getAvailableTools (s : state) :
  exists tools s',
    getAvailableTools s = (Ok tools, s')
    /\ alone 5 Idle s = Some (tools, s').
Proof.
  unfold getAvailableTools. cbn [alone advance]. open_async.
  destruct (toolsLoaded s) eqn:Hl; [eauto|].
  destruct (connected s) eqn:Hc; cbn [connected trace toolsLoaded availableTools].
  - cbn [alone advance]. open_async.
    destruct (Sdk.client_listTools _) as [[tools|]|e];
      cbn [alone advance snd fst connected trace toolsLoaded availableTools];
      open_async; eauto.
  - destruct (Sdk.client_connect _) as [[]|e];
      cbn [alone advance snd fst connected trace toolsLoaded availableTools];
      open_async.
    + cbn [alone advance]. open_async.
      destruct (Sdk.client_listTools _) as [[tools|]|e];
        cbn [alone advance snd fst connected trace toolsLoaded availableTools];
        open_async; eauto.
    + eauto.
Qed.

(** Splits a move of a task into the cases of its definition. *)
Ltac cases_of_advance H :=
  cbn [advance] in H; try discriminate H;
  injection H as H; revert H; open_async;
  repeat match goal with
         | |- context [if ?c then _ else _] => destruct c eqn:?
         | |- context [match ?a with Ok _ => _ | Throw _ => _ end] =>
             destruct a eqn:?
         | |- context [match ?a with Some _ => _ | None => _ end] =>
             destruct a eqn:?
         end;
  intros H; inversion H; subst.

Lemma advance_started t s t' s' :
  advance t s = Some (t', s') -> started t' = true.
Proof.
  intros H. destruct t; cases_of_advance H; reflexivity.
Qed.

(** Only the start of a call enters [listTools], and only when the
    catalog is not marked loaded. *)
Lemma advance_calls t s t' s' :
  advance t s = Some (t', s') ->
  Sdk.listTools_calls (trace s')
  = (Sdk.listTools_calls (trace s)
     + (if started t then 0 else if toolsLoaded s then 0 else 1))%nat.
Proof.
  unfold Sdk.listTools_calls.
  intros H. destruct t; cases_of_advance H;
    cbn [started] in *; try discriminate; try congruence;
    cbn [trace]; rewrite ?List.filter_app, ?length_app; cbn; lia.
Qed.

(** [toolsLoaded] is never reset. *)
Lemma advance_keeps_loaded t s t' s' :
  advance t s = Some (t', s') ->
  toolsLoaded s = true -> toolsLoaded s' = true.
Proof.
  intros H Hl. destruct t; cases_of_advance H; cbn [toolsLoaded];
    congruence.
Qed.

Lemma idle_insert (ts : list task) (i : nat) (t t' : task) :
  ts !! i = Some t ->
  (idle (<[i := t']> ts) + (if started t then 0 else 1)
   = idle ts + (if started t' then 0 else 1))%nat.
Proof.
  unfold idle. revert i.
  induction ts as [|x ts IH]; intros [|i] H; try discriminate.
  - injection H as ->. cbn.
    destruct (started t), (started t'); cbn; lia.
  - cbn in H. specialize (IH i H).
    change (<[S i := t']> (x :: ts)) with (x :: <[i := t']> ts).
    cbn [List.filter]. destruct (started x); cbn [negb List.length]; lia.
Qed.

Lemma started_insert (ts : list task) (i : nat) (t' : task) :
  Forall (fun t => started t = true) ts ->
  started t' = true ->
  Forall (fun t => started t = true) (<[i := t']> ts).
Proof.
  intros Hall Ht. revert i.
  induction Hall as [|x ts Hx Hts IH]; intros [|i].
  - constructor.
  - constructor.
  - change (<[0%nat := t']> (x :: ts)) with (t' :: ts). constructor; assumption.
  - change (<[S i := t']> (x :: ts)) with (x :: <[i := t']> ts).
    constructor; [assumption | apply IH].
Qed.

(** Once every call has been made, no schedule enters [listTools]
    again. *)
Lemma run_started_keeps_calls (schedule : list nat) :
  forall sys final,
    Forall (fun t => started t = true) (tasks sys) ->
    run schedule sys = Some final ->
    calls final = calls sys.
Proof.
  induction schedule as [|i rest IH]; intros sys final Hall H.
  - injection H as <-. reflexivity.
  - cbn [run] in H. unfold step in H.
    destruct (tasks sys !! i) as [t|] eqn:Ht; [|discriminate].
    destruct (advance t (service sys)) as [[t' s']|] eqn:Ha; [|discriminate].
    rewrite (IH {| service := s'; tasks := <[i := t']> (tasks sys) |} final
               (started_insert _ i t' Hall (advance_started _ _ _ _ Ha)) H).
    unfold calls. cbn [service].
    rewrite (advance_calls _ _ _ _ Ha).
    assert (Hs : started t = true).
    { exact (Forall_lookup_1 _ _ _ _ Hall Ht). }
    rewrite Hs. lia.
Qed.

(** While no load has completed, every call made so far has entered
    [listTools] itself. *)
Lemma run_unloaded_counts (schedule : list nat) :
  forall sys final,
    run schedule sys = Some final ->
    toolsLoaded (service final) = false ->
    (calls final + idle (tasks final) = calls sys + idle (tasks sys))%nat
    /\ toolsLoaded (service sys) = false.
Proof.
  induction schedule as [|i rest IH]; intros sys final H Hl.
  - injection H as <-. auto.
  - cbn [run] in H. unfold step in H.
    destruct (tasks sys !! i) as [t|] eqn:Ht; [|discriminate].
    destruct (advance t (service sys)) as [[t' s']|] eqn:Ha; [|discriminate].
    destruct (IH _ _ H Hl) as [Hcount Hmid]. cbn [service tasks] in Hcount, Hmid.
    assert (Hsys : toolsLoaded (service sys) = false).
    { destruct (toolsLoaded (service sys)) eqn:E; [|reflexivity].
      rewrite (advance_keeps_loaded _ _ _ _ Ha E) in Hmid. discriminate. }
    split; [|exact Hsys].
    rewrite Hcount. unfold calls. cbn [service].
    rewrite (advance_calls _ _ _ _ Ha), Hsys.
    pose proof (idle_insert _ _ _ t' Ht) as Hi.
    rewrite (advance_started _ _ _ _ Ha) in Hi.
    destruct (started t); lia.
Qed.

(** C9, as the code has it.  On a never-loaded instance the catalog is
    cached only once a load has completed: a second [getAvailableTools]
    call made after the first has returned is answered from the cache,
    so the two enter [listTools] once in total; two calls that have both
    been made before any load completed each enter [listTools], twice in
    total, however the rest is scheduled: a pending load is not
    shared. *)
Theorem catalog_load_shared_only_after_completion :
  forall s : state,
    toolsLoaded s = false ->
    (exists tools s1,
       getAvailableTools s = (Ok tools, s1)
       /\ alone 5 Idle s = Some (tools, s1)
       /\ getAvailableTools s1 = (Ok tools, s1)
       /\ Sdk.listTools_calls (trace s1) = S (Sdk.listTools_calls (trace s)))
    /\ (forall (schedule rest : list nat) (sys final : system),
          run schedule (two_calls s) = Some sys ->
          Forall (fun t => started t = true) (tasks sys) ->
          toolsLoaded (service sys) = false ->
          run rest sys = Some final ->
          calls final = S (S (Sdk.listTools_calls (trace s)))).
Proof.
  intros s Hfresh. split.
  - destruct (alone_is_getAvailableTools s) as (tools & s1 & Hget & Halone).
    exists tools, s1.
    assert (Hloaded : toolsLoaded s1 = true /\ availableTools s1 = tools
                      /\ Sdk.listTools_calls (trace s1)
                         = S (Sdk.listTools_calls (trace s))).
    { clear Halone. revert Hget. unfold getAvailableTools, Sdk.listTools_calls.
      open_async. rewrite Hfresh.
      destruct (connected s); cbn [connected trace toolsLoaded availableTools].
      - destruct (Sdk.client_listTools _) as [[ts|]|e];
          intros H; inversion H; subst; cbn [trace toolsLoaded availableTools];
          rewrite !List.filter_app, !length_app; cbn; repeat split; lia.
      - destruct (Sdk.client_connect _) as [[]|e];
          cbn [connected trace toolsLoaded availableTools].
        + destruct (Sdk.client_listTools _) as [[ts|]|e];
            intros H; inversion H; subst;
            cbn [trace toolsLoaded availableTools];
            rewrite !List.filter_app, !length_app; cbn; repeat split; lia.
        + intros H; inversion H; subst;
            cbn [trace toolsLoaded availableTools];
            rewrite !List.filter_app, !length_app; cbn; repeat split; lia. }
    destruct Hloaded as (Hl & Ha & Hc).
    repeat split; try assumption.
    rewrite (loaded_catalog_is_served_from_cache s1 Hl), Ha. reflexivity.
  - intros schedule rest sys final Hrun Hall Hunloaded Hrest.
    rewrite (run_started_keeps_calls rest sys final Hall Hrest).
    destruct (run_unloaded_counts schedule _ _ Hrun Hunloaded) as [Hcount _].
    assert (Hidle : idle (tasks sys) = 0%nat).
    { unfold idle. clear - Hall.
      induction Hall as [|t ts Ht _ IH]; [reflexivity|].
      cbn. rewrite Ht. exact IH. }
    rewrite Hidle in Hcount. unfold calls in *.
    cbn [two_calls service tasks] in Hcount. cbn in Hcount. lia.
Qed.

End Overlap.

(** C9 as stated fails: on a fresh instance two calls made one right
    after the other and then served in turn enter [listTools] twice and
    call the SDK's [listTools] twice; both end with the catalog. *)
Lemma concurrent_calls_list_tools_twice :
  match Async.run (client := Sample.client) [0; 1; 0; 1; 0; 1; 0; 1; 0; 1]%nat
          (Async.two_calls GitHubMcpService.fresh) with
  | Some sys =>
      (Sdk.listTools_calls (GitHubMcpService.trace (Async.service sys)),
       List.length (List.filter
                      (fun e => match e with
                                | Sdk.Wire Sdk.ListTools => true
                                | _ => false
                                end)
                      (GitHubMcpService.trace (Async.service sys))),
       map (fun t => match t with Async.Done [_] => true | _ => false end)
         (Async.tasks sys))
  | None => (0, 0, [])%nat
  end
  = (2, 2, [true; true])%nat.
Proof. reflexivity. Qed.

Lemma catalog_load_shared_only_after_completion_witness :
  match Async.run (client := Sample.client) [0; 1; 0; 1; 0; 1; 0; 1; 0; 1]%nat
          (Async.two_calls GitHubMcpService.fresh) with
  | Some final => calls final
  | None => 0%nat
  end = 2%nat.
Proof.
  destruct (@catalog_load_shared_only_after_completion Sample.client
              GitHubMcpService.fresh eq_refl) as [_ Hoverlap].
  destruct (Async.run (client := Sample.client) [0; 1; 0; 1; 0; 1; 0; 1; 0; 1]%nat
              (Async.two_calls GitHubMcpService.fresh))
    as [final|] eqn:Hfinal; [|discriminate Hfinal].
  eapply (Hoverlap [0; 1]%nat [0; 1; 0; 1; 0; 1; 0; 1]%nat).
  - reflexivity.
  - repeat constructor.
  - reflexivity.
  - exact Hfinal.
Defined.

(* ================================================================== *)
(** * Further properties                                               *)
(* ================================================================== *)

(** ** The credential store and the OAuth routes *)

(** X1.  Store, look up, remove: a stored record is what a lookup of
    that user returns, other users are not touched, storing again
    replaces the record wholesale, and after a removal the user has no
    record and no valid token. *)
Theorem stored_token_round_trip :
  forall (now : Z) (store : gmap string GitHubOAuth.GitHubTokenInfo)
         (userId other : string)
         (first second : GitHubOAuth.GitHubTokenInfo),
    TokenStore.getStoredToken
      (TokenStore.storeToken store userId first) other
    = (if decide (userId = other) then Some first
       else TokenStore.getStoredToken store other)
    /\ TokenStore.storeToken
         (TokenStore.storeToken store userId first) userId second
       = TokenStore.storeToken store userId second
    /\ TokenStore.getStoredToken
         (TokenStore.removeToken (TokenStore.storeToken store userId first)
            userId) other
       = (if decide (userId = other) then None
          else TokenStore.getStoredToken store other)
    /\ TokenStore.hasValidToken now
         (TokenStore.removeToken store userId) userId = false.
Proof.
  intros now store userId other first second.
  unfold TokenStore.getStoredToken, TokenStore.storeToken,
    TokenStore.removeToken, TokenStore.hasValidToken.
  repeat split.
  - apply lookup_insert.
  - apply insert_insert_eq.
  - rewrite lookup_delete. case_decide; [reflexivity|].
    by rewrite lookup_insert_ne.
  - unfold TokenStore.getStoredToken. by rewrite lookup_delete_eq.
Qed.

(** X2.  A token only ever ages: if a record is valid at some time it
    was valid at every earlier time, so once it is invalid it stays
    invalid; at exactly thirty days it is already invalid. *)
Theorem token_validity_only_decays :
  forall (now later : Z) (record : GitHubOAuth.GitHubTokenInfo)
         (store : gmap string GitHubOAuth.GitHubTokenInfo) (userId : string),
    (now <= later)%Z ->
    (GitHubOAuth.isTokenValid later record = true ->
     GitHubOAuth.isTokenValid now record = true)
    /\ (TokenStore.hasValidToken later store userId = true ->
        TokenStore.hasValidToken now store userId = true)
    /\ (GitHubOAuth.obtained_at record = (now - thirty_days)%Z ->
        GitHubOAuth.isTokenValid now record = false
        /\ GitHubOAuth.isTokenValid (now - 1) record = true).
Proof.
  intros now later record store userId Hle.
  unfold GitHubOAuth.isTokenValid, TokenStore.hasValidToken,
    TokenStore.getStoredToken, thirty_days.
  repeat split.
  - intros H. apply Z.gtb_lt in H. apply Z.gtb_lt. lia.
  - destruct (store !! userId) as [stored|]; [|discriminate].
    intros H. apply Z.gtb_lt in H. apply Z.gtb_lt. lia.
  - rewrite H, Z.gtb_ltb. apply Z.ltb_ge. lia.
  - rewrite H. apply Z.gtb_lt. lia.
Qed.

Lemma token_validity_only_decays_witness :
  GitHubOAuth.isTokenValid 5000000000
    {| GitHubOAuth.access_token := "gho_x"; GitHubOAuth.token_type := "bearer";
       GitHubOAuth.scope := "repo";
       GitHubOAuth.obtained_at := (6000000000 - thirty_days)%Z |} = true
  /\ GitHubOAuth.isTokenValid 6000000000
       {| GitHubOAuth.access_token := "gho_x"; GitHubOAuth.token_type := "bearer";
          GitHubOAuth.scope := "repo";
          GitHubOAuth.obtained_at := (6000000000 - thirty_days)%Z |} = false.
Proof.
  pose (record :=
          {| GitHubOAuth.access_token := "gho_x";
             GitHubOAuth.token_type := "bearer";
             GitHubOAuth.scope := "repo";
             GitHubOAuth.obtained_at := (6000000000 - thirty_days)%Z |}).
  destruct (token_validity_only_decays 5000000000 (6000000000 - 1) record ∅ "u"
              ltac:(lia)) as (Hearlier & _ & _).
  destruct (token_validity_only_decays 6000000000 6000000000 record ∅ "u"
              ltac:(lia)) as (_ & _ & Hedge).
  destruct (Hedge eq_refl) as [Hinvalid Hvalid].
  split; [exact (Hearlier Hvalid) | exact Hinvalid].
Defined.

Section OAuthRoutes.
Context {host : JS.Host}.
Variable encodeURIComponent : string -> string.
Import JS OAuthFlow.

(** X3.  A login request that is served within ten minutes leaves its
    state token pending, bound to the requesting user (or to
    [default-user]) and stamped with the time of the request; of the
    other pending states exactly those not older than ten minutes
    survive. *)
Theorem authorize_registers_state_and_drops_expired :
  forall (queryUserId : option string) (state : string) (now later : Z)
         (pending : gmap string PendingState),
    (later - ten_minutes <= now)%Z ->
    let pending' :=
      snd (authorize encodeURIComponent queryUserId state now later pending) in
    pending' !! state
    = Some {| userId := or_default queryUserId "default-user";
              timestamp := now |}
    /\ forall (other : string) (entry : PendingState),
         other <> state ->
         (pending' !! other = Some entry
          <-> pending !! other = Some entry
              /\ (later - ten_minutes <= timestamp entry)%Z).
Proof.
  intros queryUserId state now later pending Hfast pending'.
  subst pending'. unfold authorize, cleanExpired, ten_minutes in *.
  cbn [snd]. split.
  - apply map_lookup_filter_Some. split; [apply lookup_insert_eq|].
    cbn. lia.
  - intros other entry Hother.
    rewrite map_lookup_filter_Some, lookup_insert_ne by congruence.
    cbn. split; intros [H1 H2]; split; try assumption; lia.
Qed.

(** X4.  A state token can be used once.  Whatever the token exchange
    answers, a callback that presents a code and a state leaves that
    state not pending and the other pending states as they were; a
    second callback with the same state is refused with status 400 and
    changes neither the pending states nor the token store. *)
Theorem callback_consumes_state :
  forall (code : value) (st : string)
         (exchange exchange' : value -> result TokenData) (now now' : Z)
         (lookup lookup' : string -> option UserInfo)
         (pending : gmap string PendingState)
         (tokenStore : gmap string GitHubOAuth.GitHubTokenInfo),
    truthy code = true ->
    st <> "" ->
    let first := callback code (JStr st) exchange now lookup pending tokenStore in
    let pending' := snd (fst first) in
    let tokenStore' := snd first in
    pending' !! st = None
    /\ (forall other : string, other <> st -> pending' !! other = pending !! other)
    /\ callback code (JStr st) exchange' now' lookup' pending' tokenStore'
       = (Send 400 "❌ OAuth Error: Invalid or expired state. Please try again.",
          pending', tokenStore').
Proof.
  intros code st exchange exchange' now now' lookup lookup' pending tokenStore
    Hcode Hst first pending' tokenStore'.
  assert (Hstate : truthy (JStr st) = true).
  { cbn. destruct (String.eqb_spec st ""); [contradiction | reflexivity]. }
  assert (Hgone : pending' !! st = None
                  /\ forall other, other <> st ->
                                   pending' !! other = pending !! other).
  { subst pending' first. unfold callback. rewrite Hcode, Hstate. cbn [negb].
    destruct (pending !! st) as [stateData|] eqn:Hp.
    - destruct (exchange code) as [data|err];
        [destruct (data_access_token data) as [tok|];
         [destruct (negb (present (Some tok)))|]|];
        cbn [fst snd]; (split; [apply lookup_delete_eq|]);
        intros other Ho; apply lookup_delete_ne; congruence.
    - cbn [fst snd]. auto. }
  destruct Hgone as [Hgone Hrest].
  repeat split; try assumption.
  unfold callback at 1. rewrite Hcode, Hstate. cbn [negb].
  rewrite Hgone. reflexivity.
Qed.

(** X5.  The token store changes only on a successful exchange.  A
    callback that answers anything but status 200 leaves the store as
    it was; one whose state is pending and whose exchange brings an
    access token stores it under the user the state was issued for (not
    under anything the callback request says), however old the state
    is, stamped with the current time, and that user then holds a valid
    token. *)
Theorem callback_stores_token_for_bound_user :
  forall (code : value) (st : string)
         (exchange : value -> result TokenData) (now : Z)
         (lookup : string -> option UserInfo)
         (pending : gmap string PendingState)
         (tokenStore : gmap string GitHubOAuth.GitHubTokenInfo),
    let outcome := callback code (JStr st) exchange now lookup pending tokenStore in
    ((forall body, fst (fst outcome) <> Send 200 body) ->
     snd outcome = tokenStore)
    /\ (forall (stateData : PendingState) (data : TokenData) (token : string),
          truthy code = true ->
          st <> "" ->
          pending !! st = Some stateData ->
          exchange code = Ok data ->
          data_access_token data = Some token ->
          token <> "" ->
          (exists body, fst (fst outcome) = Send 200 body)
          /\ snd outcome !! userId stateData
             = Some {| GitHubOAuth.access_token := token;
                       GitHubOAuth.token_type :=
                         or_default (data_token_type data) "bearer";
                       GitHubOAuth.scope := or_default (data_scope data) "";
                       GitHubOAuth.obtained_at := now |}
          /\ (forall other, other <> userId stateData ->
                            snd outcome !! other = tokenStore !! other)
          /\ TokenStore.hasValidToken now (snd outcome) (userId stateData)
             = true).
Proof.
  intros code st exchange now lookup pending tokenStore outcome.
  subst outcome. split.
  - unfold callback.
    destruct (negb (truthy code)); [reflexivity|].
    destruct (negb (truthy (JStr st))); [reflexivity|].
    destruct (pending !! st) as [stateData|]; [|reflexivity].
    destruct (exchange code) as [data|err]; [|reflexivity].
    destruct (data_access_token data) as [tok|]; [|reflexivity].
    destruct (negb (present (Some tok))); [reflexivity|].
    cbn [fst snd]. intros H. exfalso. eapply H. reflexivity.
  - intros stateData data token Hcode Hst Hp Hex Htok Hne.
    assert (Hstate : truthy (JStr st) = true).
    { cbn. destruct (String.eqb_spec st ""); [contradiction|reflexivity]. }
    unfold callback. rewrite Hcode, Hstate. cbn [negb].
    rewrite Hp, Hex, Htok.
    assert (Hpresent : present (Some token) = true).
    { cbn. destruct (String.eqb_spec token ""); [contradiction|reflexivity]. }
    rewrite Hpresent. cbn [negb fst snd].
    repeat split.
    + eauto.
    + apply lookup_insert_eq.
    + intros other Ho. apply lookup_insert_ne. congruence.
    + unfold TokenStore.hasValidToken, TokenStore.getStoredToken.
      rewrite lookup_insert_eq. cbn. apply Z.gtb_lt. lia.
Qed.

End OAuthRoutes.

Lemma authorize_registers_state_and_drops_expired_witness :
  let pending' :=
    snd (OAuthFlow.authorize (host := Sample.host) (fun s => s) None "fresh"
           700000 700001 sample_pending) in
  pending' !! "fresh"
  = Some {| OAuthFlow.userId := "default-user"; OAuthFlow.timestamp := 700000 |}
  /\ pending' !! "recent"
     = Some {| OAuthFlow.userId := "bob"; OAuthFlow.timestamp := 500000 |}.
Proof.
  destruct (@authorize_registers_state_and_drops_expired Sample.host
              (fun s => s) None "fresh" 700000 700001 sample_pending
              ltac:(unfold OAuthFlow.ten_minutes; lia)) as [Hnew Hkept].
  split; [exact Hnew|].
  apply Hkept; [discriminate|].
  split; [reflexivity | unfold OAuthFlow.ten_minutes; cbn; lia].
Defined.

Lemma callback_consumes_state_witness :
  let first :=
    OAuthFlow.callback (JS.JStr "code") (JS.JStr "old") granting 900000 silent
      sample_pending ∅ in
  snd (fst first) !! "old" = None
  /\ fst (fst (OAuthFlow.callback (JS.JStr "code") (JS.JStr "old") granting
                 900001 silent (snd (fst first)) (snd first)))
     = OAuthFlow.Send 400
         "❌ OAuth Error: Invalid or expired state. Please try again.".
Proof.
  destruct (callback_consumes_state (JS.JStr "code") "old" granting granting
              900000 900001 silent silent sample_pending ∅
              eq_refl ltac:(discriminate)) as (Hgone & _ & Hreplay).
  split; [exact Hgone|]. cbv zeta. rewrite Hreplay. reflexivity.
Defined.

Lemma callback_stores_token_for_bound_user_witness :
  let outcome :=
    OAuthFlow.callback (JS.JStr "code") (JS.JStr "old") granting 900000 silent
      sample_pending ∅ in
  snd outcome !! "alice"
  = Some {| GitHubOAuth.access_token := "gho_token";
            GitHubOAuth.token_type := "bearer";
            GitHubOAuth.scope := "repo";
            GitHubOAuth.obtained_at := 900000 |}
  /\ TokenStore.hasValidToken 900000 (snd outcome) "alice" = true.
Proof.
  destruct (callback_stores_token_for_bound_user (JS.JStr "code") "old"
              granting 900000 silent sample_pending ∅) as [_ Hstored].
  destruct (Hstored {| OAuthFlow.userId := "alice"; OAuthFlow.timestamp := 1 |}
              {| OAuthFlow.data_access_token := Some "gho_token";
                 OAuthFlow.data_token_type := None;
                 OAuthFlow.data_scope := Some "repo" |}
              "gho_token" eq_refl ltac:(discriminate) eq_refl eq_refl eq_refl
              ltac:(discriminate))
    as (_ & Hrecord & _ & Hvalid).
  split; [exact Hrecord | exact Hvalid].
Defined.

(** ** The remote tool client and the service *)

Section Client.
Context {client : Sdk.Client} {host : JS.Host}.
Import JS GitHubMcpService.

(** Closes goals about the events a method appended to the trace. *)
Ltac trace_goal :=
  cbn [connected trace availableTools toolsLoaded fst snd is_ok];
  rewrite <- ?app_assoc; cbn [app];
  repeat match goal with
         | |- exists _, _ => eexists
         | |- _ /\ _ => split
         | |- _ <-> _ => split
         end;
  try reflexivity; try assumption; try discriminate;
  cbn [In quiet forallb andb];
  try solve [intuition (try discriminate; try congruence)].

(** X6.  [callTool] connects first and only if needed.  The SDK is asked
    to connect exactly when the client is not connected; the SDK's
    [callTool] is reached only with the connection up, and every
    successful call has reached it; a connection that is up stays up. *)
Theorem callTool_connects_first :
  forall (toolName : string) (args : value) (s : state),
    let outcome := callTool toolName args s in
    exists added : list Sdk.event,
      trace (snd outcome) = (trace s ++ added)%list
      /\ (In (Sdk.Wire Sdk.Connect) added <-> connected s = false)
      /\ (In (Sdk.Wire (Sdk.CallTool toolName args)) added ->
          connected (snd outcome) = true)
      /\ (is_ok (fst outcome) = true ->
          In (Sdk.Wire (Sdk.CallTool toolName args)) added)
      /\ (connected s = true -> connected (snd outcome) = true).
Proof.
  intros toolName args s outcome. subst outcome. open_client.
  destruct (connected s) eqn:Hc; cbn [connected trace].
  - destruct (Sdk.client_callTool _ _ _); trace_goal.
  - destruct (Sdk.client_connect _); cbn [connected trace].
    + destruct (Sdk.client_callTool _ _ _); trace_goal.
    + trace_goal.
Qed.

(** X7.  What the client throws is always an [Error] whose message
    starts with the name of the failed step: a failed connection, a
    failed listing, a failed initialisation (which can only be a failed
    connection). *)
Theorem client_errors_are_named :
  forall (s s' : state) (e : exn),
    (connect s = (Throw e, s') ->
     exists cause,
       e = Error ("Failed to connect to GitHub MCP server: " ++ cause))
    /\ (listTools s = (Throw e, s') ->
        exists cause, e = Error ("Failed to list tools: " ++ cause))
    /\ (initialize s = (Throw e, s') ->
        exists cause,
          e = Error ("Failed to initialize GitHub MCP service: "
                     ++ ("Failed to connect to GitHub MCP server: " ++ cause))
          /\ connected s' = false
          /\ toolsLoaded s' = toolsLoaded s
          /\ availableTools s' = availableTools s).
Proof.
  intros s s' e. repeat split.
  - open_client. destruct (connected s); [discriminate|].
    destruct (Sdk.client_connect _); cbn [connected trace];
      intros H; inversion H; eauto.
  - open_client. destruct (connected s); cbn [connected trace].
    + destruct (Sdk.client_listTools _); intros H; inversion H; eauto.
    + destruct (Sdk.client_connect _); cbn [connected trace].
      * destruct (Sdk.client_listTools _); intros H; inversion H; eauto.
      * intros H; inversion H; eauto.
  - unfold initialize, loadAvailableTools, toolsReceived, loadFailed.
    open_client.
    destruct (connected s) eqn:Hc; cbn [connected trace].
    + destruct (Sdk.client_listTools _) as [[tools|]|err];
        intros H; inversion H.
    + destruct (Sdk.client_connect _); cbn [connected trace].
      * destruct (Sdk.client_listTools _) as [[tools|]|err];
          intros H; inversion H.
      * intros H; inversion H; subst. cbn [connected toolsLoaded availableTools].
        eexists. repeat split; try reflexivity; assumption.
Qed.

(** X8.  [disconnect] never throws.  It asks the SDK to close only when
    connected; afterwards the client is disconnected unless that close
    failed, in which case the failure is swallowed and the client still
    counts as connected. *)
Theorem disconnect_never_throws :
  forall s : state,
    exists s' : state,
      disconnect s = (Ok tt, s')
      /\ (connected s = false -> s' = record (Sdk.Method Sdk.Close) s)
      /\ (connected s = true ->
          trace s'
          = (trace s ++ [Sdk.Method Sdk.Close; Sdk.Wire Sdk.Close])%list
          /\ connected s'
             = negb (is_ok (Sdk.client_close
                              (trace s ++ [Sdk.Method Sdk.Close])%list))).
Proof.
  intros s. unfold disconnect. open_client.
  destruct (connected s) eqn:Hc; cbn [connected trace].
  - destruct (Sdk.client_close _) eqn:Hclose; eexists;
      (split; [reflexivity|]); (split; [discriminate|]); intros _;
      cbn [trace connected is_ok negb]; rewrite <- app_assoc; auto.
  - eexists. split; [reflexivity|]. split; [|discriminate].
    intros _. reflexivity.
Qed.

(** X9.  [executeTool] never throws.  It always returns a result for
    the tool it was given and leaves the instance as [callTool] left
    it.  The result says [success] exactly when [callTool] returned and
    the formatter returned too: then it carries the data and its
    formatted text and no error.  Otherwise it carries nothing but the
    message of what was thrown, by [callTool] or by the formatter on
    the data that [callTool] returned. *)
Theorem executeTool_always_reports :
  forall (name : string) (args : value) (s : state),
    exists r : GitHubToolResult,
      executeTool name args s = (Ok r, snd (callTool name args s))
      /\ toolName r = name
      /\ (success r = true <->
          exists d, fst (callTool name args s) = Ok d
                    /\ is_ok (formatToolResult name d) = true)
      /\ (success r = true ->
          exists d f, fst (callTool name args s) = Ok d
                      /\ data r = Some d
                      /\ formatToolResult name d = Ok f
                      /\ formattedResult r = Some f
                      /\ error r = None)
      /\ (success r = false ->
          exists e, error r = Some (message_or_unknown e)
                    /\ data r = None /\ formattedResult r = None
                    /\ (fst (callTool name args s) = Throw e
                        \/ exists d, fst (callTool name args s) = Ok d
                                     /\ formatToolResult name d = Throw e)).
Proof.
  intros name args s.
  destruct (callTool name args s) as [[d|e] s'] eqn:Hcall.
  - destruct (formatToolResult name d) as [f|e] eqn:Hf.
    + exists (succeeded name d f). cbn [fst snd].
      rewrite (executeTool_success _ _ _ _ _ _ Hcall Hf).
      repeat split; try reflexivity.
      * intros _. exists d. rewrite Hf. auto.
      * intros _. exists d, f. repeat split; assumption || reflexivity.
      * discriminate.
    + exists (failed name e). cbn [fst snd].
      rewrite (executeTool_unformatted _ _ _ _ _ _ Hcall Hf).
      repeat split; try reflexivity.
      * discriminate.
      * intros (d' & Hd & Hok). injection Hd as <-.
        rewrite Hf in Hok. discriminate.
      * discriminate.
      * intros _. exists e. repeat split; try reflexivity.
        right. exists d. auto.
  - exists (failed name e). cbn [fst snd].
    rewrite (executeTool_failure _ _ _ _ _ Hcall).
    repeat split; try reflexivity.
    + discriminate.
    + intros (d & Hd & _). discriminate.
    + discriminate.
    + intros _. exists e. repeat split; try reflexivity. left. reflexivity.
Qed.

(** [executeTool] turns either outcome of [callTool] into a result
    naming the tool, in the state [callTool] leaves. *)
Lemma executeTool_returns name args (s : state) :
  exists r : GitHubToolResult,
    executeTool name args s = (Ok r, snd (callTool name args s))
    /\ toolName r = name.
Proof.
  destruct (callTool name args s) as [[d|e] s'] eqn:Hcall.
  - destruct (formatToolResult name d) as [f|e] eqn:Hf.
    + rewrite (executeTool_success _ _ _ _ _ _ Hcall Hf).
      eexists. split; reflexivity.
    + rewrite (executeTool_unformatted _ _ _ _ _ _ Hcall Hf).
      eexists. split; reflexivity.
  - rewrite (executeTool_failure _ _ _ _ _ Hcall).
    eexists. split; reflexivity.
Qed.

Lemma executeEach_appends (calls : list App.ToolCall) :
  forall (sofar : list GitHubToolResult) (s : state),
    exists (results : list GitHubToolResult) (s' : state),
      App.executeEach calls sofar s = (Ok (sofar ++ results)%list, s')
      /\ map toolName results = map App.toolName calls
      /\ callTool_entries (trace s')
         = (callTool_entries (trace s) ++ map entry_of calls)%list.
Proof.
  induction calls as [|call rest IH]; intros sofar s.
  - exists [], s. cbn. rewrite !app_nil_r. auto.
  - cbn [App.executeEach]. unfold bindM at 1.
    destruct (executeTool_returns (App.toolName call)
                (App.parameters call) s) as (r & Hexec & Hname).
    rewrite Hexec.
    destruct (IH (App.push sofar r)
                (snd (callTool (App.toolName call) (App.parameters call) s)))
      as (results & s' & Hrun & Hnames & Hentries).
    exists (r :: results), s'. unfold App.push in Hrun.
    rewrite <- app_assoc in Hrun. cbn [app] in Hrun.
    repeat split.
    + exact Hrun.
    + cbn [map]. congruence.
    + rewrite Hentries, callTool_is_entered_once, <- app_assoc. reflexivity.
Qed.

(** X10.  A batch of any length runs to its end.  The execution loop
    never throws; it returns one result per tool call, in the order of
    the calls and each naming its tool, and [callTool] is entered once
    per call, in that order: no failure cuts the batch short. *)
Theorem batch_of_any_length_runs_to_the_end :
  forall (calls : list App.ToolCall) (s : state),
    exists (results : list GitHubToolResult) (s' : state),
      App.executeToolCalls calls s = (Ok results, s')
      /\ List.length results = List.length calls
      /\ map toolName results = map App.toolName calls
      /\ callTool_entries (trace s')
         = (callTool_entries (trace s) ++ map entry_of calls)%list.
Proof.
  intros calls s.
  destruct (executeEach_appends calls [] s)
    as (results & s' & Hrun & Hnames & Hentries).
  exists results, s'. repeat split; try assumption.
  rewrite <- (length_map toolName), Hnames, length_map. reflexivity.
Qed.

End Client.

Section Service.
Context {client : Sdk.Client} {host : JS.Host}.
Import JS GitHubMcpService.

Ltac open_service :=
  unfold ToolsContext.createSystemPrompt, ToolsContext.getToolsContext,
    executeTool, initialize, getAvailableTools, loadAvailableTools,
    toolsReceived, loadFailed, lift in *;
  open_client.

(** X11.  [initialize] needs nothing but the connection.  Whenever the
    client is connected or the SDK accepts the connection it succeeds,
    even if listing the tools fails; it always lists the tools anew,
    and leaves the instance connected with the catalog marked loaded,
    so that the [getAvailableTools] that follows is answered from the
    instance. *)
Theorem initialize_needs_only_the_connection :
  forall s : state,
    (connected s = true
     \/ Sdk.client_connect (trace s ++ [Sdk.Method Sdk.Connect])%list = Ok tt) ->
    exists s' : state,
      initialize s = (Ok tt, s')
      /\ connected s' = true
      /\ toolsLoaded s' = true
      /\ Sdk.listTools_calls (trace s') = S (Sdk.listTools_calls (trace s))
      /\ getAvailableTools s' = (Ok (availableTools s'), s').
Proof.
  intros s Hup.
  assert (H : exists s', initialize s = (Ok tt, s')
                         /\ connected s' = true /\ toolsLoaded s' = true
                         /\ Sdk.listTools_calls (trace s')
                            = S (Sdk.listTools_calls (trace s))).
  { unfold Sdk.listTools_calls. open_service.
    destruct (connected s) eqn:Hc; cbn [connected trace].
    - destruct (Sdk.client_listTools _) as [[tools|]|err];
        (eexists; split; [reflexivity|]);
        cbn [connected toolsLoaded trace];
        rewrite !List.filter_app, !length_app; cbn;
        repeat split; try reflexivity; lia.
    - destruct Hup as [Hup|Hup]; [discriminate|]. rewrite Hup.
      cbn [connected trace].
      destruct (Sdk.client_listTools _) as [[tools|]|err];
        (eexists; split; [reflexivity|]);
        cbn [connected toolsLoaded trace];
        rewrite !List.filter_app, !length_app; cbn;
        repeat split; try reflexivity; lia. }
  destruct H as (s' & Hinit & Hconn & Hloaded & Hcalls).
  exists s'. repeat split; try assumption.
  apply loaded_catalog_is_served_from_cache. exact Hloaded.
Qed.

(** X12.  [getAvailableTools] never throws and always leaves the
    catalog marked loaded, holding what it returned.  On a first load
    the catalog is empty or mirrors the SDK's listing: the same
    names in the same order, and no tool without a description. *)
Theorem getAvailableTools_loads_once_and_for_all :
  forall s : state,
    exists (tools : list GitHubTool) (s' : state),
      getAvailableTools s = (Ok tools, s')
      /\ toolsLoaded s' = true
      /\ availableTools s' = tools
      /\ (toolsLoaded s = false ->
          Forall (fun tool => description tool <> "") tools
          /\ (tools = []
              \/ exists (listed : list Sdk.Tool) (s1 : state),
                   listTools s = (Ok (Some listed), s1)
                   /\ map name tools = map Sdk.name listed
                   /\ List.length tools = List.length listed)).
Proof.
  intros s.
  assert (Hdesc : forall listed : list Sdk.Tool,
             Forall (fun tool => description tool <> "")
               (map toGitHubTool listed)).
  { intros listed. induction listed as [|t rest IH]; constructor; [|exact IH].
    unfold toGitHubTool. cbn [description].
    destruct (Sdk.description t) as [d|]; [|discriminate].
    destruct (String.eqb_spec d ""); [discriminate | assumption]. }
  assert (Hnames : forall listed : list Sdk.Tool,
             map name (map toGitHubTool listed) = map Sdk.name listed).
  { intros listed. rewrite map_map. reflexivity. }
  destruct (toolsLoaded s) eqn:Hl.
  - exists (availableTools s), s.
    rewrite (loaded_catalog_is_served_from_cache s Hl).
    split; [reflexivity|]. split; [assumption|]. split; [reflexivity|].
    discriminate.
  - destruct (listTools s) as [[[listed|]|err] s1] eqn:Hlist.
    + exists (map toGitHubTool listed),
        (set_toolsLoaded true (set_availableTools (map toGitHubTool listed) s1)).
      split.
      { unfold getAvailableTools, bindM at 1, read at 1. rewrite Hl.
        unfold loadAvailableTools, toolsReceived, bindM, tryM.
        rewrite Hlist. reflexivity. }
      split; [reflexivity|]. split; [reflexivity|]. intros _.
      split; [apply Hdesc|].
      right. exists listed, s1. rewrite Hnames, length_map. auto.
    + exists [], (set_toolsLoaded true (set_availableTools [] s1)).
      split.
      { unfold getAvailableTools, bindM at 1, read at 1. rewrite Hl.
        unfold loadAvailableTools, toolsReceived, bindM, tryM.
        rewrite Hlist. reflexivity. }
      split; [reflexivity|]. split; [reflexivity|]. intros _.
      split; [constructor | auto].
    + exists [], (set_toolsLoaded true (set_availableTools [] s1)).
      split.
      { unfold getAvailableTools, bindM at 1, read at 1. rewrite Hl.
        unfold loadAvailableTools, toolsReceived, loadFailed, bindM, tryM.
        rewrite Hlist. reflexivity. }
      split; [reflexivity|]. split; [reflexivity|]. intros _.
      split; [constructor | auto].
Qed.

Lemma steady_refl (s : state) : steady s s.
Proof.
  exists []. rewrite app_nil_r. repeat split; auto.
Qed.

Lemma steady_trans (s1 s2 s3 : state) :
  steady s1 s2 -> steady s2 s3 -> steady s1 s3.
Proof.
  intros (a1 & T1 & L1 & C1 & Q1) (a2 & T2 & L2 & C2 & Q2).
  exists (a1 ++ a2)%list. repeat split.
  - rewrite T2, T1, app_assoc. reflexivity.
  - auto.
  - apply C2, C1. assumption.
  - intros Hin. apply in_app_or in Hin.
    destruct (C1 H) as [H2 N1]. destruct (C2 H2) as [_ N2]. tauto.
  - intros H3. rewrite forallb_app, (Q2 H3).
    destruct (connected s2) eqn:H2.
    + destruct (C2 eq_refl) as [H3' _]. congruence.
    + rewrite (Q1 eq_refl). reflexivity.
Qed.

(** Closes a [steady] goal once the method is unfolded and its cases
    are split. *)
Ltac steady_case :=
  cbn [connected trace availableTools toolsLoaded fst snd];
  eexists; rewrite <- ?app_assoc; cbn [app];
  (split; [reflexivity|]);
  cbn [In quiet forallb andb];
  repeat split; intros; try reflexivity; try assumption;
  try discriminate; try congruence;
  try solve [intuition (try discriminate; try congruence)].

Lemma callTool_steady toolName args (s : state) :
  steady s (snd (callTool toolName args s)).
Proof.
  unfold steady. open_client.
  destruct (connected s) eqn:Hc; cbn [connected trace].
  - destruct (Sdk.client_callTool _ _ _); steady_case.
  - destruct (Sdk.client_connect _); cbn [connected trace].
    + destruct (Sdk.client_callTool _ _ _); steady_case.
    + steady_case.
Qed.

Lemma getAvailableTools_steady (s : state) :
  steady s (snd (getAvailableTools s)).
Proof.
  destruct (toolsLoaded s) eqn:Hl.
  { rewrite (loaded_catalog_is_served_from_cache s Hl). apply steady_refl. }
  unfold steady. open_service. rewrite Hl.
  destruct (connected s) eqn:Hc; cbn [connected trace].
  - destruct (Sdk.client_listTools _) as [[tools|]|err]; steady_case.
  - destruct (Sdk.client_connect _); cbn [connected trace].
    + destruct (Sdk.client_listTools _) as [[tools|]|err]; steady_case.
    + steady_case.
Qed.

Lemma initialize_steady (s : state) :
  steady s (snd (initialize s)).
Proof.
  unfold steady. open_service.
  destruct (connected s) eqn:Hc; cbn [connected trace].
  - destruct (Sdk.client_listTools _) as [[tools|]|err]; steady_case.
  - destruct (Sdk.client_connect _); cbn [connected trace].
    + destruct (Sdk.client_listTools _) as [[tools|]|err]; steady_case.
    + steady_case.
Qed.

(** Reading the catalog as text moves the instance exactly as
    [getAvailableTools] does. *)
Lemma getToolsContext_state (s : state) :
  snd (ToolsContext.getToolsContext s) = snd (getAvailableTools s).
Proof.
  unfold ToolsContext.getToolsContext, bindM at 1.
  destruct (getAvailableTools s) as [[tools|e] s']; [|reflexivity].
  destruct (List.length tools =? 0)%nat; reflexivity.
Qed.

Lemma createSystemPrompt_state (s : state) :
  snd (ToolsContext.createSystemPrompt s) = snd (getAvailableTools s).
Proof.
  unfold ToolsContext.createSystemPrompt, bindM at 1.
  rewrite <- getToolsContext_state.
  destruct (ToolsContext.getToolsContext s) as [[text|e] s']; reflexivity.
Qed.

Lemma executeTool_state toolName args (s : state) :
  snd (executeTool toolName args s) = snd (callTool toolName args s).
Proof.
  destruct (executeTool_returns toolName args s) as (r & -> & _).
  reflexivity.
Qed.

Lemma perform_steady (o : Session.operation) (s : state) :
  steady s (Session.perform o s).
Proof.
  destruct o; cbn [Session.perform].
  - apply initialize_steady.
  - apply getAvailableTools_steady.
  - rewrite getToolsContext_state. apply getAvailableTools_steady.
  - rewrite createSystemPrompt_state. apply getAvailableTools_steady.
  - rewrite executeTool_state. apply callTool_steady.
Qed.

(** X13.  Over any sequence of public operations on a service
    instance: the catalog, once marked loaded, stays loaded; the
    connection, once up, stays up and the SDK is never asked to connect
    again; and as long as the instance is not connected, nothing but
    connection attempts has reached the SDK. *)
Theorem service_keeps_catalog_and_connection :
  forall (ops : list Session.operation) (s : state),
    exists added : list Sdk.event,
      trace (Session.performAll ops s) = (trace s ++ added)%list
      /\ (toolsLoaded s = true ->
          toolsLoaded (Session.performAll ops s) = true)
      /\ (connected s = true ->
          connected (Session.performAll ops s) = true
          /\ ~ In (Sdk.Wire Sdk.Connect) added)
      /\ (connected (Session.performAll ops s) = false ->
          forallb quiet added = true).
Proof.
  intros ops s. change (steady s (Session.performAll ops s)).
  revert s. induction ops as [|o rest IH]; intros s.
  - apply steady_refl.
  - cbn [Session.performAll].
    eapply steady_trans; [apply perform_steady | apply IH].
Qed.

End Service.

(** ** Reloading the catalog *)

Section Reload.
Context {client : Sdk.Client} {host : JS.Host}.
Import JS GitHubMcpService.






End Reload.



Lemma callTool_connects_first_witness :
  exists added : list Sdk.event,
    GitHubMcpService.trace
      (snd (GitHubMcpService.callTool (client := Sample.client)
              "get_issue" (JS.JObj []) GitHubMcpService.fresh))
    = added
    /\ In (Sdk.Wire Sdk.Connect) added
    /\ In (Sdk.Wire (Sdk.CallTool "get_issue" (JS.JObj []))) added.
Proof.
  destruct (@callTool_connects_first Sample.client "get_issue" (JS.JObj [])
              GitHubMcpService.fresh)
    as (added & Htrace & Hconnect & _ & Hcall & _).
  exists added. split; [exact Htrace|].
  split; [apply Hconnect; reflexivity | apply Hcall; reflexivity].
Defined.

Lemma client_errors_are_named_witness :
  exists cause : string,
    JS.Error "Failed to connect to GitHub MCP server: offline"
    = JS.Error ("Failed to connect to GitHub MCP server: " ++ cause).
Proof.
  destruct (@client_errors_are_named Sample.offline GitHubMcpService.fresh
              (snd (GitHubMcpService.connect (client := Sample.offline)
                      GitHubMcpService.fresh))
              (JS.Error "Failed to connect to GitHub MCP server: offline"))
    as (Hconnect & _).
  exact (Hconnect eq_refl).
Defined.

Lemma disconnect_never_throws_witness :
  exists s' : GitHubMcpService.state,
    GitHubMcpService.disconnect (client := Sample.offline)
      (GitHubMcpService.set_connected true GitHubMcpService.fresh)
    = (JS.Ok tt, s')
    /\ GitHubMcpService.connected s' = true.
Proof.
  destruct (@disconnect_never_throws Sample.offline
              (GitHubMcpService.set_connected true GitHubMcpService.fresh))
    as (s' & Hrun & _ & Hup).
  exists s'. split; [exact Hrun|].
  destruct (Hup eq_refl) as [_ Hconnected]. exact Hconnected.
Defined.

Lemma executeTool_always_reports_witness :
  exists r : GitHubMcpService.GitHubToolResult,
    GitHubMcpService.executeTool (client := Sample.client) (host := Sample.host)
      "broken" (JS.JObj []) GitHubMcpService.fresh
    = (JS.Ok r,
       snd (GitHubMcpService.callTool (client := Sample.client)
              "broken" (JS.JObj []) GitHubMcpService.fresh))
    /\ GitHubMcpService.success r = false
    /\ GitHubMcpService.error r = Some "Failed to call tool 'broken': boom".
Proof.
  destruct (@executeTool_always_reports Sample.client Sample.host
              "broken" (JS.JObj []) GitHubMcpService.fresh)
    as (r & Hrun & _ & Hsuccess & _ & Hfailed).
  assert (Hflag : GitHubMcpService.success r = false).
  { destruct (GitHubMcpService.success r); [|reflexivity].
    destruct (proj1 Hsuccess eq_refl) as (d & Hd & _).
    vm_compute in Hd. discriminate Hd. }
  exists r. split; [exact Hrun|]. split; [exact Hflag|].
  destruct (Hfailed Hflag) as (e & Herror & _ & _ & [Hthrown|(d & Hd & _)]).
  - rewrite Herror. vm_compute in Hthrown. injection Hthrown as <-.
    reflexivity.
  - vm_compute in Hd. discriminate Hd.
Defined.

Lemma initialize_needs_only_the_connection_witness :
  exists s' : GitHubMcpService.state,
    GitHubMcpService.initialize (client := Sample.client) GitHubMcpService.fresh
    = (JS.Ok tt, s')
    /\ GitHubMcpService.connected s' = true
    /\ GitHubMcpService.toolsLoaded s' = true.
Proof.
  destruct (@initialize_needs_only_the_connection Sample.client
              GitHubMcpService.fresh (or_intror eq_refl))
    as (s' & Hrun & Hconnected & Hloaded & _).
  exists s'. auto.
Defined.

Lemma getAvailableTools_loads_once_and_for_all_witness :
  exists (tools : list GitHubMcpService.GitHubTool),
    fst (GitHubMcpService.getAvailableTools (client := Sample.client)
           GitHubMcpService.fresh) = JS.Ok tools
    /\ Forall (fun tool => GitHubMcpService.description tool <> "") tools.
Proof.
  destruct (@getAvailableTools_loads_once_and_for_all Sample.client
              GitHubMcpService.fresh)
    as (tools & s' & Hrun & _ & _ & Hfirst).
  exists tools. rewrite Hrun. split; [reflexivity|].
  destruct (Hfirst eq_refl) as [Hdescribed _]. exact Hdescribed.
Defined.

Lemma service_keeps_catalog_and_connection_witness :
  exists added : list Sdk.event,
    GitHubMcpService.trace
      (Session.performAll (client := Sample.offline) (host := Sample.host)
         [Session.GetAvailableTools;
          Session.ExecuteTool "get_issue" (JS.JObj []);
          Session.CreateSystemPrompt]
         GitHubMcpService.fresh)
    = added
    /\ forallb quiet added = true.
Proof.
  destruct (@service_keeps_catalog_and_connection Sample.offline Sample.host
              [Session.GetAvailableTools;
               Session.ExecuteTool "get_issue" (JS.JObj []);
               Session.CreateSystemPrompt]
              GitHubMcpService.fresh)
    as (added & Htrace & _ & _ & Hquiet).
  exists added. split; [exact Htrace | apply Hquiet; reflexivity].
Defined.

(** ** What the model and the user are shown *)

Section Rendering.
Context {client : Sdk.Client} {host : JS.Host}.
Import JS GitHubMcpService.

Lemma mapR_returns {A B} (f : A -> result B) (l : list A) :
  (forall x, In x l -> exists y, f x = Ok y) ->
  exists ys, mapR f l = Ok ys /\ List.length ys = List.length l.
Proof.
  induction l as [|x rest IH]; intros Hf.
  - exists []. auto.
  - destruct (Hf x (or_introl eq_refl)) as [y Hy].
    destruct IH as (ys & Hys & Hlen).
    { intros x' Hin. apply Hf. right. exact Hin. }
    exists (y :: ys). cbn [mapR]. rewrite Hy, Hys. cbn. auto.
Qed.

Lemma mapR_throws {A B} (f : A -> result B) (l : list A) (x : A) :
  In x l -> is_ok (f x) = false -> is_ok (mapR f l) = false.
Proof.
  induction l as [|x' rest IH]; intros Hin Hx; [contradiction|].
  cbn [mapR]. destruct (f x') as [y|e] eqn:Hy; [|reflexivity].
  destruct Hin as [->|Hin]; [rewrite Hy in Hx; discriminate|].
  cbn [bind]. specialize (IH Hin Hx).
  destruct (mapR f rest); [discriminate | reflexivity].
Qed.

Lemma show_primitive (v : value) :
  primitive v = true -> exists text, show v = Ok text.
Proof.
  destruct v; try discriminate; intros _; cbn; eauto.
Qed.

(** X14.  When the first listing brings no tool (the SDK fails, or
    answers without tools), [getToolsContext] does not throw: it
    returns the sentence saying that no tools are available, the
    catalog counts as loaded, and [createSystemPrompt] still returns a
    prompt, with that sentence right after its opening line. *)
Theorem empty_catalog_is_spelled_out :
  forall s : state,
    toolsLoaded s = false ->
    no_tools_listed (fst (listTools s)) = true ->
    exists s' : state,
      ToolsContext.getToolsContext s
      = (Ok "No GitHub MCP tools are currently available.", s')
      /\ toolsLoaded s' = true
      /\ availableTools s' = []
      /\ exists rest : string,
           ToolsContext.createSystemPrompt s
           = (Ok (("You are a GitHub assistant that helps users interact with GitHub repositories using available MCP tools."
                   ++ newline ++ newline)
                  ++ "No GitHub MCP tools are currently available."
                  ++ rest), s').
Proof.
  intros s Hl Hnone.
  assert (Hget : exists s', getAvailableTools s = (Ok [], s')
                            /\ toolsLoaded s' = true
                            /\ availableTools s' = []).
  { unfold getAvailableTools, bindM at 1, read at 1. rewrite Hl.
    unfold loadAvailableTools, toolsReceived, loadFailed, bindM, tryM.
    destruct (listTools s) as [[[[|tool listed]|]|err] s1];
      try discriminate; eexists; repeat split. }
  destruct Hget as (s' & Hget & Hloaded & Hempty).
  assert (Hcontext : ToolsContext.getToolsContext s
                     = (Ok "No GitHub MCP tools are currently available.", s')).
  { unfold ToolsContext.getToolsContext, bindM. rewrite Hget. reflexivity. }
  exists s'. repeat split; try assumption.
  unfold ToolsContext.createSystemPrompt, bindM. rewrite Hcontext.
  unfold ret.
  destruct (GitHubToolParser.present (fst getDefaultRepository)
            && GitHubToolParser.present (snd getDefaultRepository));
    eexists; rewrite !append_assoc; reflexivity.
Qed.

Lemma parameterLine_returns (schema : value) (entry : string * value) :
  match get_opt schema "required" with
  | JUndefined | JNull | JArr _ => true
  | _ => false
  end = true ->
  plain_parameter entry = true ->
  exists line, ToolsContext.parameterLine schema entry = Ok line.
Proof.
  intros Hrequired Hplain. unfold ToolsContext.parameterLine. cbv zeta.
  assert (Hincludes : exists b,
             ToolsContext.includesParam (get_opt schema "required") (fst entry)
             = Ok b).
  { destruct (get_opt schema "required"); try discriminate; cbn; eauto. }
  destruct Hincludes as [b ->]. cbn [bind].
  unfold plain_parameter in Hplain.
  assert (Hread : forall k, get (snd entry) k = Ok (get_opt (snd entry) k)).
  { intros k. destruct (snd entry); try discriminate; reflexivity. }
  assert (Hfields : primitive (get_opt (snd entry) "description") = true
                    /\ primitive (get_opt (snd entry) "type") = true).
  { destruct (snd entry); try discriminate;
      apply andb_true_iff in Hplain; exact Hplain. }
  destruct Hfields as [Hd Ht].
  rewrite !Hread. cbn [bind].
  destruct (truthy (get_opt (snd entry) "description")).
  - destruct (show_primitive _ Hd) as [text ->]. cbn [bind]. eauto.
  - cbn [bind].
    assert (Hor : primitive (or_else (get_opt (snd entry) "type")
                               (JStr "No description")) = true).
    { unfold or_else. destruct (truthy _); [exact Ht | reflexivity]. }
    destruct (show_primitive _ Hor) as [text ->]. cbn [bind]. eauto.
Qed.

Lemma toolBlock_returns (tool : GitHubTool) :
  plain_schema (inputSchema tool) = true ->
  exists rest, ToolsContext.toolBlock tool = Ok (tool_heading tool ++ rest).
Proof.
  unfold plain_schema, ToolsContext.toolBlock. fold (tool_heading tool).
  destruct (get_opt (inputSchema tool) "properties") as [| |b|z|t|items|props]
    eqn:Hprops; cbn [truthy negb]; try discriminate.
  - intros _. cbn [bind]. eauto.
  - intros _. cbn [bind]. eauto.
  - intros Hb. apply negb_true_iff in Hb. rewrite Hb. cbn [bind]. eauto.
  - intros Hz. apply negb_true_iff in Hz. rewrite Hz. cbn [bind]. eauto.
  - intros Ht. apply negb_true_iff in Ht. rewrite Ht. cbn [bind]. eauto.
  - intros H. apply andb_true_iff in H as [Hrequired Hplain].
    cbn [ToolsContext.objectEntries bind].
    destruct (mapR_returns (ToolsContext.parameterLine (inputSchema tool)) props)
      as (lines & -> & _).
    { intros entry Hin. apply parameterLine_returns; [exact Hrequired|].
      rewrite forallb_forall in Hplain. apply Hplain. exact Hin. }
    cbn [bind]. eexists. rewrite !append_assoc. reflexivity.
Qed.

(** X15.  For a catalog in which every input schema is plain (no
    parameters, or parameters as JSON Schema writes them) the tools
    context is always produced: the fixed title, then one block per
    tool in catalog order, each opening with the tool's name and its
    description. *)
Theorem plain_catalog_is_rendered :
  forall tools : list GitHubTool,
    Forall (fun tool => plain_schema (inputSchema tool) = true) tools ->
    exists blocks : list string,
      ToolsContext.renderTools tools
      = Ok ("Available GitHub MCP tools:" ++ newline ++ newline
            ++ String.concat "" blocks)
      /\ Forall2 (fun tool block =>
                    exists rest, block = tool_heading tool ++ rest)
           tools blocks.
Proof.
  intros tools Hplain.
  assert (H : exists blocks,
             mapR ToolsContext.toolBlock tools = Ok blocks
             /\ Forall2 (fun tool block =>
                           exists rest, block = tool_heading tool ++ rest)
                  tools blocks).
  { induction Hplain as [|tool rest Htool _ IH].
    - exists []. split; [reflexivity | constructor].
    - destruct (toolBlock_returns tool Htool) as [tail Hblock].
      destruct IH as (blocks & Hblocks & Hall).
      exists ((tool_heading tool ++ tail) :: blocks). split.
      + cbn [mapR]. rewrite Hblock, Hblocks. reflexivity.
      + constructor; eauto. }
  destruct H as (blocks & Hblocks & Hall).
  exists blocks. split; [|exact Hall].
  unfold ToolsContext.renderTools. rewrite Hblocks. reflexivity.
Qed.

(** X16.  One parameter whose schema is [null] is enough to break the
    tools context: with such a tool anywhere in a loaded catalog,
    [getToolsContext] and [createSystemPrompt] throw, and the instance
    is left as it was. *)
Theorem null_parameter_breaks_the_prompt :
  forall (s : state) (tool : GitHubTool) (props : list (string * value))
         (param : string),
    toolsLoaded s = true ->
    In tool (availableTools s) ->
    get_opt (inputSchema tool) "properties" = JObj props ->
    In (param, JNull) props ->
    exists e e' : exn,
      ToolsContext.getToolsContext s = (Throw e, s)
      /\ ToolsContext.createSystemPrompt s = (Throw e', s).
Proof.
  intros s tool props param Hl Htool Hprops Hparam.
  assert (Hline : is_ok (ToolsContext.parameterLine (inputSchema tool)
                           (param, JNull)) = false).
  { unfold ToolsContext.parameterLine. cbn [fst snd].
    destruct (ToolsContext.includesParam _ _); reflexivity. }
  assert (Hblock : is_ok (ToolsContext.toolBlock tool) = false).
  { unfold ToolsContext.toolBlock. rewrite Hprops.
    cbn [truthy ToolsContext.objectEntries bind].
    pose proof (mapR_throws _ _ _ Hparam Hline) as Hlines.
    destruct (mapR _ props); [discriminate | reflexivity]. }
  assert (Hrender : is_ok (ToolsContext.renderTools (availableTools s)) = false).
  { unfold ToolsContext.renderTools.
    pose proof (mapR_throws _ _ _ Htool Hblock) as Hblocks.
    destruct (mapR _ (availableTools s)); [discriminate | reflexivity]. }
  assert (Hcontext : exists e, ToolsContext.getToolsContext s = (Throw e, s)).
  { unfold ToolsContext.getToolsContext, bindM.
    rewrite (loaded_catalog_is_served_from_cache s Hl).
    destruct (availableTools s) as [|first others] eqn:Hcatalog;
      [contradiction|].
    cbn [List.length Nat.eqb]. unfold lift.
    destruct (ToolsContext.renderTools (first :: others));
      [discriminate | eauto]. }
  destruct Hcontext as [e Hcontext].
  exists e, e. split; [exact Hcontext|].
  unfold ToolsContext.createSystemPrompt, bindM. rewrite Hcontext.
  reflexivity.
Qed.

Lemma join_of_texts (sep : string) (texts : list string) :
  join sep (map JStr texts) = Ok (String.concat sep texts).
Proof.
  unfold join. rewrite map_map.
  change (map (fun t => join_elem (ToString_within join_depth) (JStr t)) texts)
    with (map (@Ok string) texts).
  induction texts as [|t rest IH]; [reflexivity|].
  destruct rest as [|t' rest']; [reflexivity|].
  change (joinR sep (map Ok (t :: t' :: rest')))
    with (bind (joinR sep (map Ok (t' :: rest')))
            (fun r => Ok (t ++ sep ++ r))).
  rewrite IH. reflexivity.
Qed.

(** X17.  A result in the MCP envelope is shown as its texts: when
    [content] is an array whose items all carry text, the formatted
    result is those texts, in order, separated by blank lines, whatever
    else the result holds. *)
Theorem text_envelope_is_joined_by_blank_lines :
  forall (toolName : string) (result : value) (items : list value)
         (texts : list string),
    get_opt result "content" = JArr items ->
    Forall2 carries_text items texts ->
    formatToolResult toolName result
    = Ok (String.concat (newline ++ newline) texts).
Proof.
  intros toolName result items texts Hcontent Hitems.
  unfold formatToolResult, formatByShape. rewrite Hcontent.
  cbn [truthy isArray andb].
  assert (Hparts : mapR (fun item =>
                           bind (get item "type") (fun ty =>
                             if is_text "text" ty then get item "text"
                             else bind (stringify2 item) (fun json =>
                                    Ok (JStr json)))) items
                   = Ok (map JStr texts)).
  { clear Hcontent.
    induction Hitems as [|item t items' texts' [Htype Htext] _ IH];
      [reflexivity|].
    cbn [mapR map].
    assert (Hread : forall k, get item k = Ok (get_opt item k)).
    { intros k. destruct item; try discriminate Htype; reflexivity. }
    rewrite Hread. cbn [bind]. rewrite Htype, Hread, Htext. cbn [bind].
    rewrite IH. reflexivity. }
  rewrite Hparts. cbn [bind]. unfold nl. rewrite join_of_texts. reflexivity.
Qed.

(** X18.  The list formatters never look past their cap.  Whatever
    follows the tenth repository, the fifth pull request, the fifth
    issue or the tenth tool is not read: replacing it by any other tail
    of the same length changes nothing, not even whether the formatter
    throws. *)
Theorem list_formatters_stop_at_their_cap :
  forall (shown hidden hidden' : list value) (others : list (string * value)),
    List.length hidden = List.length hidden' ->
    (List.length shown = 10%nat ->
     GitHubToolParser.formatRepoList (JArr (shown ++ hidden))
     = GitHubToolParser.formatRepoList (JArr (shown ++ hidden'))
     /\ GitHubToolParser.formatToolsList
          (JObj (("tools", JArr (shown ++ hidden)) :: others))
        = GitHubToolParser.formatToolsList
            (JObj (("tools", JArr (shown ++ hidden')) :: others)))
    /\ (List.length shown = 5%nat ->
        GitHubToolParser.formatPullRequestList (JArr (shown ++ hidden))
        = GitHubToolParser.formatPullRequestList (JArr (shown ++ hidden'))
        /\ GitHubToolParser.formatIssuesList (JArr (shown ++ hidden))
           = GitHubToolParser.formatIssuesList (JArr (shown ++ hidden'))).
Proof.
  intros shown hidden hidden' others Hsame.
  assert (Htotal : arr_length (shown ++ hidden) = arr_length (shown ++ hidden')).
  { unfold arr_length. rewrite !length_app, Hsame. reflexivity. }
  split; intros Hcap.
  - assert (Hcut : forall tail, firstn 10 (shown ++ tail) = shown).
    { intros tail. apply take_app_length'. symmetry. exact Hcap. }
    unfold GitHubToolParser.formatRepoList, GitHubToolParser.formatToolsList,
      GitHubToolParser.of_total.
    cbn [get_opt own String.eqb Ascii.eqb Bool.eqb truthy isArray negb orb
         GitHubToolParser.elements bind].
    rewrite !Hcut, Htotal. split; reflexivity.
  - assert (Hcut : forall tail, firstn 5 (shown ++ tail) = shown).
    { intros tail. apply take_app_length'. symmetry. exact Hcap. }
    unfold GitHubToolParser.formatPullRequestList,
      GitHubToolParser.formatIssuesList, GitHubToolParser.of_total.
    cbn [truthy isArray negb orb GitHubToolParser.elements bind].
    rewrite !Hcut, Htotal. split; reflexivity.
Qed.

End Rendering.

(** ** The pattern resolver *)

Section Patterns.
Context {host : JS.Host}.
Import JS Regex GitHubToolParser.

(** Whatever a match hands to its continuation has every sure group of
    the expression captured, and keeps the captures made before. *)
Lemma run_sets_groups {R : Type} (ignoreCase : bool) (r : re) :
  forall (s : string) (caps : captures)
         (k : string -> captures -> option R) (out : R),
    run ignoreCase r s caps k = Some out ->
    exists (s' : string) (caps' : captures),
      k s' caps' = Some out
      /\ forall i : nat,
           In i (sure_groups r) \/ capture i caps <> None ->
           capture i caps' <> None.
Proof.
  induction r as [p|p|p|a IHa b IHb|a IHa b IHb|a IHa|j a IHa];
    intros s caps k out; cbn [run sure_groups].
  - destruct (eat ignoreCase p s) as [s'|]; [|discriminate].
    intros H. exists s', caps. split; [exact H|]. intros i [[]|Hi]. exact Hi.
  - destruct s as [|c s']; [discriminate|].
    destruct (p c); [|discriminate].
    intros H. exists s', caps. split; [exact H|]. intros i [[]|Hi]. exact Hi.
  - induction s as [|c s' IHs]; [discriminate|].
    destruct (p c); [|discriminate].
    match goal with
    | |- context [match ?more s' with _ => _ end] =>
        destruct (more s') as [out'|] eqn:Hmore
    end.
    + intros H. injection H as <-. apply IHs. reflexivity.
    + intros H. exists s', caps. split; [exact H|].
      intros i [[]|Hi]. exact Hi.
  - intros H.
    apply IHa in H as (s1 & caps1 & H & Hcaps1).
    apply IHb in H as (s2 & caps2 & H & Hcaps2).
    exists s2, caps2. split; [exact H|].
    intros i [Hi|Hi].
    + apply in_app_or in Hi as [Hi|Hi]; auto.
    + auto.
  - destruct (run ignoreCase a s caps k) as [out'|] eqn:Ha.
    + intros H. injection H as <-.
      apply IHa in Ha as (s' & caps' & H & Hcaps).
      exists s', caps'. split; [exact H|]. intros i [[]|Hi]. auto.
    + intros H.
      apply IHb in H as (s' & caps' & H & Hcaps).
      exists s', caps'. split; [exact H|]. intros i [[]|Hi]. auto.
  - destruct (run ignoreCase a s caps k) as [out'|] eqn:Ha.
    + intros H. injection H as <-.
      apply IHa in Ha as (s' & caps' & H & Hcaps).
      exists s', caps'. split; [exact H|]. intros i [[]|Hi]. auto.
    + intros H. exists s, caps. split; [exact H|]. intros i [[]|Hi]. exact Hi.
  - intros H.
    apply IHa in H as (s' & caps' & H & Hcaps).
    exists s', ((j, consumed s s') :: caps'). split; [exact H|].
    intros i Hi. cbn [capture].
    destruct (Nat.eqb_spec i j) as [->|Hne]; [discriminate|].
    apply Hcaps. destruct Hi as [[Hi|Hi]|Hi]; [congruence | auto | auto].
Qed.

(** A match found by [exec] has every sure group captured. *)
Lemma exec_sets_groups (ignoreCase : bool) (r : re) (s : string)
    (m : captures) (i : nat) :
  exec ignoreCase r s = Some m -> In i (sure_groups r) ->
  exists text, capture i m = Some text.
Proof.
  intros H Hi.
  assert (Hhere : exists s0, match_here ignoreCase r s0 = Some m).
  { induction s as [|c s' IH]; cbn [exec] in H.
    - destruct (match_here ignoreCase r "") eqn:Hm; [|discriminate].
      injection H as <-. eauto.
    - destruct (match_here ignoreCase r (String c s')) eqn:Hm; [|auto].
      injection H as <-. eauto. }
  destruct Hhere as [s0 Hhere]. unfold match_here in Hhere.
  apply run_sets_groups in Hhere as (s' & caps' & Hk & Hcaps).
  injection Hk as <-.
  destruct (capture i caps') as [text|] eqn:Hc; [eauto|].
  exfalso. exact (Hcaps i (or_introl Hi) Hc).
Qed.

(** No repository reference means no match for a repository name
    either. *)
Lemma no_reference_no_name (text : string) :
  extractRepoReference text = None -> extractRepoName text = None.
Proof.
  unfold extractRepoReference, extractRepoName.
  destruct (exec false owner_repo_re text) as [full|] eqn:Hfull.
  - destruct (exec_sets_groups _ _ _ _ 1%nat Hfull) as [o ->];
      [cbn; auto|].
    destruct (exec_sets_groups _ _ _ _ 2%nat Hfull) as [n ->];
      [cbn; auto|].
    discriminate.
  - destruct (exec false repo_name_re text) as [m|] eqn:Hm; [|reflexivity].
    destruct (exec_sets_groups _ _ _ _ 1%nat Hm) as [n ->]; [cbn; auto|].
    discriminate.
Qed.

(** Names the value bound by the outermost [let] under [Q]. *)
Ltac peel Q x :=
  lazymatch goal with
  | |- Q (let y := ?v in @?b y) =>
      change (let y := v in Q (b y)); intro x; cbv beta
  end.

(** States the goal as [Q (parseUserIntent m)] with the body of
    [parseUserIntent] in place of its name. *)
Ltac open_intents Q m :=
  pattern (parseUserIntent m);
  lazymatch goal with
  | |- ?P _ => set (Q := P)
  end;
  cbv delta [parseUserIntent]; cbv beta.

(** Splits the tests of one category. *)
Ltac split_step :=
  cbv zeta;
  repeat match goal with
         | |- context [if ?c then _ else _] => destruct c
         | |- context [match ?e with _ => _ end] => destruct e
         end.

Lemma step_in_order (pre : list string) (n : string)
    (inv inv' : list ToolInvocation) :
  sublist (map toolName inv) pre ->
  (inv' = inv \/ exists x, inv' = push inv x /\ toolName x = n) ->
  sublist (map toolName inv') (pre ++ [n])%list.
Proof.
  intros Hpre [->|(x & -> & <-)].
  - apply sublist_inserts_r. exact Hpre.
  - unfold push. rewrite map_app. apply sublist_app; [exact Hpre|reflexivity].
Qed.

(** One category of [parseUserIntent]: [x] is the list after it, [H]
    what is known of the list before it. *)
Ltac category Q x H H' n :=
  peel Q x;
  pose proof (step_in_order _ n _ x H) as H';
  cbn [app] in H';
  (lapply H'; [clear H'; intros H' | unfold x; split_step; eauto]);
  clearbody x.

(** X19.  The pattern resolver proposes each specific tool at most
    once, in the fixed order of its categories, whatever the order of
    the phrases in the message; [_list_tools] is proposed only alone. *)
Theorem intents_come_in_category_order :
  forall m : string,
    sublist (map toolName (parseUserIntent m)) specific_tools
    \/ map toolName (parseUserIntent m) = ["_list_tools"].
Proof.
  intros m. open_intents Q m.
  peel Q text. clearbody text. peel Q i0.
  assert (H0 : sublist (map toolName i0) []) by constructor.
  clearbody i0.
  category Q i1 H0 H1 "github_repo_list".
  category Q i2 H1 H2 "github_repo_create".
  category Q i3 H2 H3 "github_pr_list".
  category Q i4 H3 H4 "github_pr_create".
  category Q i5 H4 H5 "github_issues_list".
  category Q i6 H5 H6 "github_issue_get".
  category Q i7 H6 H7 "github_issue_create".
  category Q i8 H7 H8 "github_file_get".
  category Q i9 H8 H9 "github_user_get".
  peel Q i10. subst Q i10. cbv beta. fold specific_tools in H9.
  destruct i9 as [|first others]; cbn [List.length Nat.eqb andb].
  - destruct (matchesPattern text _); [right; reflexivity | left; exact H9].
  - left. exact H9.
Qed.

Lemma step_repo_free (inv inv' : list ToolInvocation) :
  Forall (fun i => In (toolName i) repo_free_tools) inv ->
  (inv' = inv
   \/ exists x, inv' = push inv x /\ In (toolName x) repo_free_tools) ->
  Forall (fun i => In (toolName i) repo_free_tools) inv'.
Proof.
  intros Hinv [->|(x & -> & Hx)]; [exact Hinv|].
  unfold push. apply Forall_app. split; [exact Hinv|]. constructor; auto.
Qed.

Ltac repo_free_category Q x H H' Hnone Hname :=
  peel Q x;
  pose proof (step_repo_free _ x H) as H';
  (lapply H';
   [clear H'; intros H'
   | unfold x; rewrite ?Hnone, ?Hname; split_step;
     solve [auto | right; eexists; split; [reflexivity|]; cbn; auto]]);
  clearbody x.

(** X20.  A message that names no repository, read where no default
    repository is configured, gets no repository-scoped tool: only the
    repository list, the user profile or the tools list can be
    proposed. *)
Theorem no_repository_no_scoped_tool :
  forall m : string,
    extractRepoReference (Str.trim (Str.toLowerCase m)) = None ->
    Forall (fun i => In (toolName i) repo_free_tools) (parseUserIntent m).
Proof.
  intros m Hnone. open_intents Q m.
  peel Q text. fold text in Hnone.
  pose proof (no_reference_no_name text Hnone) as Hname.
  clearbody text. peel Q i0.
  assert (H0 : Forall (fun i => In (toolName i) repo_free_tools) i0)
    by constructor.
  clearbody i0.
  repo_free_category Q i1 H0 H1 Hnone Hname.
  repo_free_category Q i2 H1 H2 Hnone Hname.
  repo_free_category Q i3 H2 H3 Hnone Hname.
  repo_free_category Q i4 H3 H4 Hnone Hname.
  repo_free_category Q i5 H4 H5 Hnone Hname.
  repo_free_category Q i6 H5 H6 Hnone Hname.
  repo_free_category Q i7 H6 H7 Hnone Hname.
  repo_free_category Q i8 H7 H8 Hnone Hname.
  repo_free_category Q i9 H8 H9 Hnone Hname.
  repo_free_category Q i10 H9 H10 Hnone Hname.
  subst Q. exact H10.
Qed.

Lemma lower_char_twice (c : ascii) :
  Str.lower_char (Str.lower_char c) = Str.lower_char c.
Proof. destruct c as [[] [] [] [] [] [] [] []]; reflexivity. Qed.

Lemma is_space_lower_char (c : ascii) :
  Str.is_space (Str.lower_char c) = Str.is_space c.
Proof. destruct c as [[] [] [] [] [] [] [] []]; reflexivity. Qed.

Lemma toLowerCase_twice (s : string) :
  Str.toLowerCase (Str.toLowerCase s) = Str.toLowerCase s.
Proof.
  induction s as [|c rest IH]; [reflexivity|].
  cbn [Str.toLowerCase]. rewrite lower_char_twice, IH. reflexivity.
Qed.

Lemma toLowerCase_trimStart (s : string) :
  Str.toLowerCase (Str.trimStart s) = Str.trimStart (Str.toLowerCase s).
Proof.
  induction s as [|c rest IH]; [reflexivity|].
  cbn [Str.toLowerCase Str.trimStart]. rewrite is_space_lower_char.
  destruct (Str.is_space c); [exact IH | reflexivity].
Qed.

Lemma toLowerCase_trimEnd (s : string) :
  Str.toLowerCase (Str.trimEnd s) = Str.trimEnd (Str.toLowerCase s).
Proof.
  induction s as [|c rest IH]; [reflexivity|].
  cbn [Str.toLowerCase Str.trimEnd]. rewrite <- IH, is_space_lower_char.
  destruct (Str.trimEnd rest) as [|k kept]; cbn [Str.toLowerCase].
  - destruct (Str.is_space c); reflexivity.
  - reflexivity.
Qed.

Lemma trimStart_twice (s : string) :
  Str.trimStart (Str.trimStart s) = Str.trimStart s.
Proof.
  induction s as [|c rest IH]; [reflexivity|].
  cbn [Str.trimStart]. destruct (Str.is_space c) eqn:Hc; [exact IH|].
  cbn [Str.trimStart]. rewrite Hc. reflexivity.
Qed.

Lemma trimEnd_twice (s : string) :
  Str.trimEnd (Str.trimEnd s) = Str.trimEnd s.
Proof.
  induction s as [|c rest IH]; [reflexivity|].
  cbn [Str.trimEnd].
  destruct (Str.trimEnd rest) as [|k kept] eqn:Hrest.
  - destruct (Str.is_space c) eqn:Hc; [reflexivity|].
    cbn [Str.trimEnd]. rewrite Hc. reflexivity.
  - change (Str.trimEnd (String c (String k kept)))
      with (match Str.trimEnd (String k kept) with
            | EmptyString =>
                if Str.is_space c then EmptyString else String c EmptyString
            | String k' kept' => String c (String k' kept')
            end).
    rewrite IH. reflexivity.
Qed.

(** What starts with no white space still does after [trimEnd]. *)
Lemma trimStart_trimEnd (s : string) :
  Str.trimStart s = s -> Str.trimStart (Str.trimEnd s) = Str.trimEnd s.
Proof.
  destruct s as [|c rest]; [reflexivity|].
  cbn [Str.trimStart]. destruct (Str.is_space c) eqn:Hc.
  - intros H. exfalso.
    assert (Hlen : forall t, (String.length (Str.trimStart t) <= String.length t)%nat).
    { induction t as [|d t IH]; cbn [Str.trimStart]; [lia|].
      destruct (Str.is_space d); cbn [String.length] in *; lia. }
    specialize (Hlen rest). rewrite H in Hlen. cbn [String.length] in Hlen. lia.
  - intros _. cbn [Str.trimEnd].
    destruct (Str.trimEnd rest) as [|k kept].
    + rewrite Hc. cbn [Str.trimStart]. rewrite Hc. reflexivity.
    + cbn [Str.trimStart]. rewrite Hc. reflexivity.
Qed.

Lemma trim_twice (s : string) : Str.trim (Str.trim s) = Str.trim s.
Proof.
  unfold Str.trim.
  rewrite (trimStart_trimEnd (Str.trimStart s) (trimStart_twice s)).
  apply trimEnd_twice.
Qed.

Lemma toLowerCase_trim (s : string) :
  Str.toLowerCase (Str.trim s) = Str.trim (Str.toLowerCase s).
Proof.
  unfold Str.trim. rewrite toLowerCase_trimEnd, toLowerCase_trimStart.
  reflexivity.
Qed.

(** [parseUserIntent] reads its message only through the trimmed
    lower-case text. *)
Lemma intents_of_text (m m' : string) :
  Str.trim (Str.toLowerCase m) = Str.trim (Str.toLowerCase m') ->
  parseUserIntent m = parseUserIntent m'.
Proof.
  intros H. cbv delta [parseUserIntent]. cbv beta. rewrite H. reflexivity.
Qed.

(** X21.  The pattern resolver is blind to letter case and to white
    space around the message: two messages with the same lower-case
    form get the same invocations, and so do a message, its lower-case
    form and its trimmed form. *)
Theorem intents_ignore_case_and_margins :
  forall m m' : string,
    (Str.toLowerCase m = Str.toLowerCase m' ->
     parseUserIntent m = parseUserIntent m')
    /\ parseUserIntent (Str.toLowerCase m) = parseUserIntent m
    /\ parseUserIntent (Str.trim m) = parseUserIntent m.
Proof.
  intros m m'. repeat split.
  - intros H. apply intents_of_text. rewrite H. reflexivity.
  - apply intents_of_text. rewrite toLowerCase_twice. reflexivity.
  - apply intents_of_text. rewrite toLowerCase_trim. apply trim_twice.
Qed.

End Patterns.

(** ** The keyword resolver and the message handler *)

Section Turn.
Context {client : Sdk.Client} {host : JS.Host}.
Import JS GitHubMcpService.

Lemma name_or_known (pred : GitHubTool -> bool) (tools : list GitHubTool)
    (fallback : string) :
  In (App.name_or pred tools fallback) (map name tools)
  \/ App.name_or pred tools fallback = fallback.
Proof.
  unfold App.name_or. destruct (List.find pred tools) as [t|] eqn:Hfind; auto.
  destruct (String.eqb (name t) ""); auto.
  left. apply in_map. apply (List.find_some _ _ Hfind).
Qed.

(** X22.  The keyword resolver proposes at most one tool call per
    request, and never invents a name: the tool is one of the catalog,
    or the fallback [get_issue] or [list_repos] when the catalog has
    no match.  A decision with a call asks for no more information. *)
Theorem resolver_proposes_at_most_one_call :
  forall (availableTools : list GitHubTool) (userRequest : string),
    let decision := App.resolve availableTools userRequest in
    (List.length (App.toolCalls decision) <= 1)%nat
    /\ Forall (fun call => known_name availableTools (App.toolName call))
         (App.toolCalls decision)
    /\ (App.toolCalls decision <> [] ->
        App.needsMoreInfo decision = false
        /\ App.missingInfo decision = None).
Proof.
  intros availableTools userRequest decision. subst decision.
  unfold App.resolve.
  match goal with
  | |- context [if (List.length (App.toolCalls ?d) =? 0)%nat then _ else _] =>
      remember d as before eqn:Hd
  end.
  assert (Hshape : (App.toolCalls before = []
                    \/ exists call, App.toolCalls before = [call]
                                    /\ known_name availableTools
                                         (App.toolName call))
                   /\ App.needsMoreInfo before = false
                   /\ App.missingInfo before = None).
  { subst before. unfold known_name.
    pose proof (name_or_known
                  (fun t => Str.includes (name t) "issue"
                            && Str.includes (name t) "get")
                  availableTools "get_issue") as Hissue.
    pose proof (name_or_known
                  (fun t => Str.includes (name t) "repo"
                            && Str.includes (name t) "list")
                  availableTools "list_repos") as Hrepos.
    destruct (Str.includes _ "issue" && Str.includes _ "#").
    - destruct (Regex.exec false App.hash_number_re _) as [issueMatch|];
        [|auto].
      destruct (Regex.capture 1 issueMatch) as [digits|]; [|auto].
      repeat split. right. eexists. split; [reflexivity|].
      cbn [App.toolName]. tauto.
    - destruct (Str.includes _ "available" && Str.includes _ "tool"); [auto|].
      destruct (Str.includes _ "list" && Str.includes _ "repo").
      + repeat split. right. eexists. split; [reflexivity|].
        cbn [App.toolName]. tauto.
      + destruct (List.find _ availableTools) as [relevantTool|] eqn:Hfind;
          [|auto].
        repeat split. right. eexists. split; [reflexivity|].
        cbn [App.toolName]. left. apply in_map.
        apply (List.find_some _ _ Hfind). }
  clear Hd. destruct Hshape as ([Hnone|(call & Hone & Hknown)] & Hflag & Hmissing).
  - rewrite Hnone. cbn. rewrite ?Hnone. repeat split; auto; congruence.
  - rewrite Hone. cbn. rewrite ?Hone. repeat split; auto.
Qed.




(** The sender of a turn is always a string: the [id], else the
    [aadObjectId], else [unknown-user]. *)
Lemma sender_is_a_string (ctx : Handler.TurnContext) :
  exists userId : string,
    OAuthFlow.getUserIdFromContext (Handler.contextValue ctx)
    = Ok (JStr userId)
    /\ (Handler.activity_from ctx = None -> userId = "unknown-user").
Proof.
  unfold OAuthFlow.getUserIdFromContext, Handler.contextValue.
  destruct (Handler.activity_from ctx) as [[[id|] [aad|]]|];
    cbn; unfold or_else; cbn;
    repeat match goal with
           | |- context [String.eqb ?a ""] => destruct (String.eqb a "")
           end;
    cbn; eexists; (split; [reflexivity|]); (discriminate || reflexivity).
Qed.

(** X23.  Without a valid token the handler never touches the SDK.  It
    sends the sign-in card and nothing else, and the card's button
    leads to the login route with the sender's encoded id: the [id] of
    the activity's sender, else the [aadObjectId], else
    [unknown-user]. *)
Theorem unauthenticated_turn_gets_sign_in_card :
  forall (encodeURIComponent : string -> string) (now : Z)
         (tokenStore : gmap string GitHubOAuth.GitHubTokenInfo)
         (ctx : Handler.TurnContext),
    exists userId : string,
      OAuthFlow.getUserIdFromContext (Handler.contextValue ctx)
      = Ok (JStr userId)
      /\ (Handler.activity_from ctx = None -> userId = "unknown-user")
      /\ (TokenStore.hasValidToken now tokenStore userId = false ->
          Handler.turn encodeURIComponent now tokenStore ctx
          = ([Handler.AuthCard
                (OAuthFlow.or_default (env "BOT_ENDPOINT")
                   "http://localhost:3978"
                 ++ "/auth/github?userId=" ++ encodeURIComponent userId)],
             [])).
Proof.
  intros encodeURIComponent now tokenStore ctx.
  destruct (sender_is_a_string ctx) as (userId & Hid & Hnone).
  exists userId. split; [exact Hid|]. split; [exact Hnone|].
  intros Hinvalid.
  unfold Handler.turn, Handler.onMessage, Handler.tryH, Handler.bindH,
    Handler.liftR.
  rewrite Hid, Hinvalid. reflexivity.
Qed.


(** X25.  With a valid token but an SDK that refuses the connection,
    the user gets exactly one message, which names the failed steps and
    the SDK's own error, and nothing but the connection attempt reaches
    the SDK. *)
Theorem refused_connection_is_reported_once :
  forall (encodeURIComponent : string -> string) (now : Z)
         (tokenStore : gmap string GitHubOAuth.GitHubTokenInfo)
         (ctx : Handler.TurnContext) (userId : string) (e : exn),
    OAuthFlow.getUserIdFromContext (Handler.contextValue ctx)
    = Ok (JStr userId) ->
    TokenStore.hasValidToken now tokenStore userId = true ->
    Sdk.client_connect [Sdk.Method Sdk.Connect] = Throw e ->
    Handler.turn encodeURIComponent now tokenStore ctx
    = ([Handler.Message
          ("❌ **Error processing GitHub request**: "
           ++ ("Failed to initialize GitHub MCP service: "
               ++ ("Failed to connect to GitHub MCP server: "
                   ++ message_or_unknown e))
           ++ newline ++ newline
           ++ "Please try again or contact support if the issue persists.")],
       [Sdk.Method Sdk.Connect; Sdk.Wire Sdk.Connect]).
Proof.
  intros encodeURIComponent now tokenStore ctx userId e Hid Hvalid Hrefused.
  unfold Handler.turn, Handler.onMessage, Handler.tryH, Handler.bindH,
    Handler.liftR.
  rewrite Hid, Hvalid. cbn [negb].
  unfold TokenStore.hasValidToken in Hvalid.
  destruct (TokenStore.getStoredToken tokenStore userId) as [tokenInfo|];
    [|discriminate].
  unfold Handler.serve, Handler.bindH, Handler.liftM, initialize.
  open_client. cbn [fresh connected trace app]. rewrite Hrefused.
  reflexivity.
Qed.

End Turn.

(** ** The JSON in the model's answer *)

Section Extraction.
Import Regex LlmDriven.

Lemma run_plus_cons {R : Type} (ignoreCase : bool) (p : ascii -> bool)
    (c : ascii) (t : string) (caps : captures)
    (k : string -> captures -> option R) :
  run ignoreCase (Plus p) (String c t) caps k
  = if p c then
      match run ignoreCase (Plus p) t caps k with
      | Some out => Some out
      | None => k t caps
      end
    else None.
Proof. reflexivity. Qed.

Lemma no_brace_cons (b c : ascii) (t : string) :
  Str.includes (String c t) (String b "") = false ->
  Ascii.eqb b c = false /\ Str.includes t (String b "") = false.
Proof.
  cbn [Str.includes Str.startsWith]. rewrite andb_true_r.
  intros H. apply orb_false_iff in H. exact H.
Qed.

Lemma length_append (a b : string) :
  String.length (a ++ b) = (String.length a + String.length b)%nat.
Proof.
  induction a as [|c a IH]; [reflexivity|].
  rewrite append_cons. cbn [String.length]. rewrite IH. reflexivity.
Qed.

Lemma consumed_prefix (a b : string) : consumed (a ++ b) b = a.
Proof.
  unfold consumed. rewrite length_append.
  replace (String.length a + String.length b - String.length b)%nat
    with (String.length a) by lia.
  induction a as [|c a IH]; [destruct b; reflexivity|].
  rewrite append_cons. cbn [String.length Str.take]. rewrite IH. reflexivity.
Qed.

(** The greedy run backs up to the last closing brace. *)
Lemma greedy_run_ends_at_last_brace {R : Type} (after : string)
    (k : string -> captures -> option R) (f : string -> option R) (out : R) :
  Str.includes after "}" = false ->
  (forall s, k s [] = match eat false "}" s with
                      | Some s' => f s'
                      | None => None
                      end) ->
  f after = Some out ->
  forall inside : string,
    run false (Opt (Plus any_char)) (inside ++ "}" ++ after) [] k = Some out.
Proof.
  intros Hafter Hk Hout.
  assert (Hbrace : k (String "}" after) [] = Some out).
  { rewrite Hk. exact Hout. }
  assert (Hnone : forall (t : string) (c : ascii),
             Str.includes t "}" = false ->
             run false (Plus any_char) (String c t) [] k = None).
  { induction t as [|d t IH]; intros c Ht; rewrite run_plus_cons;
      cbn [any_char].
    - cbn [run]. rewrite Hk. reflexivity.
    - apply no_brace_cons in Ht as [Hd Ht].
      rewrite (IH d Ht), Hk. cbn [eat same_char]. rewrite Hd. reflexivity. }
  assert (Hlast : forall (x : string) (c : ascii),
             run false (Plus any_char) (String c (x ++ "}" ++ after)) [] k
             = Some out).
  { induction x as [|d x IH]; intros c; rewrite run_plus_cons;
      cbn [any_char].
    - rewrite append_nil_l, append_cons, append_nil_l.
      rewrite (Hnone after "}"%char Hafter). exact Hbrace.
    - rewrite append_cons, IH. reflexivity. }
  intros inside.
  change (run false (Opt (Plus any_char)) (inside ++ "}" ++ after) [] k)
    with (match run false (Plus any_char) (inside ++ "}" ++ after) [] k with
          | Some out' => Some out'
          | None => k (inside ++ "}" ++ after) []
          end).
  destruct inside as [|c x].
  - rewrite append_nil_l, append_cons, append_nil_l.
    rewrite (Hnone after "}"%char Hafter). exact Hbrace.
  - rewrite append_cons, Hlast. reflexivity.
Qed.

(** X26.  The JSON taken from the model's answer runs from the first
    opening brace to the last closing brace of the text, whatever lies
    in between (further braces included); an answer without an opening
    brace, or no answer at all, yields nothing. *)
Theorem json_spans_first_to_last_brace :
  forall before inside after : string,
    Str.includes before "{" = false ->
    (Str.includes after "}" = false ->
     extractJson (Some (before ++ "{" ++ inside ++ "}" ++ after))
     = Some ("{" ++ inside ++ "}"))
    /\ extractJson (Some before) = None
    /\ extractJson None = None.
Proof.
  intros before inside after Hbefore.
  assert (Hskip : forall rest : string,
             exec false json_re (before ++ rest) = exec false json_re rest).
  { induction before as [|c b IH]; intros rest; [reflexivity|].
    apply no_brace_cons in Hbefore as [Hc Hb].
    rewrite append_cons. cbn [exec].
    unfold match_here at 1. cbn [json_re seq run eat same_char].
    rewrite Hc. apply IH. exact Hb. }
  repeat split.
  - intros Hafter. unfold extractJson. rewrite Hskip.
    set (text := "{" ++ inside ++ "}" ++ after).
    pose (f := fun rest : string =>
                 Some [(0%nat, consumed text rest)] : option captures).
    pose (k := fun (s : string) (caps : captures) =>
                 run false (Lit "}") s caps
                   (fun s' caps' =>
                      Some ((0%nat, consumed text s') :: caps'))).
    assert (Hhere : match_here false json_re text
                    = Some [(0%nat, "{" ++ inside ++ "}")]).
    { change (match_here false json_re text)
        with (run false (Opt (Plus any_char)) (inside ++ "}" ++ after) [] k).
      rewrite (greedy_run_ends_at_last_brace after k f
                 [(0%nat, consumed text after)]).
      - unfold text.
        replace ("{" ++ inside ++ "}" ++ after)
          with (("{" ++ inside ++ "}") ++ after)
          by (rewrite !append_assoc; reflexivity).
        rewrite consumed_prefix. reflexivity.
      - exact Hafter.
      - intros s. unfold k, f. cbn [run].
        destruct (eat false "}" s); reflexivity.
      - reflexivity. }
    destruct text as [|c t] eqn:Htext; [discriminate|].
    cbn [exec]. rewrite Hhere. reflexivity.
  - unfold extractJson.
    rewrite <- (append_nil_r before), Hskip. reflexivity.
Qed.

End Extraction.

Lemma empty_catalog_is_spelled_out_witness :
  fst (ToolsContext.getToolsContext (client := Sample.offline)
         (host := Sample.host) GitHubMcpService.fresh)
  = JS.Ok "No GitHub MCP tools are currently available.".
Proof.
  destruct (@empty_catalog_is_spelled_out Sample.offline Sample.host
              GitHubMcpService.fresh eq_refl eq_refl)
    as (s' & Hcontext & _).
  rewrite Hcontext. reflexivity.
Defined.

Lemma plain_catalog_is_rendered_witness :
  exists blocks : list string,
    ToolsContext.renderTools (host := Sample.host) sample_catalog
    = JS.Ok ("Available GitHub MCP tools:" ++ JS.newline ++ JS.newline
             ++ String.concat "" blocks)
    /\ List.length blocks = 2%nat.
Proof.
  destruct (@plain_catalog_is_rendered Sample.host sample_catalog)
    as (blocks & Hrender & Hall).
  { repeat constructor. }
  exists blocks. split; [exact Hrender|].
  apply Forall2_length in Hall. symmetry. exact Hall.
Defined.

Lemma null_parameter_breaks_the_prompt_witness :
  JS.is_ok (fst (ToolsContext.createSystemPrompt (client := Sample.client)
                   (host := Sample.host) broken_instance)) = false.
Proof.
  destruct (@null_parameter_breaks_the_prompt Sample.client Sample.host
              broken_instance broken_tool [("query", JS.JNull)] "query"
              eq_refl (or_introl eq_refl) eq_refl (or_introl eq_refl))
    as (e & e' & _ & Hprompt).
  rewrite Hprompt. reflexivity.
Defined.

Lemma text_envelope_is_joined_by_blank_lines_witness :
  GitHubMcpService.formatToolResult (host := Sample.host) "get_issue"
    (JS.JObj [("content",
               JS.JArr [JS.JObj [("type", JS.JStr "text");
                                 ("text", JS.JStr "first")];
                        JS.JObj [("type", JS.JStr "text");
                                 ("text", JS.JStr "second")]]);
              ("number", JS.JNum 68); ("title", JS.JStr "ignored")])
  = JS.Ok ("first" ++ JS.newline ++ JS.newline ++ "second").
Proof.
  apply (@text_envelope_is_joined_by_blank_lines Sample.host "get_issue" _
           [JS.JObj [("type", JS.JStr "text"); ("text", JS.JStr "first")];
            JS.JObj [("type", JS.JStr "text"); ("text", JS.JStr "second")]]
           ["first"; "second"]).
  - reflexivity.
  - repeat constructor.
Defined.

Lemma list_formatters_stop_at_their_cap_witness :
  GitHubToolParser.formatIssuesList (host := Sample.host)
    (JS.JArr (repeat partial_issue 5 ++ [JS.JNull]))
  = GitHubToolParser.formatIssuesList (host := Sample.host)
      (JS.JArr (repeat partial_issue 5 ++ [JS.JNum 7])).
Proof.
  destruct (@list_formatters_stop_at_their_cap Sample.host
              (repeat partial_issue 5) [JS.JNull] [JS.JNum 7] [] eq_refl)
    as [_ Hfive].
  destruct (Hfive eq_refl) as [_ Hissues]. exact Hissues.
Defined.

Lemma no_repository_no_scoped_tool_witness :
  Forall (fun i => In (GitHubToolParser.toolName i) repo_free_tools)
    (GitHubToolParser.parseUserIntent (host := Sample.host)
       "List issues, then show my profile").
Proof.
  apply (@no_repository_no_scoped_tool Sample.host). reflexivity.
Defined.

Lemma intents_ignore_case_and_margins_witness :
  GitHubToolParser.parseUserIntent (host := Sample.host) "LIST REPOS"
  = GitHubToolParser.parseUserIntent (host := Sample.host) "list repos".
Proof.
  destruct (@intents_ignore_case_and_margins Sample.host
              "LIST REPOS" "list repos") as (Hcase & _).
  apply Hcase. reflexivity.
Defined.

Lemma resolver_proposes_at_most_one_call_witness :
  App.needsMoreInfo
    (App.resolve (host := Sample.host) sample_catalog "show issue #68")
  = false.
Proof.
  destruct (@resolver_proposes_at_most_one_call Sample.host sample_catalog
              "show issue #68") as (_ & _ & Hcall).
  apply Hcall. discriminate.
Defined.

Lemma unauthenticated_turn_gets_sign_in_card_witness :
  exists userId : string,
    Handler.turn (client := Sample.client) (host := Sample.host)
      (fun s => s) 5000 ∅ sample_turn
    = ([Handler.AuthCard
          ("http://localhost:3978/auth/github?userId=" ++ userId)], []).
Proof.
  destruct (@unauthenticated_turn_gets_sign_in_card Sample.client Sample.host
              (fun s => s) 5000 ∅ sample_turn)
    as (userId & _ & _ & Hcard).
  exists userId. apply Hcard. reflexivity.
Defined.

Lemma refused_connection_is_reported_once_witness :
  snd (Handler.turn (client := Sample.offline) (host := Sample.host)
         (fun s => s) 5000 sample_store sample_turn)
  = [Sdk.Method Sdk.Connect; Sdk.Wire Sdk.Connect].
Proof.
  rewrite (@refused_connection_is_reported_once Sample.offline Sample.host
             (fun s => s) 5000 sample_store sample_turn "alice"
             (JS.Error "offline") eq_refl eq_refl eq_refl).
  reflexivity.
Defined.

Lemma json_spans_first_to_last_brace_witness :
  LlmDriven.extractJson (Some "Here: {a: {}} and {b} done")
  = Some "{a: {}} and {b}".
Proof.
  destruct (json_spans_first_to_last_brace "Here: " "a: {}} and {b" " done"
              eq_refl) as (Hspan & _).
  apply Hspan. reflexivity.
Defined.

(** ** The debug endpoints *)

Section Endpoints.
Import JS GitHubMcpService.

(** X27.  The configuration endpoint gives away neither credential:
    its reply is the same for any two environments that differ only in
    the value of the client secret (set in both or in neither) and in
    what follows the first twelve characters of the client id. *)
Theorem config_hides_the_credentials :
  forall (h1 h2 : Host) (timestamp : string),
    (forall key : string,
        key <> "GITHUB_CLIENT_ID" -> key <> "GITHUB_CLIENT_SECRET" ->
        @env h1 key = @env h2 key) ->
    OAuthFlow.present (@env h1 "GITHUB_CLIENT_SECRET")
    = OAuthFlow.present (@env h2 "GITHUB_CLIENT_SECRET") ->
    OAuthFlow.present (@env h1 "GITHUB_CLIENT_ID")
    = OAuthFlow.present (@env h2 "GITHUB_CLIENT_ID") ->
    Str.take 12 (OAuthFlow.or_default (@env h1 "GITHUB_CLIENT_ID") "")
    = Str.take 12 (OAuthFlow.or_default (@env h2 "GITHUB_CLIENT_ID") "") ->
    Debug.config (host := h1) timestamp = Debug.config (host := h2) timestamp.
Proof.
  intros h1 h2 timestamp Hrest Hsecret Hid Hprefix.
  unfold Debug.config.
  rewrite (Hrest "GITHUB_OAUTH_REDIRECT_URI"), (Hrest "GITHUB_DEFAULT_OWNER"),
    (Hrest "GITHUB_DEFAULT_REPO") by discriminate.
  rewrite Hsecret, Hid, Hprefix. reflexivity.
Qed.

Context {client : Sdk.Client} {host : Host}.


End Endpoints.

Lemma config_hides_the_credentials_witness :
  Debug.config (host := configured "Iv1.0123456789abcdef" "s3cret") "now"
  = Debug.config (host := configured "Iv1.01234567-other" "another") "now".
Proof.
  apply config_hides_the_credentials; try reflexivity.
  intros key Hid Hsecret. cbn.
  destruct (String.eqb_spec key "GITHUB_CLIENT_ID"); [contradiction|].
  destruct (String.eqb_spec key "GITHUB_CLIENT_SECRET"); [contradiction|].
  reflexivity.
Defined.

